(** * LLM tool-calling demo: the tool-call extraction protocol

    A shallow embedding of [tool_call_demo.py]: the response
    post-processor ([LLMToolClient._process_llm_response]), the tool-call
    parser ([ToolExecutor.parse_tool_calls]), the dispatcher
    ([ToolExecutor.execute_tool_call]), the workflow driver
    ([run_tool_calling_demo]), the logger ([Logger.log_step]), the
    configuration loader ([load_config]) and the entry point.

    Python text is a sequence of Unicode code points; the three regular
    expressions of the program are written as syntax trees and run by a
    small backtracking matcher with the greedy and lazy repetition of
    Python's [re] module. *)

From Stdlib Require Import ZArith NArith List String Ascii Lia Bool.
From Stdlib Require Import Floats.SpecFloat.
From Stdlib Require DecimalString DecimalNat.
From stdpp Require Import base list gmap.

Local Open Scope N_scope.
Local Set Warnings "-register-all".
Local Close Scope string_scope.

(** ** Text *)

(** A Python [str]: the list of its code points. *)
Abbreviation str := (list N).

(** An ASCII literal of the source as a [str]. *)
Definition lit (s : string) : str :=
  map N_of_ascii (list_ascii_of_string s).

(** [str.isspace] on one character, which is also the class [\s] of a
    [str] pattern: the Unicode white-space code points. *)
Definition isspace (c : N) : bool :=
  ((9 <=? c) && (c <=? 13)) || ((28 <=? c) && (c <=? 32))
  || (c =? 133) || (c =? 160) || (c =? 5760)
  || ((8192 <=? c) && (c <=? 8202))
  || (c =? 8232) || (c =? 8233) || (c =? 8239) || (c =? 8287) || (c =? 12288).

Fixpoint lstrip (s : str) : str :=
  match s with
  | c :: s' => if isspace c then lstrip s' else s
  | [] => []
  end.

Definition rstrip (s : str) : str := rev (lstrip (rev s)).

(** [s.strip()] *)
Definition strip (s : str) : str := rstrip (lstrip s).

(** Decimal rendering of a number inside an f-string. *)
Definition str_of_nat (n : nat) : str :=
  lit (DecimalString.NilZero.string_of_uint (Nat.to_uint n)).

(** ** Regular expressions *)

Module Re.

(** The fragment of pattern syntax the program uses: one-character
    tests (literals, [.], [\s], [[^>]]), concatenation, greedy and lazy
    repetition of a one-character test, and capture groups. *)
Inductive regex :=
| Eps
| Chr (p : N -> bool)
| Cat (r1 r2 : regex)
| Star (greedy : bool) (p : N -> bool)
| Group (g : string) (r : regex).

Definition captures := list (string * str).

Section Backtracking.
Context {R : Type}.

(** [p*]: take as many characters as possible, give one back at a
    time while the rest of the pattern fails. *)
Fixpoint star_greedy (p : N -> bool) (s : str) (k : str -> option R) : option R :=
  match s with
  | c :: s' =>
      if p c then
        match star_greedy p s' k with
        | Some r => Some r
        | None => k s
        end
      else k s
  | [] => k []
  end.

(** [p*?]: try the rest of the pattern first, take one more character
    each time it fails. *)
Fixpoint star_lazy (p : N -> bool) (s : str) (k : str -> option R) : option R :=
  match k s with
  | Some r => Some r
  | None =>
      match s with
      | c :: s' => if p c then star_lazy p s' k else None
      | [] => None
      end
  end.
End Backtracking.

(** One anchored match attempt, in continuation-passing style: [k] is
    the rest of the pattern; the result is the groups and the text left
    after the match. *)
Fixpoint exec (r : regex) (s : str) (cs : captures)
    (k : str -> captures -> option (captures * str)) : option (captures * str) :=
  match r with
  | Eps => k s cs
  | Chr p =>
      match s with
      | c :: s' => if p c then k s' cs else None
      | [] => None
      end
  | Cat r1 r2 => exec r1 s cs (fun s1 cs1 => exec r2 s1 cs1 k)
  | Star true p => star_greedy p s (fun s1 => k s1 cs)
  | Star false p => star_lazy p s (fun s1 => k s1 cs)
  | Group g r1 =>
      exec r1 s cs
        (fun s1 cs1 => k s1 ((g, take (length s - length s1) s) :: cs1))
  end.

Definition match_at (r : regex) (s : str) : option (captures * str) :=
  exec r s [] (fun s1 cs => Some (cs, s1)).

(** [m.group(g)]; the groups of the program's patterns always take part
    in a match. *)
Fixpoint group (g : string) (cs : captures) : str :=
  match cs with
  | (g', v) :: cs' => if String.eqb g g' then v else group g cs'
  | [] => []
  end.

(** The left-to-right scan shared by [finditer] and [sub]: at each
    position one match attempt; after a match the scan resumes where the
    match ended, otherwise the character is passed over. The patterns
    of the program match at least one character, so the rules for empty
    matches never apply. *)
Fixpoint scan_aux (r : regex) (fuel : nat) (s : str) : list (N + captures) :=
  match fuel with
  | O => []
  | S fuel' =>
      match s with
      | [] => []
      | c :: s' =>
          match match_at r s with
          | Some (cs, rest) => inr cs :: scan_aux r fuel' rest
          | None => inl c :: scan_aux r fuel' s'
          end
      end
  end.

Definition scan (r : regex) (s : str) : list (N + captures) :=
  scan_aux r (length s) s.

(** [pattern.finditer(s)]: the matches, left to right. *)
Definition finditer (r : regex) (s : str) : list captures :=
  omap (fun i => match i with inr cs => Some cs | inl _ => None end) (scan r s).

(** [pattern.sub(repl, s)] for a replacement without group references. *)
Definition sub (r : regex) (repl : str) (s : str) : str :=
  concat (map (fun i => match i with inr _ => repl | inl c => [c] end) (scan r s)).

(** Pattern construction. *)
Definition seq (rs : list regex) : regex := fold_right Cat Eps rs.

(** A literal without flags (the result of [re.escape]). *)
Definition literal (w : str) : regex := seq (map (fun c => Chr (N.eqb c)) w).

(** A pattern character under [re.IGNORECASE], for an ASCII pattern
    character [l]: a text character matches when its lower case is [l];
    besides the two ASCII cases, [i] matches U+0130 and U+0131, [k]
    U+212A and [s] U+017F. *)
Definition ignorecase (l : N) (x : N) : bool :=
  (x =? l)
  || ((97 <=? l) && (l <=? 122) && (x =? l - 32))
  || ((65 <=? l) && (l <=? 90) && (x =? l + 32))
  || (((l =? 105) || (l =? 73)) && ((x =? 304) || (x =? 305)))
  || (((l =? 107) || (l =? 75)) && (x =? 8490))
  || (((l =? 115) || (l =? 83)) && (x =? 383)).

Definition literal_i (w : str) : regex := seq (map (fun c => Chr (ignorecase c)) w).

(** [.] under [re.DOTALL]. *)
Definition dot : N -> bool := fun _ => true.

(** [[^>]] *)
Definition not_gt : N -> bool := fun c => negb (c =? 62).

(** [p+] is [pp*]. *)
Definition plus (p : N -> bool) : regex := Cat (Chr p) (Star true p).

End Re.

(** ** Values, exceptions, collaborators *)

(** An instance of [Exception], as a handler [except Exception as e]
    sees it: what [type(e).__name__] and [str(e)] give. The results of
    the collaborators range over returning and raising such an
    instance. What is raised outside [Exception] ([KeyboardInterrupt],
    [SystemExit]) passes every handler of the program and has no
    counterpart here, and printing is taken to succeed: what is proved
    of a run is proved of the runs in which the collaborators return or
    raise an [Exception]. *)
Record exn := { exn_type : str; exn_msg : str }.

Inductive result (A : Type) :=
| Ok (a : A)
| Raise (e : exn).
Arguments Ok {A} a.
Arguments Raise {A} e.

Definition ValueError (msg : str) : exn :=
  {| exn_type := lit "ValueError"; exn_msg := msg |}.
Definition RuntimeError (msg : str) : exn :=
  {| exn_type := lit "RuntimeError"; exn_msg := msg |}.

(** Python values a tool-call argument can hold: what [json.loads]
    returns, or the raw text. *)
Inductive pyval :=
| PNone
| PBool (b : bool)
| PInt (z : Z)
| PFloat (f : spec_float)
| PStr (s : str)
| PList (l : list pyval)
| PDict (d : list (str * pyval)).

(** [{"function": {"name": ..., "arguments": {...}}}] *)
Record function_call := { name : str; arguments : gmap str pyval }.
Record ToolCall := { function : function_call }.

(** A conversation or tool-result entry: [role], [content] and, where
    the dict has the key, [tool_call_id]. *)
Record Message := { role : str; content : str; tool_call_id : option str }.

Record ToolCallConfig := {
  api_key : str;
  base_url : str;
  model_name : str;
  template_path : str;
  use_json_tooldef : bool;
  add_generation_prompt : bool;
  show_thinking_tokens : bool;
  max_tokens : Z;
  thinking_budget : Z;
  tools : list pyval
}.

Inductive template_file (template : Type) :=
| FileNotFound
| LoadFailed (e : exn)
| Loaded (t : template).
Arguments FileNotFound {template}.
Arguments LoadFailed {template} e.
Arguments Loaded {template} t.

(** The collaborators outside the program: the configuration sources
    behind [load_config] (environment and file), the constructor of the
    endpoint client, the template engine, the completion endpoint (its
    answer to the [n]-th request of the run), the clock (its [n]-th
    reading), and the library functions [json.loads], [strftime] and
    [traceback.format_exc]. *)
Class World := {
  Template : Type;
  Datetime : Type;
  load_config : option str -> result ToolCallConfig;
  OpenAI : str -> str -> result unit;
  open_template : str -> template_file Template;
  template_render : Template -> list Message -> ToolCallConfig -> result str;
  completions_create : nat -> str -> str -> Z -> result (list str);
  datetime_now : nat -> Datetime;
  strftime : Datetime -> str -> str;
  json_loads : str -> result pyval;
  format_exc : exn -> str
}.

(** The calls into the [re] module that the post-processor guards with
    [try ... except Exception], as their caller sees them: each returns
    or raises. *)
Class ReModule := {
  re_compile : Re.regex -> result Re.regex;
  re_sub : Re.regex -> str -> str -> result str
}.

(** The [re] module proper, which raises on none of these calls. *)
Definition re_module : ReModule :=
  {| re_compile r := Ok r; re_sub r repl s := Ok (Re.sub r repl s) |}.

(** ** Program state and control *)

(** The labelled boxes of [Logger.log_step], one constructor per call
    site; a label built by an f-string carries the interpolated value. *)
Inductive step :=
| StartingDemo
| LoadedConfiguration
| UserInput
| RenderingInitialPrompt
| RenderedPromptPreview
| SendingPrompt
| ResponseReceived
| NoToolCalls
| DirectAnswer
| ExecutingToolCalls
| ToolResult (func_name : str)
| ToolError (func_name : str)
| AddingToolResults
| RenderingFinalPrompt (conversation : list Message)
| SendingFinalPrompt (final_prompt : str)
| FinalResponse
| CriticalError
| FullTraceback.

(** What reaches the standard output: a box of [Logger.log_step], with
    its label and the text of its [Details] line if it has one, or a
    line of [print]. *)
Inductive output :=
| LogBox (s : step) (shown : option str)
| Print (line : str).

(** The [Details] line of [Logger.log_step] with the default
    [max_length]: none for empty details, and details longer than 5000
    characters cut there and followed by three dots. *)
Definition shown_details (details : str) : option str :=
  match details with
  | [] => None
  | _ :: _ =>
      Some (if (5000 <? length details)%nat
            then take 5000 details ++ lit "..."
            else details)
  end.

(** The box [Logger.log_step(step, details)] prints. *)
Definition LogStep (s : step) (details : str) : output :=
  LogBox s (shown_details details).

Record RunState := {
  stdout : list output;
  requests : nat;
  clock : nat;
  conversation : list Message
}.

Definition M (A : Type) : Type := RunState -> result A * RunState.

Definition ret {A} (a : A) : M A := fun st => (Ok a, st).

Definition bind {A B} (m : M A) (f : A -> M B) : M B :=
  fun st =>
    match m st with
    | (Ok a, st') => f a st'
    | (Raise e, st') => (Raise e, st')
    end.

Definition raise {A} (e : exn) : M A := fun st => (Raise e, st).

Definition lift {A} (r : result A) : M A := fun st => (r, st).

(** [try: m except Exception as e: h e]. Every [exn] is an instance of
    [Exception], so the handler receives each one. *)
Definition try_except {A} (m : M A) (h : exn -> M A) : M A :=
  fun st =>
    match m st with
    | (Ok a, st') => (Ok a, st')
    | (Raise e, st') => h e st'
    end.

Declare Scope run_scope.
Delimit Scope run_scope with run.
Notation "x <- m ;; k" := (bind m (fun x => k))
  (at level 100, m at next level, right associativity) : run_scope.
Notation "m ;; k" := (bind m (fun _ => k))
  (at level 100, right associativity) : run_scope.
Local Open Scope run_scope.

Definition emit (o : output) : M unit :=
  fun st =>
    (Ok tt, {| stdout := stdout st ++ [o]; requests := requests st;
               clock := clock st; conversation := conversation st |}).

Definition print (line : str) : M unit := emit (Print line).

(** [Logger.log_step(step, details)] *)
Definition log_step (s : step) (details : str) : M unit := emit (LogStep s details).

(** [conversation.append(m)] *)
Definition conversation_append (m : Message) : M unit :=
  fun st =>
    (Ok tt, {| stdout := stdout st; requests := requests st;
               clock := clock st; conversation := conversation st ++ [m] |}).

Definition get_conversation : M (list Message) := fun st => (Ok (conversation st), st).

Definition initial_state : RunState :=
  {| stdout := []; requests := 0%nat; clock := 0%nat; conversation := [] |}.

(** ** The program *)

Section Program.
Context {W : World} {re : ReModule}.

(** *** [LLMToolClient] *)

Record LLMToolClient := { config : ToolCallConfig; template : Template }.

Definition THINK_BEGIN_TOKEN : str := lit "<seed:think>".
Definition THINK_END_TOKEN : str := lit "</seed:think>".

Definition _load_jinja_template (cfg : ToolCallConfig) : M Template :=
  match open_template (template_path cfg) with
  | Loaded t => ret t
  | FileNotFound =>
      raise (RuntimeError (lit "Template file not found: " ++ template_path cfg))
  | LoadFailed e =>
      raise (RuntimeError (lit "Failed to load template: " ++ exn_msg e))
  end.

(** [LLMToolClient(config)] *)
Definition LLMToolClient_init (cfg : ToolCallConfig) : M LLMToolClient :=
  lift (OpenAI (api_key cfg) (base_url cfg));;
  t <- _load_jinja_template cfg;;
  ret {| config := cfg; template := t |}.

Definition render_prompt (self : LLMToolClient) (messages : list Message) : M str :=
  try_except
    (lift (template_render (template self) messages (config self)))
    (fun e => raise (RuntimeError (lit "Failed to render prompt: " ++ exn_msg e))).

(** [f"{re.escape(THINK_BEGIN_TOKEN)}(.*?){re.escape(THINK_END_TOKEN)}"]
    with [re.DOTALL] *)
Definition think_pattern : Re.regex :=
  Re.seq [Re.literal THINK_BEGIN_TOKEN;
          Re.Group "1" (Re.Star false Re.dot);
          Re.literal THINK_END_TOKEN].

(** [r'\n\s*\n'] *)
Definition blank_pattern : Re.regex :=
  Re.seq [Re.Chr (N.eqb 10); Re.Star true isspace; Re.Chr (N.eqb 10)].

Definition _process_llm_response (self : LLMToolClient) (llm_output : str) : M str :=
  if show_thinking_tokens (config self) then ret llm_output
  else
    try_except
      (pattern <- lift (re_compile think_pattern);;
       processed_output <- lift (re_sub pattern [] llm_output);;
       processed_output <- lift (re_sub blank_pattern [10; 10] processed_output);;
       ret (strip processed_output))
      (fun e =>
         print (lit "Warning: Failed to process thinking tokens: " ++ exn_msg e);;
         ret llm_output).

(** [self.client.completions.create(...)]: one request to the endpoint. *)
Definition completions (model prompt : str) (max_tok : Z) : M (list str) :=
  fun st =>
    (completions_create (requests st) model prompt max_tok,
     {| stdout := stdout st; requests := S (requests st);
        clock := clock st; conversation := conversation st |}).

Definition call_llm (self : LLMToolClient) (prompt : str) : M str :=
  try_except
    (choices <- completions (model_name (config self)) prompt (max_tokens (config self));;
     let raw_output := match choices with text :: _ => strip text | [] => [] end in
     _process_llm_response self raw_output)
    (fun e => raise (RuntimeError (lit "LLM API call failed: " ++ exn_msg e))).

(** *** [ToolExecutor] *)

Definition get_current_local_time : M str :=
  fun st =>
    (Ok (strftime (datetime_now (clock st)) (lit "%Y-%m-%d %H:%M:%S %Z%z")),
     {| stdout := stdout st; requests := requests st;
        clock := S (clock st); conversation := conversation st |}).

Definition execute_tool_call (tool_call : ToolCall) : M str :=
  let func_name := name (function tool_call) in
  if decide (func_name = lit "get_current_local_time") then get_current_local_time
  else raise (ValueError (lit "Unknown function '" ++ func_name ++ lit "'")).

(** [r"<function=(?P<name>[^>]+)>(?P<params>.*?)</function>"] with
    [re.DOTALL | re.IGNORECASE] *)
Definition function_pattern : Re.regex :=
  Re.seq [Re.literal_i (lit "<function=");
          Re.Group "name" (Re.plus Re.not_gt);
          Re.literal_i (lit ">");
          Re.Group "params" (Re.Star false Re.dot);
          Re.literal_i (lit "</function>")].

(** [r"<parameter=(?P<name>[^>]+)>(?P<value>.*?)</parameter>"] with
    [re.DOTALL | re.IGNORECASE] *)
Definition param_pattern : Re.regex :=
  Re.seq [Re.literal_i (lit "<parameter=");
          Re.Group "name" (Re.plus Re.not_gt);
          Re.literal_i (lit ">");
          Re.Group "value" (Re.Star false Re.dot);
          Re.literal_i (lit "</parameter>")].

(** The body of the inner loop: one parameter match stored in [params]. *)
Definition parse_param (params : gmap str pyval) (param_match : Re.captures)
    : gmap str pyval :=
  let param_name := strip (Re.group "name" param_match) in
  let param_value := strip (Re.group "value" param_match) in
  let param_value :=
    match json_loads param_value with
    | Ok v => v
    | Raise _ => PStr param_value
    end in
  <[param_name := param_value]> params.

(** The body of the outer loop: one function match turned into a call. *)
Definition parse_function (m : Re.captures) : ToolCall :=
  let func_name := strip (Re.group "name" m) in
  let params_text := strip (Re.group "params" m) in
  let params :=
    match params_text with
    | [] => ∅
    | _ :: _ => foldl parse_param ∅ (Re.finditer param_pattern params_text)
    end in
  {| function := {| name := func_name; arguments := params |} |}.

Definition parse_tool_calls (llm_output : str) : list ToolCall :=
  map parse_function (Re.finditer function_pattern llm_output).

(** *** [run_tool_calling_demo] *)

Definition user_query : str := lit "What's the current local time right now?".

(** The prefix of an error message as the source file has it. *)
Definition cross_mark : str := [8218; 249; 229].

Definition tool_call_id_of (idx : nat) : str := lit "call_" ++ str_of_nat idx.

(** One iteration of [for idx, tc in enumerate(tool_calls)]. *)
Definition execute_one (idx : nat) (tc : ToolCall) (tool_results : list Message)
    : M (list Message) :=
  try_except
    (result <- execute_tool_call tc;;
     let tool_results :=
       tool_results ++ [{| role := lit "tool"; content := result;
                           tool_call_id := Some (tool_call_id_of idx) |}] in
     log_step (ToolResult (name (function tc))) result;;
     ret tool_results)
    (fun e =>
       let error_msg :=
         cross_mark ++ lit " ERROR in tool '" ++ name (function tc) ++ lit "': "
         ++ exn_msg e in
       let tool_results :=
         tool_results ++ [{| role := lit "tool"; content := error_msg;
                             tool_call_id := Some (tool_call_id_of idx) |}] in
       log_step (ToolError (name (function tc))) (exn_msg e);;
       ret tool_results).

Fixpoint execute_tool_calls (idx : nat) (tool_calls : list ToolCall)
    (tool_results : list Message) : M (list Message) :=
  match tool_calls with
  | [] => ret tool_results
  | tc :: tool_calls' =>
      tool_results <- execute_one idx tc tool_results;;
      execute_tool_calls (S idx) tool_calls' tool_results
  end.

(** [for result in tool_results: conversation.append(...)] *)
Fixpoint append_results (tool_results : list Message) : M unit :=
  match tool_results with
  | [] => ret tt
  | result :: tool_results' =>
      conversation_append
        {| role := lit "tool"; content := content result; tool_call_id := None |};;
      append_results tool_results'
  end.

Definition run_tool_calling_demo (config_path : option str) : M unit :=
  log_step StartingDemo [];;
  try_except
    (cfg <- lift (load_config config_path);;
     log_step LoadedConfiguration (lit "Using template: " ++ template_path cfg);;
     llm_client <- LLMToolClient_init cfg;;
     conversation_append
       {| role := lit "user"; content := user_query; tool_call_id := None |};;
     log_step UserInput user_query;;
     log_step RenderingInitialPrompt [];;
     messages <- get_conversation;;
     rendered_prompt <- render_prompt llm_client messages;;
     log_step RenderedPromptPreview rendered_prompt;;
     log_step SendingPrompt [];;
     llm_output <- call_llm llm_client rendered_prompt;;
     log_step ResponseReceived llm_output;;
     let tool_calls := parse_tool_calls llm_output in
     match tool_calls with
     | [] =>
         log_step NoToolCalls (lit "LLM responded directly");;
         log_step DirectAnswer
           (match llm_output with [] => lit "Empty response" | _ :: _ => llm_output end)
     | _ :: _ =>
         log_step ExecutingToolCalls
           (lit "Found " ++ str_of_nat (length tool_calls) ++ lit " tool(s)");;
         tool_results <- execute_tool_calls 0 tool_calls [];;
         append_results tool_results;;
         log_step AddingToolResults [];;
         messages <- get_conversation;;
         log_step (RenderingFinalPrompt messages) [];;
         final_prompt <- render_prompt llm_client messages;;
         log_step (SendingFinalPrompt final_prompt) [];;
         final_answer <- call_llm llm_client final_prompt;;
         log_step FinalResponse
           (match final_answer with
            | [] => lit "No answer generated"
            | _ :: _ => final_answer
            end)
     end)
    (fun e =>
       log_step CriticalError (exn_type e ++ lit ": " ++ exn_msg e);;
       log_step FullTraceback (format_exc e)).

End Program.

(** * Derived matchers

    What one match attempt of each pattern of the program comes to, as
    plain functions on the text. *)

(** The text after a prefix that agrees with [w] character by character
    under the test [t]. *)
Fixpoint prefix_by (t : N -> N -> bool) (w s : str) : option str :=
  match w with
  | [] => Some s
  | l :: w' =>
      match s with
      | c :: s' => if t l c then prefix_by t w' s' else None
      | [] => None
      end
  end.

(** The first place where [w] occurs under [t]: the text before it and
    the text after it. *)
Fixpoint find_by (t : N -> N -> bool) (w s : str) : option (str * str) :=
  match prefix_by t w s with
  | Some post => Some ([], post)
  | None =>
      match s with
      | [] => None
      | c :: s' =>
          match find_by t w s' with
          | Some (pre, post) => Some (c :: pre, post)
          | None => None
          end
      end
  end.

(** The longest prefix of characters satisfying [p], and what follows it. *)
Fixpoint upto (p : N -> bool) (s : str) : str :=
  match s with
  | c :: s' => if p c then c :: upto p s' else []
  | [] => []
  end.

Fixpoint skip (p : N -> bool) (s : str) : str :=
  match s with
  | c :: s' => if p c then skip p s' else s
  | [] => []
  end.

(** [<TAG=NAME>BODY</TAG>] at the start of [s]: name, body and the text
    after the closing tag. *)
Definition tag_match (open close s : str) : option (str * str * str) :=
  match prefix_by Re.ignorecase open s with
  | None => None
  | Some r1 =>
      match upto Re.not_gt r1, skip Re.not_gt r1 with
      | (_ :: _) as nm, _ :: r2 =>
          match find_by Re.ignorecase close r2 with
          | Some (body, post) => Some (nm, body, post)
          | None => None
          end
      | _, _ => None
      end
  end.

Definition tag_pattern (g1 g2 : string) (open close : str) : Re.regex :=
  Re.seq [Re.literal_i open;
          Re.Group g1 (Re.plus Re.not_gt);
          Re.literal_i (lit ">");
          Re.Group g2 (Re.Star false Re.dot);
          Re.literal_i close].

(** A thinking span at the start of [s]: the text after its end marker. *)
Definition think_match (s : str) : option (str * str) :=
  match prefix_by N.eqb THINK_BEGIN_TOKEN s with
  | None => None
  | Some r1 => find_by N.eqb THINK_END_TOKEN r1
  end.

(** The text after the last newline of the white space that [s] starts
    with. *)
Fixpoint last_nl (s : str) : option str :=
  match s with
  | c :: s' =>
      if isspace c then
        match last_nl s' with
        | Some r => Some r
        | None => if c =? 10 then Some s' else None
        end
      else None
  | [] => None
  end.

(** A newline, white space, a newline at the start of [s]: the text
    after the last such newline. *)
Definition blank_match (s : str) : option str :=
  match s with
  | c :: s' => if c =? 10 then last_nl s' else None
  | [] => None
  end.

(** * Blocks, as the grammar describes them *)

(** [o] is the tag text [w] up to letter case. *)
Definition same_i (w o : str) : Prop :=
  Forall2 (fun l c => Re.ignorecase l c = true) w o.

(** [w] occurs somewhere in [s]. *)
Definition occurs (w s : str) : Prop := exists u v, s = u ++ w ++ v.

(** A block begins at the start of [t]: an opening tag, a non-empty
    name without [>], the [>], a body, and the first closing tag after
    the name; [post] is the text after the block. *)
Definition block_at (open close t nm body post : str) : Prop :=
  exists o c,
    t = o ++ nm ++ [62] ++ body ++ c ++ post
    /\ same_i open o /\ same_i close c
    /\ nm <> [] /\ (62 ∉ nm)
    /\ forall x c' y,
         body ++ c ++ post = x ++ c' ++ y -> same_i close c' ->
         (length body <= length x)%nat.

(** The blocks of a text, left to right: each is the leftmost block of
    the text that follows the previous one, so blocks do not overlap. *)
Inductive blocks (open close : str) : str -> list (str * str) -> Prop :=
| blocks_nil s :
    (forall u t, s = u ++ t -> forall nm body post, ~ block_at open close t nm body post) ->
    blocks open close s []
| blocks_cons u t nm body post bs :
    block_at open close t nm body post ->
    (forall u1 u2, u = u1 ++ u2 -> u2 <> [] ->
       forall nm' body' post', ~ block_at open close (u2 ++ t) nm' body' post') ->
    blocks open close post bs ->
    blocks open close (u ++ t) ((nm, body) :: bs).

Definition function_blocks : str -> list (str * str) -> Prop :=
  blocks (lit "<function=") (lit "</function>").

Definition parameter_blocks : str -> list (str * str) -> Prop :=
  blocks (lit "<parameter=") (lit "</parameter>").

(** Name and body of a tag match. *)
Definition tag_groups (cs : Re.captures) : str * str :=
  match cs with
  | [(_, body); (_, nm)] => (nm, body)
  | _ => ([], [])
  end.

(** The tag text [w] occurs in [s] up to letter case. *)
Definition occurs_i (w s : str) : Prop := exists u o v, s = u ++ o ++ v /\ same_i w o.

(** The value [parse_tool_calls] keeps for a raw parameter text. *)
Definition stored_value {W : World} (raw : str) : pyval :=
  match json_loads (strip raw) with
  | Ok v => v
  | Raise _ => PStr (strip raw)
  end.

(** One parameter block, name and raw text, stored in [params]. *)
Definition store {W : World} (params : gmap str pyval) (p : str * str)
    : gmap str pyval :=
  <[strip (fst p) := stored_value (snd p)]> params.

(** The raw text of the last parameter block named [k]. *)
Definition last_value (k : str) (ps : list (str * str)) : option str :=
  snd <$> last (filter (fun p => strip (fst p) = k) ps).

(** * A scripted world

    Collaborators with fixed answers, for running the program on
    examples: the endpoint answers the [n]-th request with the [n]-th
    scripted text, the template engine concatenates the message
    contents, the clock is stopped. *)

Fixpoint digits_value (acc : Z) (s : str) : option Z :=
  match s with
  | [] => Some acc
  | c :: s' =>
      if (48 <=? c) && (c <=? 57)
      then digits_value (10 * acc + Z.of_N (c - 48)) s'
      else None
  end.

Definition nat_literal (s : str) : option Z :=
  match s with
  | [] => None
  | [48] => Some 0%Z
  | 48 :: _ => None
  | _ => digits_value 0 s
  end.

Definition JSONDecodeError : exn :=
  {| exn_type := lit "JSONDecodeError";
     exn_msg := lit "Expecting value: line 1 column 1 (char 0)" |}.

(** [json.loads] on the documents the examples use: [null], [true],
    [false] and integer literals decode, a bare word is rejected. Other
    documents are outside the examples and this stand-in rejects them. *)
Definition json_scalar (s : str) : result pyval :=
  if decide (s = lit "null") then Ok PNone
  else if decide (s = lit "true") then Ok (PBool true)
  else if decide (s = lit "false") then Ok (PBool false)
  else
    match s with
    | 45 :: s' =>
        match nat_literal s' with
        | Some z => Ok (PInt (- z))
        | None => Raise JSONDecodeError
        end
    | _ =>
        match nat_literal s with
        | Some z => Ok (PInt z)
        | None => Raise JSONDecodeError
        end
    end.

(** The defaults of the [ToolCallConfig] dataclass. *)
Definition default_config : ToolCallConfig :=
  {| api_key := lit "your-api-key-here";
     base_url := lit "http://localhost:8080/v1";
     model_name := lit "Seed-OSS";
     template_path := lit "seed_oss_chat_template.jinja";
     use_json_tooldef := false;
     add_generation_prompt := true;
     show_thinking_tokens := false;
     max_tokens := 65536;
     thinking_budget := (-1);
     tools := [] |}.

(** The tool list [load_config] attaches to the configuration. *)
Definition default_tools : list pyval :=
  [PDict
     [(lit "type", PStr (lit "function"));
      (lit "function",
       PDict
         [(lit "name", PStr (lit "get_current_local_time"));
          (lit "description",
           PStr (lit "Retrieves the current local date and time. Use when the user asks for the current time."));
          (lit "parameters",
           PDict [(lit "type", PStr (lit "object"));
                  (lit "properties", PDict []);
                  (lit "required", PList [])])])]].

(** What [load_config] returns without environment variables and
    without configuration file. *)
Definition demo_config : ToolCallConfig :=
  {| api_key := api_key default_config;
     base_url := base_url default_config;
     model_name := model_name default_config;
     template_path := template_path default_config;
     use_json_tooldef := use_json_tooldef default_config;
     add_generation_prompt := add_generation_prompt default_config;
     show_thinking_tokens := show_thinking_tokens default_config;
     max_tokens := max_tokens default_config;
     thinking_budget := thinking_budget default_config;
     tools := default_tools |}.

Definition scripted_world (responses : list str) : World :=
  {| Template := unit;
     Datetime := unit;
     load_config := fun _ => Ok demo_config;
     OpenAI := fun _ _ => Ok tt;
     open_template := fun _ => Loaded tt;
     template_render := fun _ messages _ => Ok (concat (map content messages));
     completions_create := fun n _ _ _ =>
       match responses !! n with
       | Some text => Ok [text]
       | None => Ok []
       end;
     datetime_now := fun _ => tt;
     strftime := fun _ _ => lit "2024-05-20 16:30:00 ";
     json_loads := json_scalar;
     format_exc := fun e => lit "Traceback (most recent call last): " ++ exn_msg e |}.

(** * Thinking spans and blank lines *)

(** The text made of the given pieces and thinking spans: each pair is
    the text before a span and the content of the span; [tail] follows
    the last span. *)
Fixpoint with_thinking (spans : list (str * str)) (tail : str) : str :=
  match spans with
  | [] => tail
  | (before, thought) :: spans' =>
      before ++ THINK_BEGIN_TOKEN ++ thought ++ THINK_END_TOKEN
      ++ with_thinking spans' tail
  end.

(** The same text with the spans taken out. *)
Fixpoint without_thinking (spans : list (str * str)) (tail : str) : str :=
  match spans with
  | [] => tail
  | (before, _) :: spans' => before ++ without_thinking spans' tail
  end.

Definition whitespace (w : str) : Prop := Forall (fun c => isspace c = true) w.

(** Neither the first nor the last character is white space. *)
Definition trimmed (y : str) : Prop :=
  (forall c y', y = c :: y' -> isspace c = false)
  /\ (forall c y', y = y' ++ [c] -> isspace c = false).

(** [y] is [raw] without the white space at its two ends: what is left
    of [raw] between a white prefix and a white suffix, neither
    beginning nor ending with white space. *)
Definition trimmed_text (raw y : str) : Prop :=
  exists l r, raw = l ++ y ++ r /\ whitespace l /\ whitespace r /\ trimmed y.

(** Two newlines with only white space between them are adjacent: no
    blank line holds white space, and no two blank lines follow each
    other. *)
Definition single_blank_lines (y : str) : Prop :=
  forall u w v, y = u ++ 10 :: w ++ 10 :: v -> whitespace w -> w = [].

(** The characters that are not white space. *)
Definition ink (s : str) : str := List.filter (fun c => negb (isspace c)) s.

(** The blank-line substitution of the post-processor. *)
Definition collapse (s : str) : str := Re.sub blank_pattern [10; 10] s.

(** What the post-processor computes when thinking is hidden and the
    [re] module does not raise. *)
Definition strip_thinking (llm_output : str) : str :=
  strip (Re.sub blank_pattern [10; 10] (Re.sub think_pattern [] llm_output)).

(** A client of the scripted world. *)
Definition scripted_client (responses : list str)
    : @LLMToolClient (scripted_world responses) :=
  @Build_LLMToolClient (scripted_world responses) demo_config tt.

(** A call of a tool that is not registered, and a call of the clock. *)
Definition unknown_call : ToolCall :=
  {| function := {| name := lit "foo"; arguments := ∅ |} |}.

Definition time_call : ToolCall :=
  {| function := {| name := lit "get_current_local_time"; arguments := ∅ |} |}.

(** The text of a model that asks for the time. *)
Definition time_request : str := lit "<function=get_current_local_time></function>".

(** An [re] module whose substitutions raise. *)
Definition failing_re : ReModule :=
  {| re_compile r := Ok r;
     re_sub _ _ _ :=
       Raise {| exn_type := lit "MemoryError"; exn_msg := lit "out of memory" |} |}.

(** * The driver's effects, written out *)

Section Effects.
Context {W : World} {re : ReModule}.

(** The state after more output. *)
Definition add_stdout (os : list output) (st : RunState) : RunState :=
  {| stdout := stdout st ++ os; requests := requests st;
     clock := clock st; conversation := conversation st |}.

(** The state after one more request to the endpoint. *)
Definition add_request (st : RunState) : RunState :=
  {| stdout := stdout st; requests := S (requests st);
     clock := clock st; conversation := conversation st |}.

(** The state after [n] more readings of the clock. *)
Definition advance (n : nat) (st : RunState) : RunState :=
  {| stdout := stdout st; requests := requests st;
     clock := clock st + n; conversation := conversation st |}.

(** The state after more messages. *)
Definition add_messages (ms : list Message) (st : RunState) : RunState :=
  {| stdout := stdout st; requests := requests st;
     clock := clock st; conversation := conversation st ++ ms |}.

(** [response.choices[0].text.strip() if response.choices else ""] *)
Definition raw_output_of (choices : list str) : str :=
  match choices with text :: _ => strip text | [] => [] end.

(** The [try] block of the post-processor: its value, or the exception
    that leaves it. *)
Definition process_body (llm_output : str) : result str :=
  match re_compile think_pattern with
  | Raise e => Raise e
  | Ok pattern =>
      match re_sub pattern [] llm_output with
      | Raise e => Raise e
      | Ok processed_output =>
          match re_sub blank_pattern [10; 10] processed_output with
          | Raise e => Raise e
          | Ok processed_output => Ok (strip processed_output)
          end
      end
  end.

Definition process_warning (e : exn) : output :=
  Print (lit "Warning: Failed to process thinking tokens: " ++ exn_msg e).

(** The text the post-processor returns and what it prints. *)
Definition processed (cfg : ToolCallConfig) (raw : str) : str * list output :=
  if show_thinking_tokens cfg then (raw, [])
  else
    match process_body raw with
    | Ok y => (y, [])
    | Raise e => (raw, [process_warning e])
    end.

(** The text [call_llm] returns when the endpoint answers [choices]. *)
Definition response_of (cfg : ToolCallConfig) (choices : list str) : str :=
  fst (processed cfg (raw_output_of choices)).

Definition registered (tc : ToolCall) : bool :=
  bool_decide (name (function tc) = lit "get_current_local_time").

(** The clock reading a registered call returns. *)
Definition timestamp (clk : nat) : str :=
  strftime (datetime_now clk) (lit "%Y-%m-%d %H:%M:%S %Z%z").

Definition unknown_function (func_name : str) : exn :=
  ValueError (lit "Unknown function '" ++ func_name ++ lit "'").

Definition error_content (func_name : str) (e : exn) : str :=
  cross_mark ++ lit " ERROR in tool '" ++ func_name ++ lit "': " ++ exn_msg e.

(** The tool result of one call made as the [idx]-th of the loop, at
    clock reading [clk]. *)
Definition tool_result_of (idx clk : nat) (tc : ToolCall) : Message :=
  {| role := lit "tool";
     content :=
       if registered tc then timestamp clk
       else error_content (name (function tc)) (unknown_function (name (function tc)));
     tool_call_id := Some (tool_call_id_of idx) |}.

Definition tool_log_of (clk : nat) (tc : ToolCall) : output :=
  if registered tc then LogStep (ToolResult (name (function tc))) (timestamp clk)
  else LogStep (ToolError (name (function tc)))
         (exn_msg (unknown_function (name (function tc)))).

Fixpoint tool_results_of (idx clk : nat) (tool_calls : list ToolCall) : list Message :=
  match tool_calls with
  | [] => []
  | tc :: tool_calls' =>
      tool_result_of idx clk tc
      :: tool_results_of (S idx) (if registered tc then S clk else clk) tool_calls'
  end.

Fixpoint tool_logs_of (clk : nat) (tool_calls : list ToolCall) : list output :=
  match tool_calls with
  | [] => []
  | tc :: tool_calls' =>
      tool_log_of clk tc
      :: tool_logs_of (if registered tc then S clk else clk) tool_calls'
  end.

Definition registered_count (tool_calls : list ToolCall) : nat :=
  length (List.filter registered tool_calls).

(** The conversation entry made from a tool result. *)
Definition tool_message (result : Message) : Message :=
  {| role := lit "tool"; content := content result; tool_call_id := None |}.

Definition user_message : Message :=
  {| role := lit "user"; content := user_query; tool_call_id := None |}.

Definition starts_round (o : output) : bool :=
  match o with LogBox ExecutingToolCalls _ => true | _ => false end.

(** The number of rounds of tool execution begun so far. *)
Definition rounds (st : RunState) : nat :=
  length (List.filter starts_round (stdout st)).

Definition reports_dispatch (o : output) : bool :=
  match o with
  | LogBox (ToolResult _) _ | LogBox (ToolError _) _ => true
  | _ => false
  end.

(** The number of tool calls dispatched so far, each reported by a
    result box or an error box. *)
Definition dispatched (st : RunState) : nat :=
  length (List.filter reports_dispatch (stdout st)).

(** A computation that only appends to the conversation. *)
Definition append_only {A} (m : M A) : Prop :=
  forall st, conversation st `prefix_of` conversation (snd (m st)).

End Effects.

(** * The rest of the program

    The logger's box, the entry point and the configuration loader, and
    what the statements about them need. *)

(** ** Tool calls as the chat template writes them *)

(** [<parameter=KEY>VALUE</parameter>] *)
Definition parameter_text (p : str * str) : str :=
  lit "<parameter=" ++ fst p ++ lit ">" ++ snd p ++ lit "</parameter>".

(** [<function=NAME>], the parameter blocks, [</function>], with the white
    space [sep] after the opening tag and after each parameter block. *)
Definition function_text (sep nm : str) (ps : list (str * str)) : str :=
  lit "<function=" ++ nm ++ lit ">" ++ sep
  ++ concat (map (fun p => parameter_text p ++ sep) ps) ++ lit "</function>".

(** A key the parameter pattern reads back: not empty, without [>],
    and, for the closing tags to be found where they are, key and value
    without [<]. *)
Definition well_formed_parameter (p : str * str) : Prop :=
  fst p <> [] /\ (62 ∉ fst p) /\ (60 ∉ fst p) /\ (60 ∉ snd p).

(** The result of a search that went on after passing over [u]. *)
Definition skipping (u : str) (r : option (str * str)) : option (str * str) :=
  match r with Some (pre, post) => Some (u ++ pre, post) | None => None end.

(** ** What a run reports *)

(** The boxes that carry an answer, and those of a critical error. *)
Definition reports_answer (o : output) : bool :=
  match o with
  | LogBox DirectAnswer _ | LogBox FinalResponse _ => true
  | _ => false
  end.


(** ** [Logger.log_step] *)

Module Logger.

(** The box-drawing characters as the source file has them. *)
Definition top_left : str := [8218; 238; 229].
Definition horizontal : str := [8218; 238; 196].
Definition top_right : str := [8218; 238; 234].
Definition vertical : str := [8218; 238; 199].
Definition bottom_left : str := [8218; 238; 238].
Definition bottom_right : str := [8218; 238; 242].

(** [s[:stop]] *)
Definition slice_to (s : str) (stop : Z) : str :=
  if (0 <=? stop)%Z then take (Z.to_nat stop) s
  else take (length s - Z.to_nat (- stop)) s.

(** [w * n] *)
Definition times (w : str) (n : nat) : str := concat (replicate n w).

Definition log_step (step details : str) (max_length : Z) : M unit :=
  print (top_left ++ times horizontal 60 ++ top_right);;
  print (vertical ++ lit " " ++ step);;
  match details with
  | [] => ret tt
  | _ :: _ =>
      let truncated_details :=
        if (max_length <? Z.of_nat (length details))%Z
        then slice_to details max_length ++ lit "..."
        else details in
      print (vertical ++ lit "   Details: " ++ truncated_details)
  end;;
  print (bottom_left ++ times horizontal 60 ++ bottom_right).

End Logger.

(** ** The entry point *)

Section EntryPoint.
Context {W : World} {re : ReModule}.



End EntryPoint.

(** ** [load_config] *)

Module Configuration.

(** A configuration object: the values of its data attributes. After
    loading a file an attribute can hold any JSON value. *)
Abbreviation config_object := (gmap str pyval).

(** What [load_config] finds around it: [load_dotenv], the environment
    after it, [int] and [str.lower], the file system with [json.load],
    and, for a name that is no data attribute of the object, whether the
    object has it ([hasattr]) and what assigning to it does ([setattr]). *)
Class Host := {
  load_dotenv : result unit;
  getenv : str -> option str;
  int : str -> result Z;
  lower : str -> str;
  path_exists : str -> bool;
  json_load : str -> result pyval;
  hasattr_other : str -> bool;
  setattr_other : str -> pyval -> config_object -> result config_object
}.

(** The attributes of a [ToolCallConfig] with the given field values. *)
Definition attributes (c : ToolCallConfig) : config_object :=
  <[lit "api_key" := PStr (api_key c)]>
  (<[lit "base_url" := PStr (base_url c)]>
  (<[lit "model_name" := PStr (model_name c)]>
  (<[lit "template_path" := PStr (template_path c)]>
  (<[lit "use_json_tooldef" := PBool (use_json_tooldef c)]>
  (<[lit "add_generation_prompt" := PBool (add_generation_prompt c)]>
  (<[lit "show_thinking_tokens" := PBool (show_thinking_tokens c)]>
  (<[lit "max_tokens" := PInt (max_tokens c)]>
  (<[lit "thinking_budget" := PInt (thinking_budget c)]>
  (<[lit "tools" := PList (tools c)]> ∅))))))))).

Section Loading.
Context {H : Host}.

Definition hasattr (config : config_object) (field_name : str) : bool :=
  bool_decide (is_Some (config !! field_name)) || hasattr_other field_name.

Definition setattr (config : config_object) (field_name : str) (field_value : pyval)
    : result config_object :=
  if bool_decide (is_Some (config !! field_name))
  then Ok (<[field_name := field_value]> config)
  else setattr_other field_name field_value config.

(** [type(v).__name__] for a JSON value. *)
Definition type_name (v : pyval) : str :=
  match v with
  | PNone => lit "NoneType"
  | PBool _ => lit "bool"
  | PInt _ => lit "int"
  | PFloat _ => lit "float"
  | PStr _ => lit "str"
  | PList _ => lit "list"
  | PDict _ => lit "dict"
  end.

Definition AttributeError (msg : str) : exn :=
  {| exn_type := lit "AttributeError"; exn_msg := msg |}.

(** [file_config.items()] *)
Definition items (file_config : pyval) : result (list (str * pyval)) :=
  match file_config with
  | PDict d => Ok d
  | v => Raise (AttributeError
                  (lit "'" ++ type_name v ++ lit "' object has no attribute 'items'"))
  end.

(** The loop over the items of the file: the object as the loop leaves
    it, and the exception that ended the loop, if one did. *)
Fixpoint update (file_items : list (str * pyval)) (config : config_object)
    : config_object * option exn :=
  match file_items with
  | [] => (config, None)
  | (field_name, field_value) :: file_items' =>
      if hasattr config field_name then
        match setattr config field_name field_value with
        | Ok config' => update file_items' config'
        | Raise e => (config, Some e)
        end
      else update file_items' config
  end.

(** [os.getenv(name)] when it is set to a non-empty text. *)
Definition env (name : str) : option str :=
  match getenv name with
  | Some (c :: v) => Some (c :: v)
  | _ => None
  end.

Definition set_text (field_name env_name : str) (config : config_object) : config_object :=
  match env env_name with
  | Some v => <[field_name := PStr v]> config
  | None => config
  end.

Definition load_config (config_path : option str) : M config_object :=
  lift load_dotenv;;
  let config := attributes default_config in
  let config := set_text (lit "api_key") (lit "LLM_API_KEY") config in
  let config := set_text (lit "base_url") (lit "LLM_BASE_URL") config in
  let config := set_text (lit "model_name") (lit "LLM_MODEL_NAME") config in
  let config := set_text (lit "template_path") (lit "TEMPLATE_PATH") config in
  config <-
    match env (lit "MAX_TOKENS") with
    | Some v => n <- lift (int v);; ret (<[lit "max_tokens" := PInt n]> config)
    | None => ret config
    end;;
  let config :=
    match env (lit "SHOW_THINKING_TOKENS") with
    | Some v =>
        <[lit "show_thinking_tokens" :=
            PBool (bool_decide (lower v ∈ [lit "true"; lit "1"; lit "yes"]))]> config
    | None => config
    end in
  config <-
    match config_path with
    | Some (c :: p) =>
        let config_path := c :: p in
        if path_exists config_path then
          match json_load config_path with
          | Raise e =>
              print (lit "Warning: Could not load config file " ++ config_path
                     ++ lit ": " ++ exn_msg e);;
              ret config
          | Ok file_config =>
              match items file_config with
              | Raise e =>
                  print (lit "Warning: Could not load config file " ++ config_path
                         ++ lit ": " ++ exn_msg e);;
                  ret config
              | Ok file_items =>
                  match update file_items config with
                  | (config, None) => ret config
                  | (config, Some e) =>
                      print (lit "Warning: Could not load config file " ++ config_path
                             ++ lit ": " ++ exn_msg e);;
                      ret config
                  end
              end
          end
        else ret config
    | _ => ret config
    end;;
  ret (<[lit "tools" := PList default_tools]> config).


(** The names of the fields of [ToolCallConfig]. *)
Definition field_names : list str :=
  [lit "api_key"; lit "base_url"; lit "model_name"; lit "template_path";
   lit "use_json_tooldef"; lit "add_generation_prompt"; lit "show_thinking_tokens";
   lit "max_tokens"; lit "thinking_budget"; lit "tools"].

(** What [int] makes of [MAX_TOKENS], or the default. *)
Definition max_tokens_of : result Z :=
  match env (lit "MAX_TOKENS") with
  | Some v => int v
  | None => Ok (max_tokens default_config)
  end.

(** The configuration before the file is read: the defaults, overridden
    by the variables of the environment that are set and not empty. *)
Definition from_environment (max_tok : Z) : ToolCallConfig :=
  {| api_key := default (api_key default_config) (env (lit "LLM_API_KEY"));
     base_url := default (base_url default_config) (env (lit "LLM_BASE_URL"));
     model_name := default (model_name default_config) (env (lit "LLM_MODEL_NAME"));
     template_path := default (template_path default_config) (env (lit "TEMPLATE_PATH"));
     use_json_tooldef := use_json_tooldef default_config;
     add_generation_prompt := add_generation_prompt default_config;
     show_thinking_tokens :=
       match env (lit "SHOW_THINKING_TOKENS") with
       | Some v => bool_decide (lower v ∈ [lit "true"; lit "1"; lit "yes"])
       | None => show_thinking_tokens default_config
       end;
     max_tokens := max_tok;
     thinking_budget := thinking_budget default_config;
     tools := tools default_config |}.

(** One item of the file assigned to the object when it names a field. *)
Definition assign (config : config_object) (item : str * pyval) : config_object :=
  if bool_decide (fst item ∈ field_names) then <[fst item := snd item]> config else config.

(** The object has the fields of [ToolCallConfig] as its data attributes,
    and no others. *)
Definition has_fields (config : config_object) : Prop :=
  forall k, is_Some (config !! k) <-> k ∈ field_names.

End Loading.

(** The same configuration with the tool list [load_config] attaches. *)
Definition with_default_tools (c : ToolCallConfig) : ToolCallConfig :=
  {| api_key := api_key c;
     base_url := base_url c;
     model_name := model_name c;
     template_path := template_path c;
     use_json_tooldef := use_json_tooldef c;
     add_generation_prompt := add_generation_prompt c;
     show_thinking_tokens := show_thinking_tokens c;
     max_tokens := max_tokens c;
     thinking_budget := thinking_budget c;
     tools := default_tools |}.

(** The warning of [load_config] for a file it could not load. *)
Definition load_warning (config_path : str) (e : exn) : output :=
  Print (lit "Warning: Could not load config file " ++ config_path
         ++ lit ": " ++ exn_msg e).

Section LoadingEffects.
Context {H : Host}.

(** The file part of [load_config], applied to the configuration the
    environment gives. *)
Definition file_part (config_path : option str) (base : config_object) (st : RunState)
    : result config_object * RunState :=
  match config_path with
  | Some (c :: p) =>
      if path_exists (c :: p) then
        match json_load (c :: p) with
        | Raise e =>
            (Ok (<[lit "tools" := PList default_tools]> base),
             add_stdout [load_warning (c :: p) e] st)
        | Ok file_config =>
            match items file_config with
            | Raise e =>
                (Ok (<[lit "tools" := PList default_tools]> base),
                 add_stdout [load_warning (c :: p) e] st)
            | Ok file_items =>
                match update file_items base with
                | (config, None) =>
                    (Ok (<[lit "tools" := PList default_tools]> config), st)
                | (config, Some e) =>
                    (Ok (<[lit "tools" := PList default_tools]> config),
                     add_stdout [load_warning (c :: p) e] st)
                end
            end
        end
      else (Ok (<[lit "tools" := PList default_tools]> base), st)
  | _ => (Ok (<[lit "tools" := PList default_tools]> base), st)
  end.

End LoadingEffects.

End Configuration.

(** ** Collaborators that fail *)

(** A world whose collaborators answer as given: the configuration
    loader, the constructor of the endpoint client, the template file,
    the template engine and the endpoint at its [n]-th request. *)
Definition staged_world (loaded : result ToolCallConfig) (client : result unit)
    (file : template_file unit) (render : list Message -> result str)
    (endpoint : nat -> result (list str)) : World :=
  {| Template := unit;
     Datetime := unit;
     load_config := fun _ => loaded;
     OpenAI := fun _ _ => client;
     open_template := fun _ => file;
     template_render := fun _ messages _ => render messages;
     completions_create := fun n _ _ _ => endpoint n;
     datetime_now := fun _ => tt;
     strftime := fun _ _ => lit "2024-05-20 16:30:00 ";
     json_loads := json_scalar;
     format_exc := fun e => lit "Traceback (most recent call last): " ++ exn_msg e |}.

Definition ConnectionError : exn :=
  {| exn_type := lit "APIConnectionError"; exn_msg := lit "Connection error." |}.

(** The endpoint that answers the first request with a call of the
    clock and fails at the second. *)
Definition failing_endpoint (n : nat) : result (list str) :=
  match n with
  | O => Ok [time_request]
  | S _ => Raise ConnectionError
  end.

(** The value bound to [k] in an association list. *)
Definition assoc {A} (k : str) (l : list (str * A)) : option A :=
  snd <$> List.find (fun item => bool_decide (fst item = k)) l.

(** [str.lower] on ASCII text. *)
Definition ascii_lower (s : str) : str :=
  map (fun c => if (65 <=? c) && (c <=? 90) then c + 32 else c) s.

(** A host with the given environment and files, on which [int] reads
    plain decimal literals and the only other attribute of the object
    is [__class__], which cannot be assigned a JSON value. *)
Definition scripted_host (environment : list (str * str))
    (files : list (str * result pyval)) : Configuration.Host :=
  {| Configuration.load_dotenv := Ok tt;
     Configuration.getenv := fun name => assoc name environment;
     Configuration.int := fun v =>
       match nat_literal v with
       | Some z => Ok z
       | None =>
           Raise (ValueError (lit "invalid literal for int() with base 10: '" ++ v
                              ++ lit "'"))
       end;
     Configuration.lower := ascii_lower;
     Configuration.path_exists := fun p => bool_decide (is_Some (assoc p files));
     Configuration.json_load := fun p =>
       match assoc p files with
       | Some r => r
       | None =>
           Raise {| exn_type := lit "FileNotFoundError";
                    exn_msg := lit "[Errno 2] No such file or directory: '" ++ p
                               ++ lit "'" |}
       end;
     Configuration.hasattr_other := fun k => bool_decide (k = lit "__class__");
     Configuration.setattr_other := fun _ _ _ =>
       Raise {| exn_type := lit "TypeError";
                exn_msg := lit "__class__ must be set to a class, not 'int' object" |} |}.

(** An environment that names a model, a limit and the thinking switch,
    and sets the key to the empty text. *)
Definition demo_environment : list (str * str) :=
  [(lit "LLM_MODEL_NAME", lit "Seed-OSS-36B");
   (lit "MAX_TOKENS", lit "1024");
   (lit "SHOW_THINKING_TOKENS", lit "Yes");
   (lit "LLM_API_KEY", [])].

(** A file that names a model, gives the limit as a text, and holds an
    unknown key and a tool list. *)
Definition demo_file : list (str * pyval) :=
  [(lit "model_name", PStr (lit "Seed-OSS-mini"));
   (lit "max_tokens", PStr (lit "many"));
   (lit "temperature", PInt 1);
   (lit "tools", PList [])].

(** A file with a key that cannot be assigned, between two fields. *)
Definition broken_file : list (str * pyval) :=
  [(lit "model_name", PStr (lit "Seed-OSS-mini"));
   (lit "__class__", PInt 1);
   (lit "api_key", PStr (lit "secret"))].

(** * Facts about the matcher *)

#[local] Arguments N.eqb : simpl never.
#[local] Arguments N.leb : simpl never.

Section MatcherFacts.

Lemma exec_chars (t : N -> N -> bool) (w s : str) cs k :
  Re.exec (Re.seq (map (fun c => Re.Chr (t c)) w)) s cs k
  = match prefix_by t w s with Some s1 => k s1 cs | None => None end.
Proof.
  revert s. induction w as [|l w IH]; intros s; simpl; [reflexivity|].
  destruct s as [|c s]; [reflexivity|].
  destruct (t l c); [apply IH | reflexivity].
Qed.

Lemma exec_literal (w s : str) cs k :
  Re.exec (Re.literal w) s cs k
  = match prefix_by N.eqb w s with Some s1 => k s1 cs | None => None end.
Proof. apply exec_chars. Qed.

Lemma exec_literal_i (w s : str) cs k :
  Re.exec (Re.literal_i w) s cs k
  = match prefix_by Re.ignorecase w s with Some s1 => k s1 cs | None => None end.
Proof. apply exec_chars. Qed.

Lemma upto_skip p (s : str) : upto p s ++ skip p s = s.
Proof.
  induction s as [|c s IH]; simpl; [reflexivity|].
  destruct (p c); simpl; [now rewrite IH | reflexivity].
Qed.

Lemma upto_Forall p (s : str) : Forall (fun c => p c = true) (upto p s).
Proof.
  induction s as [|c s IH]; simpl; [constructor|].
  destruct (p c) eqn:E; constructor; assumption.
Qed.

Lemma skip_head p (s : str) x r : skip p s = x :: r -> p x = false.
Proof.
  induction s as [|c s IH]; simpl; [discriminate|].
  destruct (p c) eqn:E; [exact IH|]. intros [= -> _]. exact E.
Qed.

Lemma star_greedy_skip {R} p (s : str) (k : str -> option R) :
  (forall c s', p c = true -> k (c :: s') = None) ->
  Re.star_greedy p s k = k (skip p s).
Proof.
  intros Hk. induction s as [|c s IH]; simpl; [reflexivity|].
  destruct (p c) eqn:E; [|reflexivity].
  rewrite IH. destruct (k (skip p s)); [reflexivity|]. now apply Hk.
Qed.

Lemma prefix_by_app t (w s rest : str) :
  prefix_by t w s = Some rest ->
  exists o, s = o ++ rest /\ Forall2 (fun l c => t l c = true) w o.
Proof.
  revert s. induction w as [|l w IH]; intros s; simpl.
  - intros [= ->]. exists []. split; [reflexivity | constructor].
  - destruct s as [|c s]; [discriminate|].
    destruct (t l c) eqn:E; [|discriminate].
    intros H. destruct (IH _ H) as (o & -> & Ho).
    exists (c :: o). split; [reflexivity | now constructor].
Qed.

Lemma prefix_by_intro t (w o rest : str) :
  Forall2 (fun l c => t l c = true) w o -> prefix_by t w (o ++ rest) = Some rest.
Proof.
  induction 1 as [|l c w o Hlc _ IH]; simpl; [reflexivity|].
  now rewrite Hlc.
Qed.

Lemma find_by_app t (w s pre post : str) :
  find_by t w s = Some (pre, post) ->
  exists o, s = pre ++ o ++ post /\ Forall2 (fun l c => t l c = true) w o.
Proof.
  revert pre. induction s as [|c s IH]; intros pre; simpl.
  - destruct (prefix_by t w []) eqn:E; [|discriminate].
    intros [= <- <-]. destruct (prefix_by_app _ _ _ _ E) as (o & Ho & Hf).
    exists o. split; [exact Ho | exact Hf].
  - destruct (prefix_by t w (c :: s)) eqn:E.
    + intros [= <- <-]. destruct (prefix_by_app _ _ _ _ E) as (o & Ho & Hf).
      exists o. split; [exact Ho | exact Hf].
    + destruct (find_by t w s) as [[pre' post']|]; [|discriminate].
      intros [= <- <-]. destruct (IH _ eq_refl) as (o & -> & Hf).
      exists o. split; [reflexivity | exact Hf].
Qed.

(** No occurrence begins before the one [find_by] returns. *)
Lemma find_by_first t (w s pre post : str) :
  find_by t w s = Some (pre, post) ->
  forall x y, s = x ++ y -> (length x < length pre)%nat -> prefix_by t w y = None.
Proof.
  revert pre. induction s as [|c s IH]; intros pre; simpl.
  - destruct (prefix_by t w []); [|discriminate].
    intros [= <- <-] x y _ Hlt. simpl in Hlt. lia.
  - destruct (prefix_by t w (c :: s)) eqn:E.
    + intros [= <- <-] x y _ Hlt. simpl in Hlt. lia.
    + destruct (find_by t w s) as [[pre' post']|]; [|discriminate].
      intros [= <- <-] x y Hxy Hlt.
      destruct x as [|c' x]; simpl in Hxy.
      * subst y. exact E.
      * injection Hxy as <- ->. simpl in Hlt.
        apply (IH _ eq_refl x y eq_refl). lia.
Qed.

Lemma find_by_None t (w s : str) :
  find_by t w s = None -> forall x y, s = x ++ y -> prefix_by t w y = None.
Proof.
  induction s as [|c s IH]; simpl.
  - destruct (prefix_by t w []) eqn:E; [discriminate|].
    intros _ x y Hxy. symmetry in Hxy. apply app_eq_nil in Hxy as [_ ->]. exact E.
  - destruct (prefix_by t w (c :: s)) eqn:E; [discriminate|].
    destruct (find_by t w s) as [[pre' post']|]; [discriminate|].
    intros _ x y Hxy. destruct x as [|c' x]; simpl in Hxy.
    + subst y. exact E.
    + injection Hxy as <- ->. now apply (IH eq_refl x y).
Qed.

Lemma find_by_intro t (w pre y post : str) :
  prefix_by t w y = Some post ->
  (forall x1 y1, pre ++ y = x1 ++ y1 -> (length x1 < length pre)%nat -> prefix_by t w y1 = None) ->
  find_by t w (pre ++ y) = Some (pre, post).
Proof.
  intros Hy. induction pre as [|c pre IH]; intros Hfirst.
  - simpl. destruct y as [|c y]; simpl; rewrite Hy; reflexivity.
  - simpl. rewrite (Hfirst [] (c :: pre ++ y) eq_refl) by (simpl; lia).
    rewrite IH; [reflexivity|].
    intros x1 y1 Hxy Hlt. apply (Hfirst (c :: x1) y1).
    + simpl. now rewrite Hxy.
    + simpl. lia.
Qed.

Lemma star_lazy_find {R} t (w s : str) (F : str -> str -> R) :
  Re.star_lazy Re.dot s
    (fun s1 => match prefix_by t w s1 with Some s2 => Some (F s1 s2) | None => None end)
  = match find_by t w s with
    | Some (pre, post) => Some (F (drop (length pre) s) post)
    | None => None
    end.
Proof.
  induction s as [|c s IH]; simpl.
  - destruct (prefix_by t w []); reflexivity.
  - destruct (prefix_by t w (c :: s)); [reflexivity|].
    rewrite IH.
    destruct (find_by t w s) as [[pre post]|]; reflexivity.
Qed.

Lemma ignorecase_gt c : Re.ignorecase 62 c = (c =? 62).
Proof.
  unfold Re.ignorecase. cbn. now rewrite !orb_false_r.
Qed.

Lemma star_lazy_ext {R} p (s : str) (k1 k2 : str -> option R) :
  (forall x, k1 x = k2 x) -> Re.star_lazy p s k1 = Re.star_lazy p s k2.
Proof.
  intros Hk. induction s as [|c s IH]; simpl; rewrite Hk; [reflexivity|].
  now rewrite IH.
Qed.

Lemma star_greedy_ext {R} p (s : str) (k1 k2 : str -> option R) :
  (forall x, k1 x = k2 x) -> Re.star_greedy p s k1 = Re.star_greedy p s k2.
Proof.
  intros Hk. induction s as [|c s IH]; simpl; rewrite ?Hk; [reflexivity|].
  now rewrite IH.
Qed.

Lemma take_before (pre rest : str) :
  take (length (pre ++ rest) - length (drop (length pre) (pre ++ rest))) (pre ++ rest) = pre.
Proof.
  rewrite drop_app_length, length_app.
  replace (length pre + length rest - length rest)%nat with (length pre) by lia.
  apply take_app_length.
Qed.

Lemma take_front (a b : str) : take (length (a ++ b) - length b) (a ++ b) = a.
Proof.
  rewrite length_app.
  replace (length a + length b - length b)%nat with (length a) by lia.
  apply take_app_length.
Qed.

Lemma isspace_nl c : (c =? 10) = true -> isspace c = true.
Proof. intros H. apply N.eqb_eq in H. now subst c. Qed.

Lemma star_greedy_last_nl (s : str) :
  Re.star_greedy isspace s
    (fun s1 => match s1 with
               | c :: s2 => if 10 =? c then Some (@nil (string * str), s2) else None
               | [] => None
               end)
  = match last_nl s with Some r => Some ([], r) | None => None end.
Proof.
  induction s as [|c s IH]; simpl; [reflexivity|].
  rewrite IH, (N.eqb_sym 10 c).
  destruct (isspace c) eqn:E.
  - destruct (last_nl s); [reflexivity|]. destruct (c =? 10); reflexivity.
  - destruct (c =? 10) eqn:E10; [|reflexivity].
    apply isspace_nl in E10. congruence.
Qed.

(** One attempt of the blank-line pattern. *)
Lemma match_at_blank (s : str) :
  Re.match_at blank_pattern s
  = match blank_match s with Some rest => Some ([], rest) | None => None end.
Proof.
  unfold Re.match_at, blank_pattern, blank_match. simpl.
  destruct s as [|c s]; [reflexivity|].
  rewrite (N.eqb_sym 10 c). destruct (c =? 10); [|reflexivity].
  apply star_greedy_last_nl.
Qed.

(** One attempt of the thinking pattern. *)
Lemma match_at_think (s : str) :
  Re.match_at think_pattern s
  = match think_match s with
    | Some (c, post) => Some ([("1"%string, c)], post)
    | None => None
    end.
Proof.
  unfold Re.match_at, think_pattern, think_match.
  cbn [Re.seq fold_right Re.exec]. rewrite exec_literal.
  destruct (prefix_by N.eqb THINK_BEGIN_TOKEN s) as [r1|]; [|reflexivity].
  pose (F := fun s1 s2 : str => ([("1"%string, take (length r1 - length s1) r1)], s2)).
  transitivity
    (Re.star_lazy Re.dot r1
       (fun s1 => match prefix_by N.eqb THINK_END_TOKEN s1 with
                  | Some s2 => Some (F s1 s2)
                  | None => None
                  end)).
  { apply star_lazy_ext. intros x. now rewrite exec_literal. }
  rewrite star_lazy_find. subst F. cbv beta.
  destruct (find_by N.eqb THINK_END_TOKEN r1) as [[pre post]|] eqn:E; [|reflexivity].
  destruct (find_by_app _ _ _ _ _ E) as (o & -> & _).
  now rewrite take_before.
Qed.

(** One attempt of a tag pattern. *)
Lemma match_at_tag g1 g2 (open close s : str) :
  Re.match_at (tag_pattern g1 g2 open close) s
  = match tag_match open close s with
    | Some (nm, body, post) => Some ([(g2, body); (g1, nm)], post)
    | None => None
    end.
Proof.
  unfold Re.match_at, tag_pattern, tag_match.
  cbn [Re.seq fold_right Re.exec]. rewrite exec_literal_i.
  destruct (prefix_by Re.ignorecase open s) as [r1|]; [|reflexivity].
  unfold Re.plus. cbn [Re.exec].
  destruct r1 as [|c r1]; [reflexivity|].
  cbn [upto skip]. destruct (Re.not_gt c) eqn:Ec; [|reflexivity].
  rewrite star_greedy_skip.
  2:{ intros c' s' Hc'. rewrite exec_literal_i. cbn [lit prefix_by].
      cbn. rewrite ignorecase_gt. unfold Re.not_gt in Hc'.
      destruct (c' =? 62); [discriminate | reflexivity]. }
  rewrite exec_literal_i.
  pose proof (upto_skip Re.not_gt r1) as Hsplit.
  destruct (skip Re.not_gt r1) as [|x r2] eqn:Eskip; [reflexivity|].
  pose proof (skip_head _ _ _ _ Eskip) as Hx.
  unfold Re.not_gt in Hx. apply negb_false_iff in Hx.
  cbn. rewrite ignorecase_gt, Hx.
  pose (F := fun s1 s2 : str =>
               ([(g2, take (length r2 - length s1) r2);
                 (g1, take (length (c :: r1) - length (x :: r2)) (c :: r1))], s2)).
  transitivity
    (Re.star_lazy Re.dot r2
       (fun s1 => match prefix_by Re.ignorecase close s1 with
                  | Some s2 => Some (F s1 s2)
                  | None => None
                  end)).
  { apply star_lazy_ext. intros y. now rewrite exec_literal_i. }
  rewrite star_lazy_find. subst F. cbv beta.
  destruct (find_by Re.ignorecase close r2) as [[pre post]|] eqn:E; [|reflexivity].
  destruct (find_by_app _ _ _ _ _ E) as (o & -> & _).
  rewrite take_before.
  remember (upto Re.not_gt r1) as nm eqn:Enm. clear Enm. subst r1.
  do 5 f_equal.
  change (c :: nm ++ x :: pre ++ o ++ post) with ((c :: nm) ++ x :: pre ++ o ++ post).
  apply take_front.
Qed.

Lemma function_pattern_tag :
  function_pattern = tag_pattern "name" "params" (lit "<function=") (lit "</function>").
Proof. reflexivity. Qed.

Lemma param_pattern_tag :
  param_pattern = tag_pattern "name" "value" (lit "<parameter=") (lit "</parameter>").
Proof. reflexivity. Qed.

End MatcherFacts.

(** * Facts about the scan *)

Section ScanFacts.
Context (r : Re.regex).
Hypothesis consuming :
  forall s cs rest, Re.match_at r s = Some (cs, rest) -> (length rest < length s)%nat.

Lemma scan_aux_enough fuel (s : str) :
  (length s <= fuel)%nat -> Re.scan_aux r fuel s = Re.scan r s.
Proof.
  unfold Re.scan. revert s.
  induction fuel as [fuel IH] using lt_wf_ind. intros s Hle.
  destruct s as [|c s]; [destruct fuel; reflexivity|].
  destruct fuel as [|fuel]; [simpl in Hle; lia|].
  simpl. destruct (Re.match_at r (c :: s)) as [[cs rest]|] eqn:E.
  - apply consuming in E. simpl in E, Hle. f_equal.
    rewrite (IH fuel) by lia. symmetry. apply IH; lia.
  - simpl in Hle. f_equal.
    rewrite (IH fuel) by lia. reflexivity.
Qed.

Lemma scan_skip c (s : str) :
  Re.match_at r (c :: s) = None -> Re.scan r (c :: s) = inl c :: Re.scan r s.
Proof. intros E. unfold Re.scan at 1. simpl. now rewrite E. Qed.

Lemma scan_match (s : str) cs rest :
  Re.match_at r s = Some (cs, rest) -> Re.scan r s = inr cs :: Re.scan r rest.
Proof.
  intros E. pose proof (consuming _ _ _ E) as Hlt.
  destruct s as [|c s]; [simpl in Hlt; lia|].
  unfold Re.scan at 1. simpl. rewrite E. f_equal.
  apply scan_aux_enough. simpl in Hlt. lia.
Qed.

Lemma finditer_skip c (s : str) :
  Re.match_at r (c :: s) = None -> Re.finditer r (c :: s) = Re.finditer r s.
Proof. intros E. unfold Re.finditer. now rewrite scan_skip. Qed.

Lemma finditer_match (s : str) cs rest :
  Re.match_at r s = Some (cs, rest) -> Re.finditer r s = cs :: Re.finditer r rest.
Proof. intros E. unfold Re.finditer. now rewrite (scan_match _ _ _ E). Qed.

Lemma finditer_skip_many (u t : str) :
  (forall u1 u2, u = u1 ++ u2 -> u2 <> [] -> Re.match_at r (u2 ++ t) = None) ->
  Re.finditer r (u ++ t) = Re.finditer r t.
Proof.
  induction u as [|c u IH]; intros H; [reflexivity|].
  simpl. rewrite finditer_skip.
  - apply IH. intros u1 u2 -> Hne. now apply (H (c :: u1) u2).
  - now apply (H [] (c :: u)).
Qed.

Lemma finditer_none (s : str) :
  (forall u t, s = u ++ t -> Re.match_at r t = None) -> Re.finditer r s = [].
Proof.
  induction s as [|c s IH]; intros H; [reflexivity|].
  rewrite finditer_skip.
  - apply IH. intros u t ->. now apply (H (c :: u) t).
  - now apply (H [] (c :: s)).
Qed.

Lemma sub_skip repl c (s : str) :
  Re.match_at r (c :: s) = None -> Re.sub r repl (c :: s) = c :: Re.sub r repl s.
Proof. intros E. unfold Re.sub. now rewrite scan_skip. Qed.

Lemma sub_match repl (s : str) cs rest :
  Re.match_at r s = Some (cs, rest) -> Re.sub r repl s = repl ++ Re.sub r repl rest.
Proof. intros E. unfold Re.sub. now rewrite (scan_match _ _ _ E). Qed.

Lemma sub_skip_many repl (u t : str) :
  (forall u1 u2, u = u1 ++ u2 -> u2 <> [] -> Re.match_at r (u2 ++ t) = None) ->
  Re.sub r repl (u ++ t) = u ++ Re.sub r repl t.
Proof.
  induction u as [|c u IH]; intros H; [reflexivity|].
  simpl. rewrite sub_skip.
  - f_equal. apply IH. intros u1 u2 -> Hne. now apply (H (c :: u1) u2).
  - now apply (H [] (c :: u)).
Qed.

Lemma sub_none repl (s : str) :
  (forall u t, s = u ++ t -> Re.match_at r t = None) -> Re.sub r repl s = s.
Proof.
  induction s as [|c s IH]; intros H; [reflexivity|].
  rewrite sub_skip.
  - f_equal. apply IH. intros u t ->. now apply (H (c :: u) t).
  - now apply (H [] (c :: s)).
Qed.

(** The first position at which the pattern matches, if any. *)
Lemma first_match (s : str) :
  (forall u t, s = u ++ t -> Re.match_at r t = None)
  \/ exists u t cs rest,
       s = u ++ t /\ Re.match_at r t = Some (cs, rest)
       /\ forall u1 u2, u = u1 ++ u2 -> u2 <> [] -> Re.match_at r (u2 ++ t) = None.
Proof.
  induction s as [|c s IH].
  - destruct (Re.match_at r []) as [[cs rest]|] eqn:E.
    + apply consuming in E. simpl in E. lia.
    + left. intros u t Hut. symmetry in Hut. apply app_eq_nil in Hut as [_ ->]. exact E.
  - destruct (Re.match_at r (c :: s)) as [[cs rest]|] eqn:E.
    + right. exists [], (c :: s), cs, rest. repeat split; [exact E|].
      intros u1 u2 Hu Hne. symmetry in Hu. apply app_eq_nil in Hu as [_ ->]. congruence.
    + destruct IH as [IH | (u & t & cs & rest & -> & Ht & Hu)].
      * left. intros u t Hut. destruct u as [|c' u]; simpl in Hut.
        -- now subst t.
        -- injection Hut as <- ->. now apply (IH u t).
      * right. exists (c :: u), t, cs, rest. repeat split; [exact Ht|].
        intros u1 u2 Hu12 Hne. destruct u1 as [|c' u1]; simpl in Hu12.
        -- subst u2. exact E.
        -- injection Hu12 as <- ->. now apply (Hu u1 u2).
Qed.

End ScanFacts.

(** * Tag matches and blocks *)

Section TagFacts.
Context (g1 g2 : string) (open close : str).

Lemma upto_app p (nm : str) x r :
  Forall (fun c => p c = true) nm -> p x = false ->
  upto p (nm ++ x :: r) = nm /\ skip p (nm ++ x :: r) = x :: r.
Proof.
  intros Hnm Hx. induction Hnm as [|c nm Hc _ [IH1 IH2]]; simpl.
  - now rewrite Hx.
  - rewrite Hc, IH1, IH2. now split.
Qed.

Lemma tag_match_block (t nm body post : str) :
  tag_match open close t = Some (nm, body, post) <-> block_at open close t nm body post.
Proof.
  unfold tag_match, block_at, same_i. split.
  - destruct (prefix_by Re.ignorecase open t) as [r1|] eqn:E1; [|discriminate].
    destruct (prefix_by_app _ _ _ _ E1) as (o & -> & Ho).
    pose proof (upto_skip Re.not_gt r1) as Hsplit.
    pose proof (upto_Forall Re.not_gt r1) as Hall.
    destruct (upto Re.not_gt r1) as [|n0 nm0]; [discriminate|].
    destruct (skip Re.not_gt r1) as [|x r2] eqn:E2; [discriminate|].
    destruct (find_by Re.ignorecase close r2) as [[body0 post0]|] eqn:E3; [|discriminate].
    intros [= <- <- <-].
    destruct (find_by_app _ _ _ _ _ E3) as (c & -> & Hc).
    apply skip_head in E2. unfold Re.not_gt in E2.
    apply negb_false_iff, N.eqb_eq in E2. subst x r1.
    exists o, c. repeat split; try assumption.
    + discriminate.
    + intros Hin. rewrite Forall_forall in Hall.
      specialize (Hall 62 Hin). discriminate.
    + intros x c' y Hxy Hc'.
      destruct (Nat.le_gt_cases (length body0) (length x)) as [|Hlt]; [assumption|].
      pose proof (find_by_first _ _ _ _ _ E3 x (c' ++ y) Hxy Hlt) as Hno.
      now rewrite (prefix_by_intro _ _ _ y Hc') in Hno.
  - intros (o & c & -> & Ho & Hc & Hne & Hgt & Hfirst).
    rewrite (prefix_by_intro _ _ _ _ Ho). cbn [app].
    assert (Hall : Forall (fun c => Re.not_gt c = true) nm).
    { rewrite Forall_forall. intros y Hy. unfold Re.not_gt.
      apply negb_true_iff, N.eqb_neq. intros ->. contradiction. }
    destruct (upto_app Re.not_gt nm 62 (body ++ c ++ post) Hall eq_refl) as [-> ->].
    destruct nm as [|n0 nm]; [contradiction|].
    rewrite (find_by_intro Re.ignorecase close body (c ++ post) post).
    + reflexivity.
    + now apply prefix_by_intro.
    + intros x1 y1 Hxy Hlt.
      destruct (prefix_by Re.ignorecase close y1) as [z|] eqn:Ey; [|reflexivity].
      destruct (prefix_by_app _ _ _ _ Ey) as (c' & -> & Hc').
      specialize (Hfirst x1 c' z Hxy Hc'). lia.
Qed.

Lemma tag_match_none (t : str) :
  tag_match open close t = None <-> forall nm body post, ~ block_at open close t nm body post.
Proof.
  split.
  - intros E nm body post H. apply tag_match_block in H. congruence.
  - intros H. destruct (tag_match open close t) as [[[nm body] post]|] eqn:E; [|reflexivity].
    apply tag_match_block in E. now apply H in E.
Qed.

Lemma block_at_shorter (t nm body post : str) :
  block_at open close t nm body post -> (length post < length t)%nat.
Proof.
  intros (o & c & -> & _). rewrite !length_app. simpl. lia.
Qed.

Lemma tag_consuming (s : str) cs rest :
  Re.match_at (tag_pattern g1 g2 open close) s = Some (cs, rest) ->
  (length rest < length s)%nat.
Proof.
  rewrite match_at_tag.
  destruct (tag_match open close s) as [[[nm body] post]|] eqn:E; [|discriminate].
  intros [= <- <-]. apply tag_match_block in E. now apply block_at_shorter in E.
Qed.

(** The matches of a tag pattern are the blocks of the text. *)
Lemma finditer_blocks (s : str) bs :
  blocks open close s bs ->
  Re.finditer (tag_pattern g1 g2 open close) s
  = map (fun b => [(g2, snd b); (g1, fst b)]) bs.
Proof.
  induction 1 as [s Hnone | u t nm body post bs Hblock Hfirst _ IH].
  - apply finditer_none. intros u t ->.
    rewrite match_at_tag. now rewrite (proj2 (tag_match_none t) (Hnone u t eq_refl)).
  - rewrite finditer_skip_many.
    + rewrite (finditer_match _ tag_consuming t [(g2, body); (g1, nm)] post).
      * simpl. now rewrite IH.
      * rewrite match_at_tag. now rewrite (proj2 (tag_match_block _ _ _ _) Hblock).
    + intros u1 u2 Hu Hne. rewrite match_at_tag.
      now rewrite (proj2 (tag_match_none _) (Hfirst u1 u2 Hu Hne)).
Qed.

Lemma blocks_finditer (s : str) :
  blocks open close s (map tag_groups (Re.finditer (tag_pattern g1 g2 open close) s)).
Proof.
  remember (length s) as n eqn:Hn. revert s Hn.
  induction n as [n IH] using lt_wf_ind. intros s ->.
  destruct (first_match _ tag_consuming s)
    as [Hnone | (u & t & cs & rest & -> & Ht & Hu)].
  - rewrite (finditer_none _ s Hnone). apply blocks_nil.
    intros u t Hut. apply tag_match_none.
    specialize (Hnone u t Hut). rewrite match_at_tag in Hnone.
    destruct (tag_match open close t) as [[[? ?] ?]|]; [discriminate | reflexivity].
  - rewrite (finditer_skip_many _ u t Hu).
    rewrite (finditer_match _ tag_consuming t cs rest Ht).
    rewrite match_at_tag in Ht.
    destruct (tag_match open close t) as [[[nm body] post]|] eqn:E; [|discriminate].
    injection Ht as <- <-. simpl.
    apply tag_match_block in E.
    apply (blocks_cons open close u t nm body post); [exact E | |].
    + intros u1 u2 Hu12 Hne. apply tag_match_none.
      specialize (Hu u1 u2 Hu12 Hne). rewrite match_at_tag in Hu.
      destruct (tag_match open close (u2 ++ t)) as [[[? ?] ?]|]; [discriminate | reflexivity].
    + apply (IH (length post)); [|reflexivity].
      apply block_at_shorter in E. rewrite length_app. lia.
Qed.

End TagFacts.

(** * White space *)

Section StripFacts.

Lemma lstrip_split (s : str) :
  exists l, s = l ++ lstrip s /\ whitespace l.
Proof.
  induction s as [|c s (l & IH & Hl)]; simpl.
  - exists []. split; [reflexivity | constructor].
  - destruct (isspace c) eqn:E.
    + exists (c :: l). split; [simpl; now rewrite <- IH | now constructor].
    + exists []. split; [reflexivity | constructor].
Qed.

Lemma lstrip_head (s : str) c y : lstrip s = c :: y -> isspace c = false.
Proof.
  induction s as [|c' s IH]; simpl; [discriminate|].
  destruct (isspace c') eqn:E; [exact IH|]. now intros [= <- _].
Qed.

Lemma lstrip_id (s : str) :
  (forall c y, s = c :: y -> isspace c = false) -> lstrip s = s.
Proof.
  destruct s as [|c s]; [reflexivity|]. intros H. simpl.
  now rewrite (H c s eq_refl).
Qed.

Lemma strip_split (s : str) :
  exists l r, s = l ++ strip s ++ r /\ whitespace l /\ whitespace r.
Proof.
  destruct (lstrip_split s) as (l & Hs & Hl).
  destruct (lstrip_split (rev (lstrip s))) as (r & Hr & Hwr).
  exists l, (rev r). unfold strip, rstrip. split; [|split; [exact Hl|]].
  - rewrite <- rev_app_distr, <- Hr, rev_involutive. exact Hs.
  - now apply Forall_rev.
Qed.

Lemma strip_trimmed (s : str) : trimmed (strip s).
Proof.
  unfold trimmed, strip, rstrip. split.
  - intros c y Hy.
    destruct (lstrip_split (rev (lstrip s))) as (r & Hr & _).
    remember (lstrip (rev (lstrip s))) as m eqn:Hm.
    apply (f_equal (@rev N)) in Hr. rewrite rev_involutive, rev_app_distr, Hy in Hr.
    simpl in Hr. now apply lstrip_head in Hr.
  - intros c y Hy.
    apply (f_equal (@rev N)) in Hy. rewrite rev_involutive, rev_app_distr in Hy.
    simpl in Hy. now apply lstrip_head in Hy.
Qed.

Lemma strip_id (y : str) : trimmed y -> strip y = y.
Proof.
  intros [Hfirst Hlast]. unfold strip, rstrip.
  rewrite (lstrip_id y Hfirst). rewrite lstrip_id; [apply rev_involutive|].
  intros c z Hz. apply (Hlast c (rev z)).
  apply (f_equal (@rev N)) in Hz. rewrite rev_involutive in Hz. now rewrite Hz.
Qed.

Lemma strip_strip (s : str) : strip (strip s) = strip s.
Proof. apply strip_id, strip_trimmed. Qed.

Lemma ink_whitespace (w : str) : whitespace w -> ink w = [].
Proof.
  unfold ink. induction 1 as [|c w Hc _ IH]; simpl; [reflexivity|]. now rewrite Hc.
Qed.

Lemma ink_app (a b : str) : ink (a ++ b) = ink a ++ ink b.
Proof. apply List.filter_app. Qed.

Lemma ink_strip (s : str) : ink (strip s) = ink s.
Proof.
  destruct (strip_split s) as (l & r & Hs & Hl & Hr).
  rewrite Hs at 2. rewrite !ink_app, (ink_whitespace l Hl), (ink_whitespace r Hr).
  now rewrite app_nil_r.
Qed.

Lemma occurs_strip (w s : str) : occurs w (strip s) -> occurs w s.
Proof.
  intros (u & v & Hw). destruct (strip_split s) as (l & r & Hs & _).
  exists (l ++ u), (v ++ r). rewrite Hs, Hw. now rewrite <- !app_assoc.
Qed.

Lemma lstrip_whitespace (l s : str) : whitespace l -> lstrip (l ++ s) = lstrip s.
Proof. induction 1 as [|c l Hc _ IH]; [reflexivity|]. simpl. now rewrite Hc. Qed.

Lemma strip_between (l y r : str) :
  whitespace l -> whitespace r -> trimmed y -> strip (l ++ y ++ r) = y.
Proof.
  intros Hl Hr Hy. unfold strip, rstrip. rewrite (lstrip_whitespace _ _ Hl).
  destruct y as [|c y].
  - cbn [app]. rewrite <- (app_nil_r r), (lstrip_whitespace _ _ Hr). reflexivity.
  - cbn [app lstrip]. rewrite (proj1 Hy c y eq_refl).
    change (c :: y ++ r) with ((c :: y) ++ r).
    rewrite rev_app_distr, lstrip_whitespace by now apply Forall_rev.
    rewrite lstrip_id; [apply rev_involutive|].
    intros c' z Hz. apply (proj2 Hy c' (rev z)).
    apply (f_equal (@rev N)) in Hz. rewrite rev_involutive in Hz. now rewrite Hz.
Qed.

(** [strip] gives the trimmed text, and a text has one trimmed text. *)
Lemma strip_trimmed_text (raw : str) : trimmed_text raw (strip raw).
Proof.
  destruct (strip_split raw) as (l & r & Hs & Hl & Hr).
  exists l, r. repeat split; try assumption; apply strip_trimmed.
Qed.

Lemma trimmed_text_strip (raw y : str) : trimmed_text raw y -> y = strip raw.
Proof.
  intros (l & r & -> & Hl & Hr & Hy). symmetry. now apply strip_between.
Qed.

End StripFacts.

(** * The tool-call parser *)

Section ParserFacts.
Context {W : World}.

Lemma blocks_of_nil open close bs : blocks open close [] bs -> bs = [].
Proof.
  inversion 1 as [| u t nm body post bs' Hb _ _ Hut]; [reflexivity|].
  apply app_eq_nil in Hut as [_ ->].
  apply block_at_shorter in Hb. simpl in Hb. lia.
Qed.

Lemma blocks_length open close (s : str) bs :
  blocks open close s bs ->
  ((length open + length close + 2) * length bs <= length s)%nat.
Proof.
  induction 1 as [s _ | u t nm body post bs Hb _ _ IH]; [simpl; lia|].
  destruct Hb as (o & c & -> & Ho & Hc & Hne & _).
  apply Forall2_length in Ho, Hc.
  destruct nm as [|n0 nm]; [contradiction|].
  cbn [length]. rewrite Nat.mul_succ_r.
  repeat (rewrite length_app || cbn [length app]). lia.
Qed.

Lemma blocks_unclosed open close (s : str) bs :
  ~ occurs_i close s -> blocks open close s bs -> bs = [].
Proof.
  intros Hno. inversion 1 as [| u t nm body post bs' Hb _ _ Hut]; [reflexivity|].
  exfalso. apply Hno. destruct Hb as (o & c & -> & _ & Hc & _).
  exists (u ++ o ++ nm ++ [62] ++ body), c, post. split; [|exact Hc].
  now rewrite <- !app_assoc.
Qed.

Lemma blocks_unopened open close (s : str) bs :
  ~ occurs_i open s -> blocks open close s bs -> bs = [].
Proof.
  intros Hno. inversion 1 as [| u t nm body post bs' Hb _ _ Hut]; [reflexivity|].
  exfalso. apply Hno. destruct Hb as (o & c & -> & Ho & _).
  exists u, o, (nm ++ [62] ++ body ++ c ++ post). now split.
Qed.

Lemma parse_param_store params (p : str * str) :
  parse_param params [("value"%string, snd p); ("name"%string, fst p)] = store params p.
Proof. reflexivity. Qed.

Lemma foldl_parse_param (ps : list (str * str)) params :
  foldl parse_param params
    (map (fun b => [("value"%string, snd b); ("name"%string, fst b)]) ps)
  = foldl store params ps.
Proof.
  revert params. induction ps as [|p ps IH]; intros params; [reflexivity|].
  simpl. now rewrite IH.
Qed.

Lemma lookup_foldl_store (ps : list (str * str)) (k : str) :
  foldl store ∅ ps !! k = stored_value <$> last_value k ps.
Proof.
  unfold last_value.
  induction ps as [|p ps IH] using rev_ind; [reflexivity|].
  rewrite foldl_app, filter_app. simpl. unfold store at 1.
  rewrite filter_cons, filter_nil.
  destruct (decide (strip (fst p) = k)) as [<-|Hne].
  - rewrite lookup_insert_eq. now rewrite last_snoc.
  - rewrite lookup_insert_ne by exact Hne. now rewrite app_nil_r.
Qed.

(** The call built from one function block. *)
Lemma parse_function_block (nm body : str) ps :
  parameter_blocks (strip body) ps ->
  parse_function [("params"%string, body); ("name"%string, nm)]
  = {| function := {| name := strip nm; arguments := foldl store ∅ ps |} |}.
Proof.
  intros Hps. unfold parse_function. cbn [Re.group String.eqb Ascii.eqb Bool.eqb].
  do 2 f_equal.
  destruct (strip body) as [|c sb] eqn:E.
  - apply blocks_of_nil in Hps. now subst ps.
  - rewrite param_pattern_tag.
    rewrite (finditer_blocks _ _ _ _ _ _ Hps). apply foldl_parse_param.
Qed.

Lemma parse_tool_calls_finditer (llm_output : str) bs :
  function_blocks llm_output bs ->
  parse_tool_calls llm_output
  = map (fun b => parse_function [("params"%string, snd b); ("name"%string, fst b)]) bs.
Proof.
  intros Hbs. unfold parse_tool_calls. rewrite function_pattern_tag.
  rewrite (finditer_blocks _ _ _ _ _ _ Hbs). now rewrite map_map.
Qed.

Lemma function_blocks_exist (s : str) : exists bs, function_blocks s bs.
Proof. eexists. apply (blocks_finditer "name" "params"). Qed.

Lemma parameter_blocks_exist (s : str) : exists ps, parameter_blocks s ps.
Proof. eexists. apply (blocks_finditer "name" "value"). Qed.

(** A text has one list of blocks. *)
Lemma blocks_unique open close (s : str) bs1 bs2 :
  blocks open close s bs1 -> blocks open close s bs2 -> bs1 = bs2.
Proof.
  intros H1 H2.
  pose proof (finditer_blocks "1" "2" _ _ _ _ H1) as E1.
  rewrite (finditer_blocks "1" "2" _ _ _ _ H2) in E1.
  clear H1 H2. revert bs1 E1.
  induction bs2 as [|[n2 b2] bs2 IH]; intros [|[n1 b1] bs1] E; try discriminate.
  - reflexivity.
  - simpl in E. injection E as <- <- E. f_equal. now apply IH.
Qed.

End ParserFacts.

(** * Claims about the parser *)

Section ParserClaims.
Context {W : World}.

(** C1. Every text has one list of function blocks, and
    [parse_tool_calls] returns one call per block, in the order of the
    blocks (so no block gives the empty list); the call is named by the
    trimmed block name; a block without parameter blocks has the empty
    arguments mapping; and the mapping binds each name to the stored
    value of the last parameter block of that name. *)
Theorem parse_tool_calls_blocks (llm_output : str) :
  (exists bs, function_blocks llm_output bs
              /\ forall bs', function_blocks llm_output bs' -> bs' = bs)
  /\ forall bs, function_blocks llm_output bs ->
       Forall2
         (fun (tc : ToolCall) (b : str * str) =>
            name (function tc) = strip (fst b)
            /\ (exists ps, parameter_blocks (strip (snd b)) ps)
            /\ forall ps, parameter_blocks (strip (snd b)) ps ->
                 (ps = [] -> arguments (function tc) = ∅)
                 /\ forall k,
                      arguments (function tc) !! k = stored_value <$> last_value k ps)
         (parse_tool_calls llm_output) bs.
Proof.
  split.
  { destruct (function_blocks_exist llm_output) as [bs Hbs].
    exists bs. split; [exact Hbs|]. intros bs' Hbs'.
    exact (blocks_unique _ _ _ _ _ Hbs' Hbs). }
  intros bs Hbs. rewrite (parse_tool_calls_finditer _ _ Hbs). clear Hbs.
  induction bs as [|[nm body] bs IH]; constructor; [|exact IH].
  cbn [fst snd]. destruct (parameter_blocks_exist (strip body)) as [ps0 Hps0].
  split; [|split].
  - now rewrite (parse_function_block nm body ps0 Hps0).
  - now exists ps0.
  - intros ps Hps. rewrite (parse_function_block nm body ps Hps). cbn [function arguments].
    split.
    + now intros ->.
    + intros k. apply lookup_foldl_store.
Qed.

(** C2. Each parameter block is stored under its trimmed name with the
    value decoded by [json.loads] from the trimmed raw text, or with that
    trimmed text itself when decoding raises; so the last block of a name
    decides the binding. Trimming is what [trimmed_text] says, without
    reference to [strip]: the text between the white space at the two
    ends; the key [k] and the text [v] handed to [json.loads] are the
    trimmed name and the trimmed raw value of the last block whose
    trimmed name is [k], and [strip] gives that text and no other. On
    the example of the specification the result is one call [foo] with
    [x] bound to the number 1 and [y] to the string [bar]; the same call
    results when blanks, tabs and line ends surround the function name,
    the parameter names and the raw values. *)
Theorem parse_tool_calls_values :
  (forall llm_output bs, function_blocks llm_output bs ->
     Forall2
       (fun (tc : ToolCall) (b : str * str) =>
          forall ps, parameter_blocks (strip (snd b)) ps ->
            arguments (function tc)
            = foldl
                (fun params p =>
                   <[strip (fst p) :=
                       match json_loads (strip (snd p)) with
                       | Ok v => v
                       | Raise _ => PStr (strip (snd p))
                       end]> params)
                ∅ ps
            /\ forall p, last (filter (fun q => strip (fst q) = strip (fst p)) ps) = Some p ->
                 arguments (function tc) !! strip (fst p)
                 = Some match json_loads (strip (snd p)) with
                        | Ok v => v
                        | Raise _ => PStr (strip (snd p))
                        end)
       (parse_tool_calls llm_output) bs)
  /\ (forall llm_output bs, function_blocks llm_output bs ->
        Forall2
          (fun (tc : ToolCall) (b : str * str) =>
             forall body ps before p after k v,
               trimmed_text (snd b) body ->
               parameter_blocks body ps ->
               ps = before ++ p :: after ->
               trimmed_text (fst p) k ->
               trimmed_text (snd p) v ->
               Forall (fun q => ~ trimmed_text (fst q) k) after ->
               arguments (function tc) !! k
               = Some match json_loads v with
                      | Ok d => d
                      | Raise _ => PStr v
                      end)
          (parse_tool_calls llm_output) bs)
  /\ (forall raw : str,
        trimmed_text raw (strip raw)
        /\ forall y, trimmed_text raw y -> y = strip raw)
  /\ (forall e,
        json_loads (lit "1") = Ok (PInt 1) -> json_loads (lit "bar") = Raise e ->
        parse_tool_calls
          (lit "<function=foo><parameter=x>1</parameter><parameter=y>bar</parameter></function>")
        = [{| function :=
                {| name := lit "foo";
                   arguments := <[lit "y" := PStr (lit "bar")]> (<[lit "x" := PInt 1]> ∅) |} |}]
        /\ parse_tool_calls
             (lit "<function= foo >" ++ [10]
              ++ lit "<parameter= x > 1 </parameter>" ++ [10]
              ++ lit "<parameter=y>" ++ [10] ++ lit "  bar" ++ [9; 10] ++ lit "</parameter>"
              ++ [10] ++ lit "</function>")
           = [{| function :=
                   {| name := lit "foo";
                      arguments := <[lit "y" := PStr (lit "bar")]> (<[lit "x" := PInt 1]> ∅) |} |}]).
Proof.
  split; [|split; [|split]].
  - intros llm_output bs Hbs. rewrite (parse_tool_calls_finditer _ _ Hbs). clear Hbs.
    induction bs as [|[nm body] bs IH]; constructor; [|exact IH].
    cbn [fst snd]. intros ps Hps.
    rewrite (parse_function_block nm body ps Hps). cbn [function arguments].
    split; [reflexivity|].
    intros p Hp. rewrite lookup_foldl_store. unfold last_value. now rewrite Hp.
  - intros llm_output bs Hbs. rewrite (parse_tool_calls_finditer _ _ Hbs). clear Hbs.
    induction bs as [|[nm body0] bs IH]; constructor; [|exact IH].
    cbn [fst snd]. intros body ps before p after k v Hbody Hps -> Hk Hv Hafter.
    apply trimmed_text_strip in Hbody, Hk, Hv. subst body k v.
    rewrite (parse_function_block nm body0 _ Hps). cbn [function arguments].
    rewrite lookup_foldl_store. unfold last_value.
    assert (Hnone : filter (fun q : str * str => strip (fst q) = strip (fst p)) after = []).
    { clear Hps. induction Hafter as [|q after Hq _ IHa]; [reflexivity|].
      rewrite filter_cons, IHa.
      destruct (decide (strip (fst q) = strip (fst p))) as [E|_]; [|reflexivity].
      exfalso. apply Hq. rewrite <- E. apply strip_trimmed_text. }
    rewrite filter_app, filter_cons, Hnone.
    destruct (decide (strip (fst p) = strip (fst p))) as [_|Hne]; [|now contradiction Hne].
    now rewrite last_snoc.
  - intros raw. split; [apply strip_trimmed_text | apply trimmed_text_strip].
  - intros e H1 Hbar.
    assert (Hstore :
      foldl store ∅ [(lit " x ", lit " 1 "); (lit "y", [10] ++ lit "  bar" ++ [9; 10])]
      = <[lit "y" := PStr (lit "bar")]> (<[lit "x" := PInt 1]> ∅)
      /\ foldl store ∅ [(lit "x", lit "1"); (lit "y", lit "bar")]
         = <[lit "y" := PStr (lit "bar")]> (<[lit "x" := PInt 1]> ∅)).
    { cbn [foldl]. unfold store, stored_value. cbn [fst snd].
      change (strip (lit " 1 ")) with (lit "1").
      change (strip ([10] ++ lit "  bar" ++ [9; 10])) with (lit "bar").
      change (strip (lit "1")) with (lit "1"). change (strip (lit "bar")) with (lit "bar").
      change (strip (lit " x ")) with (lit "x").
      change (strip (lit "x")) with (lit "x"). change (strip (lit "y")) with (lit "y").
      rewrite H1, Hbar. now split. }
    destruct Hstore as [Hspaced Hplain].
    split.
    + set (body := lit "<parameter=x>1</parameter><parameter=y>bar</parameter>").
      assert (Hbs : function_blocks
                      (lit "<function=foo><parameter=x>1</parameter><parameter=y>bar</parameter></function>")
                      [(lit "foo", body)]).
      { pose proof (blocks_finditer "name" "params" (lit "<function=") (lit "</function>")
                      (lit "<function=foo><parameter=x>1</parameter><parameter=y>bar</parameter></function>"))
          as H.
        vm_compute in H. exact H. }
      assert (Hps : parameter_blocks (strip body) [(lit "x", lit "1"); (lit "y", lit "bar")]).
      { pose proof (blocks_finditer "name" "value" (lit "<parameter=") (lit "</parameter>")
                      (strip body)) as H.
        vm_compute in H. exact H. }
      rewrite (parse_tool_calls_finditer _ _ Hbs). cbn [map fst snd].
      rewrite (parse_function_block _ _ _ Hps), Hplain.
      change (strip (lit "foo")) with (lit "foo"). reflexivity.
    + set (body := [10] ++ lit "<parameter= x > 1 </parameter>" ++ [10]
                   ++ lit "<parameter=y>" ++ [10] ++ lit "  bar" ++ [9; 10]
                   ++ lit "</parameter>" ++ [10]).
      set (text := lit "<function= foo >" ++ [10]
                   ++ lit "<parameter= x > 1 </parameter>" ++ [10]
                   ++ lit "<parameter=y>" ++ [10] ++ lit "  bar" ++ [9; 10]
                   ++ lit "</parameter>" ++ [10] ++ lit "</function>").
      assert (Hbs : function_blocks text [(lit " foo ", body)]).
      { pose proof (blocks_finditer "name" "params" (lit "<function=") (lit "</function>") text)
          as H.
        vm_compute in H. exact H. }
      assert (Hps : parameter_blocks (strip body)
                      [(lit " x ", lit " 1 "); (lit "y", [10] ++ lit "  bar" ++ [9; 10])]).
      { pose proof (blocks_finditer "name" "value" (lit "<parameter=") (lit "</parameter>")
                      (strip body)) as H.
        vm_compute in H. exact H. }
      rewrite (parse_tool_calls_finditer _ _ Hbs). cbn [map fst snd].
      rewrite (parse_function_block _ _ _ Hps), Hspaced.
      change (strip (lit " foo ")) with (lit "foo"). reflexivity.
Qed.

(** C10. Whatever [json.loads] does, [parse_tool_calls] returns a list,
    with at most one call per 23 characters of text: the empty text, a
    text in which no function block is closed, and a text without an
    opening function tag (so also parameter tags outside any block) give
    no call, and a block in which no parameter is closed gives a call
    without arguments. *)
Theorem parse_tool_calls_total (llm_output : str) :
  (exists calls, parse_tool_calls llm_output = calls
                 /\ (23 * length calls <= length llm_output)%nat)
  /\ parse_tool_calls [] = []
  /\ (~ occurs_i (lit "</function>") llm_output -> parse_tool_calls llm_output = [])
  /\ (~ occurs_i (lit "<function=") llm_output -> parse_tool_calls llm_output = [])
  /\ forall bs, function_blocks llm_output bs ->
       Forall2
         (fun (tc : ToolCall) (b : str * str) =>
            ~ occurs_i (lit "</parameter>") (strip (snd b)) ->
            arguments (function tc) = ∅)
         (parse_tool_calls llm_output) bs.
Proof.
  destruct (function_blocks_exist llm_output) as [bs0 Hbs0].
  split; [|split; [|split; [|split]]].
  - eexists. split; [reflexivity|].
    rewrite (parse_tool_calls_finditer _ _ Hbs0), length_map.
    apply (blocks_length _ _ _ _ Hbs0).
  - reflexivity.
  - intros Hno. rewrite (parse_tool_calls_finditer _ _ Hbs0).
    now rewrite (blocks_unclosed _ _ _ _ Hno Hbs0).
  - intros Hno. rewrite (parse_tool_calls_finditer _ _ Hbs0).
    now rewrite (blocks_unopened _ _ _ _ Hno Hbs0).
  - intros bs Hbs. rewrite (parse_tool_calls_finditer _ _ Hbs). clear Hbs.
    induction bs as [|[nm body] bs IH]; constructor; [|exact IH].
    cbn [fst snd]. intros Hno.
    destruct (parameter_blocks_exist (strip body)) as [ps Hps].
    rewrite (parse_function_block nm body ps Hps). cbn [function arguments].
    now rewrite (blocks_unclosed _ _ _ _ Hno Hps).
Qed.

End ParserClaims.

(** * Blank lines *)

Section BlankFacts.

Lemma last_nl_shorter (s r : str) : last_nl s = Some r -> (length r < length s)%nat.
Proof.
  revert r. induction s as [|c s IH]; intros r; simpl; [discriminate|].
  destruct (isspace c); [|discriminate].
  destruct (last_nl s) as [r'|].
  - intros [= <-]. specialize (IH r' eq_refl). lia.
  - destruct (c =? 10); [|discriminate]. intros [= <-]. lia.
Qed.

Lemma last_nl_split (s r : str) :
  last_nl s = Some r ->
  exists w, s = w ++ 10 :: r /\ whitespace w /\ last_nl r = None.
Proof.
  revert r. induction s as [|c s IH]; intros r; simpl; [discriminate|].
  destruct (isspace c) eqn:Ec; [|discriminate].
  destruct (last_nl s) as [r'|] eqn:E.
  - intros [= <-]. destruct (IH r' eq_refl) as (w & -> & Hw & Hr).
    exists (c :: w). repeat split; [now constructor | exact Hr].
  - destruct (c =? 10) eqn:E10; [|discriminate]. intros [= <-].
    apply N.eqb_eq in E10. subst c.
    exists []. repeat split; [constructor | exact E].
Qed.

Lemma last_nl_intro (w v : str) :
  whitespace w -> last_nl (w ++ 10 :: v) <> None.
Proof.
  induction 1 as [|c w Hc _ IH]; simpl.
  - destruct (last_nl v); discriminate.
  - rewrite Hc. destruct (last_nl (w ++ 10 :: v)); [discriminate | contradiction].
Qed.

Lemma last_nl_None (s : str) :
  last_nl s = None <-> forall w v, s = w ++ 10 :: v -> ~ whitespace w.
Proof.
  split.
  - intros E w v -> Hw. now apply (last_nl_intro w v Hw).
  - intros H. destruct (last_nl s) as [r|] eqn:E; [|reflexivity].
    destruct (last_nl_split _ _ E) as (w & Hs & Hw & _).
    now destruct (H w r Hs).
Qed.

Lemma blank_consuming (s : str) cs rest :
  Re.match_at blank_pattern s = Some (cs, rest) -> (length rest < length s)%nat.
Proof.
  rewrite match_at_blank. unfold blank_match.
  destruct s as [|c s]; [discriminate|].
  destruct (c =? 10); [|discriminate].
  destruct (last_nl s) as [r|] eqn:E; [|discriminate].
  intros [= <- <-]. apply last_nl_shorter in E. simpl. lia.
Qed.

Lemma collapse_skip c (s : str) :
  blank_match (c :: s) = None -> collapse (c :: s) = c :: collapse s.
Proof.
  intros E. apply sub_skip. rewrite match_at_blank. now rewrite E.
Qed.

Lemma collapse_match (s rest : str) :
  blank_match s = Some rest -> collapse s = 10 :: 10 :: collapse rest.
Proof.
  intros E. unfold collapse.
  rewrite (sub_match _ blank_consuming [10; 10] s [] rest); [reflexivity|].
  rewrite match_at_blank. now rewrite E.
Qed.

Lemma blank_match_cases (s : str) :
  (exists rest w, blank_match s = Some rest /\ s = 10 :: w ++ 10 :: rest
                  /\ whitespace w /\ last_nl rest = None)
  \/ (blank_match s = None
      /\ forall c s', s = c :: s' -> c = 10 -> last_nl s' = None).
Proof.
  destruct s as [|c s]; [right; split; [reflexivity | discriminate]|].
  unfold blank_match. destruct (c =? 10) eqn:E10.
  - apply N.eqb_eq in E10. subst c. destruct (last_nl s) as [r|] eqn:E.
    + left. destruct (last_nl_split _ _ E) as (w & -> & Hw & Hr).
      exists r, w. now repeat split.
    + right. split; [reflexivity|]. now intros c s' [= _ <-] _.
  - right. split; [reflexivity|]. intros c' s' [= <- _] ->. discriminate.
Qed.

(** Induction along the scan of the blank-line pattern. *)
Lemma collapse_ind (P : str -> Prop) :
  P [] ->
  (forall c s, blank_match (c :: s) = None ->
     (c = 10 -> last_nl s = None) -> P s -> P (c :: s)) ->
  (forall w rest, whitespace w -> last_nl rest = None ->
     blank_match (10 :: w ++ 10 :: rest) = Some rest -> P rest ->
     P (10 :: w ++ 10 :: rest)) ->
  forall s, P s.
Proof.
  intros Hnil Hskip Hmatch s.
  remember (length s) as n eqn:Hn. revert s Hn.
  induction n as [n IH] using lt_wf_ind. intros s ->.
  destruct (blank_match_cases s) as [(rest & w & E & -> & Hw & Hr) | [E Hc]].
  - apply Hmatch; try assumption.
    apply (IH (length rest)); [|reflexivity].
    simpl. rewrite length_app. simpl. lia.
  - destruct s as [|c s]; [exact Hnil|].
    apply Hskip; [exact E | now apply Hc |].
    apply (IH (length s)); [simpl; lia | reflexivity].
Qed.

Lemma last_nl_collapse (r : str) : last_nl r = None -> last_nl (collapse r) = None.
Proof.
  induction r as [|c r IH]; [reflexivity|].
  simpl. destruct (isspace c) eqn:Ec.
  - destruct (last_nl r) eqn:E; [discriminate|].
    destruct (c =? 10) eqn:E10; [discriminate|]. intros _.
    rewrite collapse_skip by (unfold blank_match; now rewrite E10).
    simpl. now rewrite Ec, IH, E10.
  - intros _. rewrite collapse_skip.
    + simpl. now rewrite Ec.
    + unfold blank_match. destruct (c =? 10) eqn:E10; [|reflexivity].
      apply isspace_nl in E10. congruence.
Qed.

Lemma single_blank_lines_cons c (y : str) :
  single_blank_lines (c :: y) <->
  single_blank_lines y
  /\ (c = 10 -> last_nl y = None \/ exists v, y = 10 :: v /\ last_nl v = None).
Proof.
  unfold single_blank_lines. split.
  - intros H. split.
    + intros u w v -> Hw. now apply (H (c :: u) w v).
    + intros ->. destruct (last_nl y) as [r|] eqn:E; [|now left].
      right. destruct (last_nl_split _ _ E) as (w & -> & Hw & Hr).
      rewrite (H [] w r eq_refl Hw). now exists r.
  - intros [Hy Hc] u w v Huv Hw.
    destruct u as [|c' u]; simpl in Huv.
    + injection Huv as -> ->.
      destruct (Hc eq_refl) as [E | (v' & Ev & E)].
      * now destruct (last_nl_intro w v Hw).
      * destruct w as [|x w]; [reflexivity|].
        injection Ev as -> <-. exfalso.
        inversion Hw as [|? ? _ Hw']; subst. now apply (last_nl_intro w v Hw').
    + injection Huv as <- ->. now apply (Hy u w v).
Qed.

Lemma single_blank_lines_nil : single_blank_lines [].
Proof.
  intros u w v H. destruct u; discriminate.
Qed.

(** After the substitution no blank-line run is left. *)
Lemma collapse_single_blank_lines (s : str) : single_blank_lines (collapse s).
Proof.
  induction s as [| c s E Hc IH | w rest Hw Hr E IH] using collapse_ind.
  - apply single_blank_lines_nil.
  - rewrite (collapse_skip _ _ E). apply single_blank_lines_cons.
    split; [exact IH|]. intros H10. left. now apply last_nl_collapse, Hc.
  - rewrite (collapse_match _ _ E).
    apply last_nl_collapse in Hr.
    apply single_blank_lines_cons. split.
    + apply single_blank_lines_cons. split; [exact IH | now left].
    + intros _. right. now exists (collapse rest).
Qed.

(** A text without blank-line runs is left as it is. *)
Lemma collapse_id (y : str) : single_blank_lines y -> collapse y = y.
Proof.
  induction y as [| c s E Hc IH | w rest Hw Hr E IH] using collapse_ind; intros Hy.
  - reflexivity.
  - rewrite (collapse_skip _ _ E). f_equal. apply IH.
    now apply single_blank_lines_cons in Hy as [Hy _].
  - rewrite (collapse_match _ _ E).
    assert (w = []) as -> by apply (Hy [] w rest eq_refl Hw).
    simpl in *. do 2 f_equal. apply IH.
    apply single_blank_lines_cons in Hy as [Hy _].
    now apply single_blank_lines_cons in Hy as [Hy _].
Qed.

Lemma single_blank_lines_part (a y b : str) :
  single_blank_lines (a ++ y ++ b) -> single_blank_lines y.
Proof.
  intros H u w v -> Hw. apply (H (a ++ u) w (v ++ b)); [|exact Hw].
  rewrite <- !app_assoc. simpl. now rewrite <- !app_assoc.
Qed.

Lemma ink_collapse (s : str) : ink (collapse s) = ink s.
Proof.
  induction s as [| c s E Hc IH | w rest Hw Hr E IH] using collapse_ind.
  - reflexivity.
  - rewrite (collapse_skip _ _ E). unfold ink in *. simpl. now rewrite IH.
  - rewrite (collapse_match _ _ E).
    change (10 :: 10 :: collapse rest) with ([10; 10] ++ collapse rest).
    change (10 :: w ++ 10 :: rest) with ([10] ++ w ++ [10] ++ rest).
    rewrite !ink_app, IH, (ink_whitespace w Hw). reflexivity.
Qed.

(** A word without white space that the result starts with, or
    contains, was already there. *)
Lemma collapse_prefix (w s : str) :
  Forall (fun c => isspace c = false) w ->
  forall z, collapse s = w ++ z -> exists z', s = w ++ z'.
Proof.
  intros Hw. revert s. induction Hw as [|x w Hx _ IH]; intros s z Hs.
  - now exists s.
  - destruct (blank_match_cases s) as [(rest & w' & E & _) | [E _]].
    + rewrite (collapse_match _ _ E) in Hs. injection Hs as <- _. discriminate.
    + destruct s as [|c s]; [discriminate|].
      rewrite (collapse_skip _ _ E) in Hs. injection Hs as -> Hs.
      destruct (IH _ _ Hs) as (z' & ->). now exists z'.
Qed.

Lemma occurs_collapse (w s : str) :
  w <> [] -> Forall (fun c => isspace c = false) w ->
  occurs w (collapse s) -> occurs w s.
Proof.
  intros Hne Hw.
  induction s as [| c s E Hc IH | w' rest Hw' Hr E IH] using collapse_ind;
    intros (u & v & Huv).
  - exists u, v. exact Huv.
  - rewrite (collapse_skip _ _ E) in Huv.
    destruct u as [|c' u]; simpl in Huv.
    + destruct (collapse_prefix w (c :: s) Hw v) as (z' & ->).
      * now rewrite (collapse_skip _ _ E).
      * now exists [], z'.
    + injection Huv as <- Huv.
      destruct IH as (u' & v' & ->); [now exists u, v|].
      now exists (c :: u'), v'.
  - rewrite (collapse_match _ _ E) in Huv.
    assert (Hin : occurs w (collapse rest)).
    { destruct w as [|x w]; [contradiction|].
      inversion Hw as [|? ? Hx Hw0]; subst.
      destruct u as [|c1 u]; simpl in Huv; [injection Huv as <- _; discriminate|].
      destruct u as [|c2 u]; simpl in Huv; [injection Huv as _ <- _; discriminate|].
      injection Huv as _ _ Huv. now exists u, v. }
    destruct (IH Hin) as (u' & v' & ->).
    exists (10 :: w' ++ 10 :: u'), v'.
    simpl. rewrite <- !app_assoc. reflexivity.
Qed.

End BlankFacts.

(** * Thinking spans *)

Section ThinkFacts.

Lemma prefix_by_eqb (w s rest : str) : prefix_by N.eqb w s = Some rest <-> s = w ++ rest.
Proof.
  split.
  - intros H. destruct (prefix_by_app _ _ _ _ H) as (o & -> & Ho). f_equal.
    clear H. induction Ho as [|l c w o Hlc _ IH]; [reflexivity|].
    apply N.eqb_eq in Hlc. now subst.
  - intros ->. apply prefix_by_intro.
    induction w as [|l w IH]; constructor; [apply N.eqb_refl | exact IH].
Qed.

Lemma not_occurs_check (w s : str) : find_by N.eqb w s = None -> ~ occurs w s.
Proof.
  intros E (u & v & Hs).
  pose proof (find_by_None _ _ _ E u (w ++ v) Hs) as Hno.
  now rewrite (proj2 (prefix_by_eqb w (w ++ v) v) eq_refl) in Hno.
Qed.

Lemma not_occurs_i_check (w s : str) : find_by Re.ignorecase w s = None -> ~ occurs_i w s.
Proof.
  intros E (u & o & v & Hs & Ho).
  pose proof (find_by_None _ _ _ E u (o ++ v) Hs) as Hno.
  now rewrite (prefix_by_intro _ _ _ v Ho) in Hno.
Qed.

(** A marker whose first character does not come back later in it
    cannot straddle the end of a text and a copy of itself. *)
Lemma marker_no_overlap h (w' t z rest : str) :
  h ∉ w' ->
  prefix_by N.eqb (h :: w') (t ++ (h :: w') ++ z) = Some rest ->
  t = [] \/ occurs (h :: w') t.
Proof.
  intros Hh H. apply prefix_by_eqb in H.
  apply app_eq_app in H as [l [[Ht Hr] | [Hw Hz]]].
  - right. now exists [], l.
  - destruct t as [|x t]; [now left|]. right.
    simpl in Hw. injection Hw as <- Hw.
    destruct l as [|y l].
    + rewrite app_nil_r in Hw. subst w'. exists [], []. simpl. now rewrite app_nil_r.
    + simpl in Hz. injection Hz as <- _. exfalso. apply Hh.
      rewrite Hw. apply elem_of_app. right. apply elem_of_cons. now left.
Qed.

Lemma marker_first h (w' c rest : str) :
  h ∉ w' -> ~ occurs (h :: w') c ->
  find_by N.eqb (h :: w') (c ++ (h :: w') ++ rest) = Some (c, rest).
Proof.
  intros Hh Hc. apply find_by_intro.
  - now apply prefix_by_eqb.
  - intros x1 y1 Hxy Hlt.
    destruct (prefix_by N.eqb (h :: w') y1) as [r|] eqn:E; [|reflexivity].
    exfalso. apply app_eq_app in Hxy as [l [[Hc' Hy] | [Hx _]]].
    + subst y1 c.
      destruct (marker_no_overlap _ _ _ _ _ Hh E) as [-> | (u & v & ->)].
      * rewrite length_app in Hlt. simpl in Hlt. lia.
      * apply Hc. exists (x1 ++ u), v. now rewrite <- !app_assoc.
    + subst x1. rewrite length_app in Hlt. lia.
Qed.

Lemma begin_token_shape :
  exists w', THINK_BEGIN_TOKEN = 60 :: w' /\ 60 ∉ w'.
Proof.
  eexists. split; [reflexivity|].
  apply (bool_decide_unpack _). vm_compute. exact I.
Qed.

Lemma end_token_shape :
  exists w', THINK_END_TOKEN = 60 :: w' /\ 60 ∉ w'.
Proof.
  eexists. split; [reflexivity|].
  apply (bool_decide_unpack _). vm_compute. exact I.
Qed.

Lemma think_match_shape (s c post : str) :
  think_match s = Some (c, post) ->
  s = THINK_BEGIN_TOKEN ++ c ++ THINK_END_TOKEN ++ post.
Proof.
  unfold think_match.
  destruct (prefix_by N.eqb THINK_BEGIN_TOKEN s) as [r1|] eqn:E; [|discriminate].
  apply prefix_by_eqb in E. subst s. intros H.
  destruct (find_by_app _ _ _ _ _ H) as (o & -> & Ho). do 2 f_equal.
  assert (Hsome : prefix_by N.eqb THINK_END_TOKEN (o ++ post) = Some post)
    by now apply prefix_by_intro.
  apply prefix_by_eqb in Hsome. now apply app_inv_tail in Hsome as ->.
Qed.

Lemma think_consuming (s : str) cs rest :
  Re.match_at think_pattern s = Some (cs, rest) -> (length rest < length s)%nat.
Proof.
  rewrite match_at_think.
  destruct (think_match s) as [[c post]|] eqn:E; [|discriminate].
  intros [= <- <-]. apply think_match_shape in E. subst s.
  rewrite !length_app. simpl. lia.
Qed.

Lemma think_match_begin (s : str) :
  ~ (exists z, s = THINK_BEGIN_TOKEN ++ z) -> Re.match_at think_pattern s = None.
Proof.
  intros Hno. rewrite match_at_think.
  destruct (think_match s) as [[c post]|] eqn:E; [|reflexivity].
  apply think_match_shape in E. exfalso. apply Hno.
  exists (c ++ THINK_END_TOKEN ++ post). exact E.
Qed.

(** A text without begin marker is left as it is. *)
Lemma sub_think_none (tail : str) :
  ~ occurs THINK_BEGIN_TOKEN tail -> Re.sub think_pattern [] tail = tail.
Proof.
  intros Hno. apply sub_none. intros u t ->. apply think_match_begin.
  intros (z & ->). apply Hno. now exists u, z.
Qed.

(** In a piece without begin marker followed by a span, the pattern
    matches nowhere in the piece and matches the span. *)
Lemma think_span_matches (t c rest : str) :
  ~ occurs THINK_BEGIN_TOKEN t -> ~ occurs THINK_END_TOKEN c ->
  (forall u1 u2, t = u1 ++ u2 -> u2 <> [] ->
     Re.match_at think_pattern
       (u2 ++ THINK_BEGIN_TOKEN ++ c ++ THINK_END_TOKEN ++ rest) = None)
  /\ Re.match_at think_pattern (THINK_BEGIN_TOKEN ++ c ++ THINK_END_TOKEN ++ rest)
     = Some ([("1"%string, c)], rest).
Proof.
  intros Ht Hc.
  destruct begin_token_shape as (wb & Eb & Hb).
  destruct end_token_shape as (we & Ee & He).
  split.
  - intros u1 u2 -> Hne. apply think_match_begin. intros (z & Hz).
    assert (Hp : prefix_by N.eqb THINK_BEGIN_TOKEN
                   (u2 ++ THINK_BEGIN_TOKEN ++ c ++ THINK_END_TOKEN ++ rest) = Some z)
      by now apply prefix_by_eqb.
    rewrite Eb in Hp.
    destruct (marker_no_overlap _ _ _ _ _ Hb Hp) as [-> | (u & v & ->)];
      [contradiction|].
    apply Ht. rewrite Eb. exists (u1 ++ u), v. now rewrite <- !app_assoc.
  - rewrite match_at_think. unfold think_match.
    rewrite (proj2 (prefix_by_eqb _ _ _) eq_refl).
    rewrite Ee. rewrite (marker_first 60 we c rest He); [reflexivity|].
    now rewrite <- Ee.
Qed.

(** One span, after a text without begin marker, is taken out. *)
Lemma sub_think_span (t c rest : str) :
  ~ occurs THINK_BEGIN_TOKEN t -> ~ occurs THINK_END_TOKEN c ->
  Re.sub think_pattern [] (t ++ THINK_BEGIN_TOKEN ++ c ++ THINK_END_TOKEN ++ rest)
  = t ++ Re.sub think_pattern [] rest.
Proof.
  intros Ht Hc. destruct (think_span_matches t c rest Ht Hc) as [Hskip Hmatch].
  rewrite (sub_skip_many _ _ _ _ Hskip). f_equal.
  now rewrite (sub_match _ think_consuming [] _ _ _ Hmatch).
Qed.

Lemma finditer_think_span (t c rest : str) :
  ~ occurs THINK_BEGIN_TOKEN t -> ~ occurs THINK_END_TOKEN c ->
  Re.finditer think_pattern (t ++ THINK_BEGIN_TOKEN ++ c ++ THINK_END_TOKEN ++ rest)
  = [("1"%string, c)] :: Re.finditer think_pattern rest.
Proof.
  intros Ht Hc. destruct (think_span_matches t c rest Ht Hc) as [Hskip Hmatch].
  rewrite (finditer_skip_many _ _ _ Hskip).
  now rewrite (finditer_match _ think_consuming _ _ _ Hmatch).
Qed.

(** The matches in a well-formed text are its spans, in order. *)
Lemma finditer_think_spans (spans : list (str * str)) (tail : str) :
  Forall (fun sp => ~ occurs THINK_BEGIN_TOKEN (fst sp)
                    /\ ~ occurs THINK_END_TOKEN (snd sp)) spans ->
  ~ occurs THINK_BEGIN_TOKEN tail ->
  Re.finditer think_pattern (with_thinking spans tail)
  = map (fun sp => [("1"%string, snd sp)]) spans.
Proof.
  intros Hspans Htail.
  induction Hspans as [|[t c] spans [Ht Hc] _ IH];
    cbn [with_thinking map fst snd] in *.
  - apply finditer_none. intros u t ->. apply think_match_begin.
    intros (z & ->). apply Htail. now exists u, z.
  - rewrite (finditer_think_span t c _ Ht Hc). now rewrite IH.
Qed.

(** All spans of a well-formed text are taken out, and nothing else. *)
Lemma sub_think_spans (spans : list (str * str)) (tail : str) :
  Forall (fun sp => ~ occurs THINK_BEGIN_TOKEN (fst sp)
                    /\ ~ occurs THINK_END_TOKEN (snd sp)) spans ->
  ~ occurs THINK_BEGIN_TOKEN tail ->
  Re.sub think_pattern [] (with_thinking spans tail) = without_thinking spans tail.
Proof.
  intros Hspans Htail.
  induction Hspans as [|[t c] spans [Ht Hc] _ IH];
    cbn [with_thinking without_thinking fst snd] in *.
  - now apply sub_think_none.
  - rewrite (sub_think_span t c _ Ht Hc). now rewrite IH.
Qed.

End ThinkFacts.

(** * The driver, step by step *)

Section DriverFacts.
Context {W : World} {re : ReModule}.

Lemma shown_details_short (details : str) :
  details <> [] -> (length details <= 5000)%nat -> shown_details details = Some details.
Proof.
  intros Hne Hlen. destruct details as [|c details]; [contradiction|].
  unfold shown_details. now rewrite (proj2 (Nat.ltb_ge _ _) Hlen).
Qed.

Lemma add_stdout_nil st : add_stdout [] st = st.
Proof. destruct st. unfold add_stdout. simpl. now rewrite app_nil_r. Qed.

Lemma advance_0 st : advance 0 st = st.
Proof. destruct st. unfold advance. simpl. now rewrite Nat.add_0_r. Qed.

Lemma process_spec (self : LLMToolClient) (raw : str) st :
  _process_llm_response self raw st
  = (Ok (fst (processed (config self) raw)),
     add_stdout (snd (processed (config self) raw)) st).
Proof.
  unfold _process_llm_response, processed, process_body.
  destruct (show_thinking_tokens (config self)).
  - simpl. now rewrite add_stdout_nil.
  - unfold try_except, bind, lift, ret, print, emit.
    destruct (re_compile think_pattern) as [pattern|e]; [|reflexivity].
    destruct (re_sub pattern [] raw) as [p1|e]; [|reflexivity].
    destruct (re_sub blank_pattern [10; 10] p1) as [p2|e]; [|reflexivity].
    simpl. now rewrite add_stdout_nil.
Qed.

Lemma call_llm_spec (self : LLMToolClient) (prompt : str) st :
  call_llm self prompt st
  = match completions_create (requests st) (model_name (config self)) prompt
            (max_tokens (config self)) with
    | Ok choices =>
        (Ok (fst (processed (config self) (raw_output_of choices))),
         add_stdout (snd (processed (config self) (raw_output_of choices)))
           (add_request st))
    | Raise e =>
        (Raise (RuntimeError (lit "LLM API call failed: " ++ exn_msg e)), add_request st)
    end.
Proof.
  unfold call_llm, try_except, bind, completions.
  destruct (completions_create _ _ _ _) as [choices|e]; [|reflexivity].
  fold (add_request st). fold (raw_output_of choices). now rewrite process_spec.
Qed.

Lemma execute_tool_call_spec (tc : ToolCall) st :
  execute_tool_call tc st
  = if registered tc then (Ok (timestamp (clock st)), advance 1 st)
    else (Raise (unknown_function (name (function tc))), st).
Proof.
  unfold execute_tool_call, registered, bool_decide.
  destruct (decide_rel eq (name (function tc)) (lit "get_current_local_time"));
    [|reflexivity].
  unfold get_current_local_time, timestamp, advance. now rewrite Nat.add_1_r.
Qed.

Lemma execute_one_spec idx (tc : ToolCall) acc st :
  execute_one idx tc acc st
  = (Ok (acc ++ [tool_result_of idx (clock st) tc]),
     add_stdout [tool_log_of (clock st) tc]
       (advance (if registered tc then 1 else 0) st)).
Proof.
  unfold execute_one, try_except, bind. rewrite execute_tool_call_spec.
  unfold tool_result_of, tool_log_of.
  destruct (registered tc); [reflexivity|]. now rewrite advance_0.
Qed.

Lemma execute_tool_calls_spec (tool_calls : list ToolCall) idx acc st :
  execute_tool_calls idx tool_calls acc st
  = (Ok (acc ++ tool_results_of idx (clock st) tool_calls),
     add_stdout (tool_logs_of (clock st) tool_calls)
       (advance (registered_count tool_calls) st)).
Proof.
  revert idx acc st. induction tool_calls as [|tc tool_calls IH]; intros idx acc st.
  - simpl. unfold ret. now rewrite app_nil_r, advance_0, add_stdout_nil.
  - cbn [execute_tool_calls]. unfold bind. rewrite execute_one_spec, IH.
    cbn [tool_results_of tool_logs_of]. rewrite <- app_assoc.
    destruct st as [out rq clk conv].
    unfold add_stdout, advance, registered_count.
    cbn [stdout requests clock conversation List.filter app].
    destruct (registered tc); cbn [length];
      rewrite ?Nat.add_0_r, ?Nat.add_1_r, <- ?app_assoc; cbn [app];
      (f_equal; try reflexivity; f_equal; lia).
Qed.

Lemma append_results_spec (tool_results : list Message) st :
  append_results tool_results st
  = (Ok tt, add_messages (map tool_message tool_results) st).
Proof.
  revert st. induction tool_results as [|r tool_results IH]; intros st.
  - destruct st. unfold add_messages. simpl. unfold ret. now rewrite app_nil_r.
  - cbn [append_results]. unfold bind, conversation_append. rewrite IH.
    destruct st. unfold add_messages. simpl. now rewrite <- app_assoc.
Qed.

Ltac run_unfold :=
  unfold run_tool_calling_demo, LLMToolClient_init, _load_jinja_template,
    render_prompt, bind, try_except, lift, ret, raise, log_step,
    conversation_append, get_conversation, emit.

(** The run when the first response holds no function block. *)
Lemma run_no_tool_calls path cfg t p1 choices1 :
  load_config path = Ok cfg ->
  OpenAI (api_key cfg) (base_url cfg) = Ok tt ->
  open_template (template_path cfg) = Loaded t ->
  template_render t [user_message] cfg = Ok p1 ->
  completions_create 0 (model_name cfg) p1 (max_tokens cfg) = Ok choices1 ->
  parse_tool_calls (fst (processed cfg (raw_output_of choices1))) = [] ->
  run_tool_calling_demo path initial_state
  = (Ok tt,
     {| stdout :=
          [LogStep StartingDemo [];
           LogStep LoadedConfiguration (lit "Using template: " ++ template_path cfg);
           LogStep UserInput user_query;
           LogStep RenderingInitialPrompt [];
           LogStep RenderedPromptPreview p1;
           LogStep SendingPrompt []]
          ++ snd (processed cfg (raw_output_of choices1))
          ++ [LogStep ResponseReceived (fst (processed cfg (raw_output_of choices1)));
              LogStep NoToolCalls (lit "LLM responded directly");
              LogStep DirectAnswer
                (match fst (processed cfg (raw_output_of choices1)) with
                 | [] => lit "Empty response"
                 | _ :: _ => fst (processed cfg (raw_output_of choices1))
                 end)];
        requests := 1; clock := 0; conversation := [user_message] |}).
Proof.
  intros Hcfg Hcli Htpl Hr1 Hc1 Hparse.
  run_unfold. cbn [initial_state stdout requests clock conversation app].
  rewrite Hcfg. cbn [stdout requests clock conversation app].
  rewrite Hcli. cbn [stdout requests clock conversation app].
  rewrite Htpl. cbn [stdout requests clock conversation app config template].
  fold user_message. rewrite Hr1.
  rewrite call_llm_spec. cbn [stdout requests clock conversation app config template].
  rewrite Hc1. rewrite Hparse.
  unfold add_stdout, add_request. cbn [stdout requests clock conversation].
  rewrite <- !app_assoc. reflexivity.
Qed.

(** The run when the first response holds function blocks and the
    collaborators answer a second time. *)
Lemma run_with_tool_calls path cfg t p1 choices1 p2 choices2 :
  load_config path = Ok cfg ->
  OpenAI (api_key cfg) (base_url cfg) = Ok tt ->
  open_template (template_path cfg) = Loaded t ->
  template_render t [user_message] cfg = Ok p1 ->
  completions_create 0 (model_name cfg) p1 (max_tokens cfg) = Ok choices1 ->
  parse_tool_calls (fst (processed cfg (raw_output_of choices1))) <> [] ->
  template_render t
    (user_message
     :: map tool_message
          (tool_results_of 0 0
             (parse_tool_calls (fst (processed cfg (raw_output_of choices1))))))
    cfg = Ok p2 ->
  completions_create 1 (model_name cfg) p2 (max_tokens cfg) = Ok choices2 ->
  run_tool_calling_demo path initial_state
  = (Ok tt,
     {| stdout :=
          [LogStep StartingDemo [];
           LogStep LoadedConfiguration (lit "Using template: " ++ template_path cfg);
           LogStep UserInput user_query;
           LogStep RenderingInitialPrompt [];
           LogStep RenderedPromptPreview p1;
           LogStep SendingPrompt []]
          ++ snd (processed cfg (raw_output_of choices1))
          ++ [LogStep ResponseReceived (fst (processed cfg (raw_output_of choices1)));
              LogStep ExecutingToolCalls
                (lit "Found "
                 ++ str_of_nat
                      (length (parse_tool_calls
                                 (fst (processed cfg (raw_output_of choices1)))))
                 ++ lit " tool(s)")]
          ++ tool_logs_of 0 (parse_tool_calls (fst (processed cfg (raw_output_of choices1))))
          ++ [LogStep AddingToolResults [];
              LogStep
                (RenderingFinalPrompt
                   (user_message
                    :: map tool_message
                         (tool_results_of 0 0
                            (parse_tool_calls
                               (fst (processed cfg (raw_output_of choices1)))))))
                [];
              LogStep (SendingFinalPrompt p2) []]
          ++ snd (processed cfg (raw_output_of choices2))
          ++ [LogStep FinalResponse
                (match fst (processed cfg (raw_output_of choices2)) with
                 | [] => lit "No answer generated"
                 | _ :: _ => fst (processed cfg (raw_output_of choices2))
                 end)];
        requests := 2;
        clock := registered_count
                   (parse_tool_calls (fst (processed cfg (raw_output_of choices1))));
        conversation :=
          user_message
          :: map tool_message
               (tool_results_of 0 0
                  (parse_tool_calls (fst (processed cfg (raw_output_of choices1))))) |}).
Proof.
  intros Hcfg Hcli Htpl Hr1 Hc1 Hparse Hr2 Hc2.
  run_unfold. cbn [initial_state stdout requests clock conversation app].
  rewrite Hcfg. cbn [stdout requests clock conversation app].
  rewrite Hcli. cbn [stdout requests clock conversation app].
  rewrite Htpl. cbn [stdout requests clock conversation app config template].
  fold user_message. rewrite Hr1.
  rewrite call_llm_spec. cbn [stdout requests clock conversation app config template].
  rewrite Hc1.
  destruct (parse_tool_calls (fst (processed cfg (raw_output_of choices1))))
    as [|tc tool_calls] eqn:Ecalls; [contradiction|].
  rewrite execute_tool_calls_spec, append_results_spec.
  unfold add_stdout, add_request, add_messages, advance.
  cbn [stdout requests clock conversation app config template].
  rewrite Hr2. rewrite call_llm_spec.
  cbn [stdout requests clock conversation app config template].
  rewrite Hc2. unfold add_stdout, add_request.
  cbn [stdout requests clock conversation Nat.add].
  repeat (rewrite <- app_assoc || rewrite <- app_comm_cons).
  reflexivity.
Qed.

Lemma starts_round_tool_logs clk (tool_calls : list ToolCall) :
  List.filter starts_round (tool_logs_of clk tool_calls) = [].
Proof.
  revert clk. induction tool_calls as [|tc tool_calls IH]; intros clk; [reflexivity|].
  simpl. unfold tool_log_of at 1. destruct (registered tc); simpl; apply IH.
Qed.

Lemma reports_dispatch_tool_logs clk (tool_calls : list ToolCall) :
  length (List.filter reports_dispatch (tool_logs_of clk tool_calls)) = length tool_calls.
Proof.
  revert clk. induction tool_calls as [|tc tool_calls IH]; intros clk; [reflexivity|].
  cbn [tool_logs_of]. unfold tool_log_of at 1.
  destruct (registered tc); cbn; now rewrite IH.
Qed.

Lemma reports_dispatch_processed cfg raw :
  List.filter reports_dispatch (snd (processed cfg raw)) = [].
Proof.
  unfold processed. destruct (show_thinking_tokens cfg); [reflexivity|].
  destruct (process_body raw); reflexivity.
Qed.

Lemma starts_round_processed cfg raw :
  List.filter starts_round (snd (processed cfg raw)) = [].
Proof.
  unfold processed. destruct (show_thinking_tokens cfg); [reflexivity|].
  destruct (process_body raw); reflexivity.
Qed.

Ltac run_leaf :=
  cbn [fst snd stdout requests clock conversation];
  split; [reflexivity|];
  split; [lia|];
  split;
  [ unfold rounds, LogStep; cbn [stdout];
    rewrite ?List.filter_app, ?starts_round_tool_logs, ?starts_round_processed,
      ?length_app;
    cbn [List.filter starts_round length app]; lia
  | first [ reflexivity
          | apply prefix_app_r; reflexivity
          | rewrite <- app_assoc; apply prefix_app_r; reflexivity ] ].

(** Whether the collaborators return or raise an [Exception], the run
    returns, with at most two requests to the endpoint, at most one
    round of tool execution, and a conversation that has only grown. *)
Lemma run_bounds path st :
  fst (run_tool_calling_demo path st) = Ok tt
  /\ (requests (snd (run_tool_calling_demo path st)) <= requests st + 2)%nat
  /\ (rounds (snd (run_tool_calling_demo path st)) <= rounds st + 1)%nat
  /\ conversation st `prefix_of` conversation (snd (run_tool_calling_demo path st)).
Proof.
  destruct st as [out rq clk conv].
  run_unfold. cbn [stdout requests clock conversation].
  destruct (load_config path) as [cfg|e]; [|run_leaf].
  cbn [stdout requests clock conversation].
  destruct (OpenAI (api_key cfg) (base_url cfg)) as [[]|e]; [|run_leaf].
  cbn [stdout requests clock conversation].
  destruct (open_template (template_path cfg)) as [| e | t]; [run_leaf | run_leaf |].
  cbn [stdout requests clock conversation config template].
  fold user_message.
  destruct (template_render t (conv ++ [user_message]) cfg) as [p1|e]; [|run_leaf].
  rewrite call_llm_spec. cbn [stdout requests clock conversation config template].
  destruct (completions_create rq (model_name cfg) p1 (max_tokens cfg)) as [choices1|e];
    [|unfold add_request; run_leaf].
  unfold add_stdout, add_request. cbn [stdout requests clock conversation].
  destruct (parse_tool_calls (fst (processed cfg (raw_output_of choices1))))
    as [|tc tool_calls]; [run_leaf|].
  rewrite execute_tool_calls_spec, append_results_spec.
  unfold add_stdout, add_messages, advance.
  cbn [stdout requests clock conversation config template].
  match goal with
  | |- context [template_render t ?c cfg] =>
      destruct (template_render t c cfg) as [p2|e]; [|run_leaf]
  end.
  rewrite call_llm_spec. cbn [stdout requests clock conversation config template].
  destruct (completions_create (S rq) (model_name cfg) p2 (max_tokens cfg))
    as [choices2|e]; unfold add_stdout, add_request; run_leaf.
Qed.

End DriverFacts.

(** * Claims about the post-processor *)

Section ProcessorClaims.
Context {W : World}.

Lemma process_hidden (self : LLMToolClient) (x : str) st :
  show_thinking_tokens (config self) = false ->
  _process_llm_response (re := re_module) self x st = (Ok (strip_thinking x), st).
Proof.
  intros Hshow. rewrite process_spec. unfold processed. rewrite Hshow.
  cbn. now rewrite add_stdout_nil.
Qed.

(** C3. With thinking hidden, in a text made of pieces without begin
    marker and of N spans whose content holds no end marker, the pattern
    matches exactly the N spans, each ending at the first end marker
    after its begin marker, and the substitution takes them out, the
    pieces staying in order; then every blank-line run is reduced to one
    blank line and the white space at both ends is taken off: the result
    is the kept text up to white space, it is trimmed, and no blank-line
    run is left in it. *)
Theorem process_removes_thinking (self : LLMToolClient)
    (spans : list (str * str)) (tail : str) (st : RunState) :
  show_thinking_tokens (config self) = false ->
  Forall (fun sp => ~ occurs THINK_BEGIN_TOKEN (fst sp)
                    /\ ~ occurs THINK_END_TOKEN (snd sp)) spans ->
  ~ occurs THINK_BEGIN_TOKEN tail ->
  Re.finditer think_pattern (with_thinking spans tail)
  = map (fun sp => [("1"%string, snd sp)]) spans
  /\ Re.sub think_pattern [] (with_thinking spans tail) = without_thinking spans tail
  /\ exists y,
       _process_llm_response (re := re_module) self (with_thinking spans tail) st
       = (Ok y, st)
       /\ y = strip (Re.sub blank_pattern [10; 10] (without_thinking spans tail))
       /\ single_blank_lines (Re.sub blank_pattern [10; 10] (without_thinking spans tail))
       /\ (exists l r,
             Re.sub blank_pattern [10; 10] (without_thinking spans tail) = l ++ y ++ r
             /\ whitespace l /\ whitespace r)
       /\ trimmed y
       /\ single_blank_lines y
       /\ ink y = ink (without_thinking spans tail).
Proof.
  intros Hshow Hspans Htail.
  pose proof (sub_think_spans spans tail Hspans Htail) as Hsub.
  split; [now apply finditer_think_spans|].
  split; [exact Hsub|].
  exists (strip (collapse (without_thinking spans tail))).
  fold (collapse (without_thinking spans tail)).
  destruct (strip_split (collapse (without_thinking spans tail))) as (l & r & Hs & Hl & Hr).
  repeat split.
  - rewrite (process_hidden self _ st Hshow). unfold strip_thinking. now rewrite Hsub.
  - apply collapse_single_blank_lines.
  - now exists l, r.
  - apply (proj1 (strip_trimmed _)).
  - apply (proj2 (strip_trimmed _)).
  - apply (single_blank_lines_part l _ r). rewrite <- Hs. apply collapse_single_blank_lines.
  - now rewrite ink_strip, ink_collapse.
Qed.

(** C4, as the code has it. With thinking hidden, a text without begin
    marker comes back with its blank-line runs reduced to one blank line
    and trimmed at both ends, the same text up to white space; when it
    has no blank-line run it comes back trimmed and otherwise unchanged;
    and the post-processor leaves its own result unchanged. *)
Theorem process_marker_free (self : LLMToolClient) (x : str) (st : RunState) :
  show_thinking_tokens (config self) = false ->
  ~ occurs THINK_BEGIN_TOKEN x ->
  _process_llm_response (re := re_module) self x st
  = (Ok (strip (Re.sub blank_pattern [10; 10] x)), st)
  /\ ink (strip (Re.sub blank_pattern [10; 10] x)) = ink x
  /\ (single_blank_lines x -> strip (Re.sub blank_pattern [10; 10] x) = strip x)
  /\ _process_llm_response (re := re_module) self
       (strip (Re.sub blank_pattern [10; 10] x)) st
     = (Ok (strip (Re.sub blank_pattern [10; 10] x)), st).
Proof.
  intros Hshow Hx. fold (collapse x).
  assert (Hsub : forall z, ~ occurs THINK_BEGIN_TOKEN z ->
                 strip_thinking z = strip (collapse z)).
  { intros z Hz. unfold strip_thinking. now rewrite (sub_think_none z Hz). }
  repeat split.
  - rewrite (process_hidden self x st Hshow). now rewrite (Hsub x Hx).
  - now rewrite ink_strip, ink_collapse.
  - intros Hnf. now rewrite (collapse_id x Hnf).
  - rewrite (process_hidden self _ st Hshow). rewrite Hsub.
    + rewrite collapse_id; [now rewrite strip_strip|].
      destruct (strip_split (collapse x)) as (l & r & Hs & _).
      apply (single_blank_lines_part l _ r). rewrite <- Hs.
      apply collapse_single_blank_lines.
    + intros Hocc. apply occurs_strip in Hocc. apply occurs_collapse in Hocc.
      * contradiction.
      * discriminate.
      * vm_compute. repeat constructor.
Qed.

End ProcessorClaims.

Lemma process_removes_thinking_witness :
  show_thinking_tokens (config (scripted_client [])) = false
  /\ Forall (fun sp => ~ occurs THINK_BEGIN_TOKEN (fst sp)
                       /\ ~ occurs THINK_END_TOKEN (snd sp))
       [(lit "A" ++ [10; 10], lit "plan"); ([10; 10] ++ lit "B", lit "check")]
  /\ ~ occurs THINK_BEGIN_TOKEN (lit " done ")
  /\ exists y,
       _process_llm_response (re := re_module) (scripted_client [])
         (with_thinking
            [(lit "A" ++ [10; 10], lit "plan"); ([10; 10] ++ lit "B", lit "check")]
            (lit " done "))
         initial_state
       = (Ok y, initial_state)
       /\ y = lit "A" ++ [10; 10] ++ lit "B done".
Proof.
  assert (H1 : show_thinking_tokens (config (scripted_client [])) = false)
    by reflexivity.
  assert (H2 : Forall (fun sp => ~ occurs THINK_BEGIN_TOKEN (fst sp)
                                 /\ ~ occurs THINK_END_TOKEN (snd sp))
                 [(lit "A" ++ [10; 10], lit "plan"); ([10; 10] ++ lit "B", lit "check")]).
  { repeat constructor; apply not_occurs_check; vm_compute; reflexivity. }
  assert (H3 : ~ occurs THINK_BEGIN_TOKEN (lit " done "))
    by (apply not_occurs_check; vm_compute; reflexivity).
  split; [exact H1|]. split; [exact H2|]. split; [exact H3|].
  destruct (process_removes_thinking (scripted_client []) _ _ initial_state H1 H2 H3)
    as (_ & _ & y & Hy & Hval & _).
  exists y. split; [exact Hy|]. rewrite Hval. vm_compute. reflexivity.
Defined.

Lemma process_marker_free_witness :
  show_thinking_tokens (config (scripted_client [])) = false
  /\ ~ occurs THINK_BEGIN_TOKEN ([32] ++ lit "a" ++ [10; 32; 10; 10] ++ lit "b" ++ [10])
  /\ _process_llm_response (re := re_module) (scripted_client [])
       ([32] ++ lit "a" ++ [10; 32; 10; 10] ++ lit "b" ++ [10]) initial_state
     = (Ok (lit "a" ++ [10; 10] ++ lit "b"), initial_state)
  /\ _process_llm_response (re := re_module) (scripted_client [])
       (lit "a" ++ [10; 10] ++ lit "b") initial_state
     = (Ok (lit "a" ++ [10; 10] ++ lit "b"), initial_state).
Proof.
  assert (H1 : show_thinking_tokens (config (scripted_client [])) = false)
    by reflexivity.
  assert (H2 : ~ occurs THINK_BEGIN_TOKEN
                 ([32] ++ lit "a" ++ [10; 32; 10; 10] ++ lit "b" ++ [10]))
    by (apply not_occurs_check; vm_compute; reflexivity).
  split; [exact H1|]. split; [exact H2|].
  destruct (process_marker_free (scripted_client []) _ initial_state H1 H2)
    as (Hrun & _ & _ & Hagain).
  assert (E : strip (Re.sub blank_pattern [10; 10]
                       ([32] ++ lit "a" ++ [10; 32; 10; 10] ++ lit "b" ++ [10]))
              = lit "a" ++ [10; 10] ++ lit "b") by (vm_compute; reflexivity).
  rewrite E in Hrun, Hagain. split; [exact Hrun | exact Hagain].
Defined.

(** The wording of C4 fails: a text without markers
    and with two blank lines in a row does not come back merely
    trimmed. *)
Lemma process_marker_free_counterexample :
  ~ (forall (W : World) (self : LLMToolClient) (x : str) (st : RunState),
       show_thinking_tokens (config self) = false ->
       ~ occurs THINK_BEGIN_TOKEN x -> ~ occurs THINK_END_TOKEN x ->
       _process_llm_response (re := re_module) self x st = (Ok (strip x), st)).
Proof.
  intros H.
  specialize (H (scripted_world []) (scripted_client [])
                (lit "a" ++ [10; 10; 10] ++ lit "b") initial_state eq_refl).
  assert (Hb : ~ occurs THINK_BEGIN_TOKEN (lit "a" ++ [10; 10; 10] ++ lit "b"))
    by (apply not_occurs_check; vm_compute; reflexivity).
  assert (He : ~ occurs THINK_END_TOKEN (lit "a" ++ [10; 10; 10] ++ lit "b"))
    by (apply not_occurs_check; vm_compute; reflexivity).
  specialize (H Hb He). vm_compute in H. discriminate H.
Qed.

(** * Claims about the dispatcher and the driver *)

Section DriverClaims.
Context {W : World} {re : ReModule}.

Lemma tool_results_lookup (tool_calls : list ToolCall) idx clk i tc :
  tool_calls !! i = Some tc ->
  tool_results_of idx clk tool_calls !! i
  = Some (tool_result_of (idx + i) (clk + registered_count (take i tool_calls)) tc).
Proof.
  revert idx clk i. induction tool_calls as [|tc0 tool_calls IH]; intros idx clk i Hi.
  - discriminate.
  - destruct i as [|i]; simpl in Hi.
    + injection Hi as ->. simpl. now rewrite !Nat.add_0_r.
    + cbn [tool_results_of lookup list_lookup]. rewrite (IH _ _ _ Hi). do 2 f_equal.
      * lia.
      * unfold registered_count. cbn [take List.filter].
        destruct (registered tc0); cbn [length]; lia.
Qed.

Lemma tool_results_length (tool_calls : list ToolCall) idx clk :
  length (tool_results_of idx clk tool_calls) = length tool_calls.
Proof.
  revert idx clk. induction tool_calls as [|tc tool_calls IH]; intros idx clk;
    [reflexivity|].
  simpl. now rewrite IH.
Qed.

(** C6. A call whose function name is not [get_current_local_time]
    makes [execute_tool_call] raise the [ValueError] whose message is
    [Unknown function '<name>'], from which the name can be read back,
    and returns no result; a call of [get_current_local_time] returns
    the formatted reading of the clock. *)
Theorem execute_tool_call_dispatch (tool_call : ToolCall) (st : RunState) :
  (name (function tool_call) <> lit "get_current_local_time" ->
   execute_tool_call tool_call st
   = (Raise (ValueError (lit "Unknown function '" ++ name (function tool_call) ++ lit "'")),
      st))
  /\ (name (function tool_call) = lit "get_current_local_time" ->
      execute_tool_call tool_call st
      = (Ok (strftime (datetime_now (clock st)) (lit "%Y-%m-%d %H:%M:%S %Z%z")),
         advance 1 st))
  /\ (forall n1 n2 : str,
        lit "Unknown function '" ++ n1 ++ lit "'" = lit "Unknown function '" ++ n2 ++ lit "'"
        -> n1 = n2).
Proof.
  rewrite execute_tool_call_spec. unfold registered. repeat split.
  - intros Hne. now rewrite bool_decide_eq_false_2.
  - intros He. now rewrite bool_decide_eq_true_2.
  - intros n1 n2 H. apply app_inv_head in H. now apply app_inv_tail in H.
Qed.

(** C7, as the code has it. The loop over the parsed calls returns one
    tool result per call, in the order of the calls, numbered
    [call_<idx>]; its content is the text the dispatch returned, or, when
    the dispatch raised, the cross mark of the source followed by
    [ ERROR in tool '<name>': <message>]. *)
Theorem execute_tool_calls_results (tool_calls : list ToolCall) (idx : nat)
    (tool_results : list Message) (st : RunState) :
  exists results st',
    execute_tool_calls idx tool_calls tool_results st = (Ok (tool_results ++ results), st')
    /\ length results = length tool_calls
    /\ forall i tc, tool_calls !! i = Some tc ->
         exists r,
           results !! i = Some r
           /\ role r = lit "tool"
           /\ tool_call_id r = Some (lit "call_" ++ str_of_nat (idx + i))
           /\ match fst (execute_tool_call tc
                           (advance (registered_count (take i tool_calls)) st)) with
              | Ok result => content r = result
              | Raise e =>
                  content r
                  = cross_mark ++ lit " ERROR in tool '" ++ name (function tc) ++ lit "': "
                    ++ exn_msg e
              end.
Proof.
  eexists _, _. split; [apply execute_tool_calls_spec|].
  split; [apply tool_results_length|].
  intros i tc Hi. eexists. split; [apply (tool_results_lookup _ _ _ _ _ Hi)|].
  repeat split. rewrite execute_tool_call_spec.
  unfold tool_result_of. cbn [content]. destruct (registered tc); reflexivity.
Qed.

(** C8. Whatever the [re] module does, the post-processor returns a
    text; when its [try] block raises it prints the warning and returns
    the text it was given; [call_llm] then returns that text, and the
    run goes on with it to the parser and to its answer. *)
Theorem process_failure_recovered (self : LLMToolClient) (llm_output : str)
    (st : RunState) :
  (exists y st', _process_llm_response self llm_output st = (Ok y, st'))
  /\ (forall e,
        show_thinking_tokens (config self) = false ->
        process_body llm_output = Raise e ->
        _process_llm_response self llm_output st
        = (Ok llm_output,
           add_stdout
             [Print (lit "Warning: Failed to process thinking tokens: " ++ exn_msg e)] st))
  /\ (forall prompt choices e,
        show_thinking_tokens (config self) = false ->
        completions_create (requests st) (model_name (config self)) prompt
          (max_tokens (config self)) = Ok choices ->
        process_body (raw_output_of choices) = Raise e ->
        fst (call_llm self prompt st) = Ok (raw_output_of choices))
  /\ (forall path cfg t p1 choices1 e,
        load_config path = Ok cfg ->
        OpenAI (api_key cfg) (base_url cfg) = Ok tt ->
        open_template (template_path cfg) = Loaded t ->
        template_render t [user_message] cfg = Ok p1 ->
        completions_create 0 (model_name cfg) p1 (max_tokens cfg) = Ok choices1 ->
        show_thinking_tokens cfg = false ->
        process_body (raw_output_of choices1) = Raise e ->
        parse_tool_calls (raw_output_of choices1) = [] ->
        run_tool_calling_demo path initial_state
        = (Ok tt,
           {| stdout :=
                [LogStep StartingDemo [];
                 LogStep LoadedConfiguration (lit "Using template: " ++ template_path cfg);
                 LogStep UserInput user_query;
                 LogStep RenderingInitialPrompt [];
                 LogStep RenderedPromptPreview p1;
                 LogStep SendingPrompt [];
                 Print (lit "Warning: Failed to process thinking tokens: " ++ exn_msg e);
                 LogStep ResponseReceived (raw_output_of choices1);
                 LogStep NoToolCalls (lit "LLM responded directly");
                 LogStep DirectAnswer
                   (match raw_output_of choices1 with
                    | [] => lit "Empty response"
                    | _ :: _ => raw_output_of choices1
                    end)];
              requests := 1; clock := 0; conversation := [user_message] |})).
Proof.
  split; [|split; [|split]].
  - eexists _, _. apply process_spec.
  - intros e Hshow Hbody. rewrite process_spec. unfold processed.
    now rewrite Hshow, Hbody.
  - intros prompt choices e Hshow Hc Hbody. rewrite call_llm_spec, Hc.
    unfold processed. now rewrite Hshow, Hbody.
  - intros path cfg t p1 choices1 e Hcfg Hcli Htpl Hr1 Hc1 Hshow Hbody Hparse.
    assert (Hp : processed cfg (raw_output_of choices1)
                 = (raw_output_of choices1, [process_warning e])).
    { unfold processed. now rewrite Hshow, Hbody. }
    rewrite (run_no_tool_calls path cfg t p1 choices1 Hcfg Hcli Htpl Hr1 Hc1).
    + now rewrite Hp.
    + now rewrite Hp.
Qed.

(** C5, as the code has it. A run makes at most two requests and begins
    at most one round of tool execution. When the first response holds
    no function block the run ends after one request, without a round,
    and reports that response as the answer, word for word unless it is
    empty, in which case it reports [Empty response]. When it holds
    function blocks the run executes them in one round, makes the second
    request and reports its response: the clock is read once per
    registered call of the first response and the conversation holds
    one tool message per call of the first response, whatever the second
    response contains; an answer longer than 5000 characters is shown cut
    there. *)
Theorem run_one_round (path : option str) :
  (forall st,
     (requests (snd (run_tool_calling_demo path st)) <= requests st + 2)%nat
     /\ (rounds (snd (run_tool_calling_demo path st)) <= rounds st + 1)%nat)
  /\ (forall cfg t p1 choices1,
        load_config path = Ok cfg ->
        OpenAI (api_key cfg) (base_url cfg) = Ok tt ->
        open_template (template_path cfg) = Loaded t ->
        template_render t [user_message] cfg = Ok p1 ->
        completions_create 0 (model_name cfg) p1 (max_tokens cfg) = Ok choices1 ->
        parse_tool_calls (response_of cfg choices1) = [] ->
        requests (snd (run_tool_calling_demo path initial_state)) = 1%nat
        /\ rounds (snd (run_tool_calling_demo path initial_state)) = 0%nat
        /\ dispatched (snd (run_tool_calling_demo path initial_state)) = 0%nat
        /\ clock (snd (run_tool_calling_demo path initial_state)) = 0%nat
        /\ conversation (snd (run_tool_calling_demo path initial_state)) = [user_message]
        /\ last (stdout (snd (run_tool_calling_demo path initial_state)))
           = Some (LogStep DirectAnswer
                     (match response_of cfg choices1 with
                      | [] => lit "Empty response"
                      | _ :: _ => response_of cfg choices1
                      end))
        /\ (response_of cfg choices1 <> [] ->
            (length (response_of cfg choices1) <= 5000)%nat ->
            last (stdout (snd (run_tool_calling_demo path initial_state)))
            = Some (LogBox DirectAnswer (Some (response_of cfg choices1)))))
  /\ (forall cfg t p1 choices1 p2 choices2,
        load_config path = Ok cfg ->
        OpenAI (api_key cfg) (base_url cfg) = Ok tt ->
        open_template (template_path cfg) = Loaded t ->
        template_render t [user_message] cfg = Ok p1 ->
        completions_create 0 (model_name cfg) p1 (max_tokens cfg) = Ok choices1 ->
        parse_tool_calls (response_of cfg choices1) <> [] ->
        template_render t
          (user_message
           :: map tool_message
                (tool_results_of 0 0 (parse_tool_calls (response_of cfg choices1))))
          cfg = Ok p2 ->
        completions_create 1 (model_name cfg) p2 (max_tokens cfg) = Ok choices2 ->
        requests (snd (run_tool_calling_demo path initial_state)) = 2%nat
        /\ rounds (snd (run_tool_calling_demo path initial_state)) = 1%nat
        /\ dispatched (snd (run_tool_calling_demo path initial_state))
           = length (parse_tool_calls (response_of cfg choices1))
        /\ clock (snd (run_tool_calling_demo path initial_state))
           = registered_count (parse_tool_calls (response_of cfg choices1))
        /\ conversation (snd (run_tool_calling_demo path initial_state))
           = user_message
             :: map tool_message
                  (tool_results_of 0 0 (parse_tool_calls (response_of cfg choices1)))
        /\ last (stdout (snd (run_tool_calling_demo path initial_state)))
           = Some (LogStep FinalResponse
                     (match response_of cfg choices2 with
                      | [] => lit "No answer generated"
                      | _ :: _ => response_of cfg choices2
                      end))).
Proof.
  unfold response_of. split; [|split].
  - intros st. destruct (run_bounds path st) as (_ & Hreq & Hrounds & _). now split.
  - intros cfg t p1 choices1 Hcfg Hcli Htpl Hr1 Hc1 Hparse.
    rewrite (run_no_tool_calls path cfg t p1 choices1 Hcfg Hcli Htpl Hr1 Hc1 Hparse).
    cbn [snd stdout requests clock conversation]. repeat split.
    + unfold rounds. cbn [stdout].
      rewrite !List.filter_app, starts_round_processed. reflexivity.
    + unfold dispatched. cbn [stdout].
      rewrite !List.filter_app, reports_dispatch_processed. reflexivity.
    + apply last_Some. eexists. rewrite !app_assoc.
      change [LogStep ResponseReceived ?a; LogStep NoToolCalls ?b; LogStep DirectAnswer ?c]
        with ([LogStep ResponseReceived a; LogStep NoToolCalls b] ++ [LogStep DirectAnswer c]).
      rewrite app_assoc. reflexivity.
    + intros Hne Hlen. apply last_Some. eexists. rewrite !app_assoc.
      change [LogStep ResponseReceived ?a; LogStep NoToolCalls ?b; LogStep DirectAnswer ?c]
        with ([LogStep ResponseReceived a; LogStep NoToolCalls b] ++ [LogStep DirectAnswer c]).
      rewrite app_assoc. do 2 f_equal. unfold LogStep. f_equal.
      destruct (fst (processed cfg (raw_output_of choices1))) as [|c0 r0] eqn:E;
        [contradiction|].
      now apply shown_details_short.
  - intros cfg t p1 choices1 p2 choices2 Hcfg Hcli Htpl Hr1 Hc1 Hparse Hr2 Hc2.
    rewrite (run_with_tool_calls path cfg t p1 choices1 p2 choices2
               Hcfg Hcli Htpl Hr1 Hc1 Hparse Hr2 Hc2).
    cbn [snd stdout requests clock conversation]. repeat split.
    + unfold rounds. cbn [stdout].
      rewrite !List.filter_app, !starts_round_processed, starts_round_tool_logs.
      reflexivity.
    + unfold dispatched. cbn [stdout].
      rewrite !List.filter_app, !length_app, !reports_dispatch_processed,
        reports_dispatch_tool_logs.
      cbn. lia.
    + apply last_Some. eexists. rewrite !app_assoc. reflexivity.
Qed.

Lemma append_only_bind {A B} (m : M A) (f : A -> M B) :
  append_only m -> (forall a, append_only (f a)) -> append_only (bind m f).
Proof.
  intros Hm Hf st. unfold bind. specialize (Hm st).
  destruct (m st) as [[a|e] st'] eqn:E; simpl in *.
  - etransitivity; [exact Hm | apply Hf].
  - exact Hm.
Qed.

Lemma append_only_try {A} (m : M A) (h : exn -> M A) :
  append_only m -> (forall e, append_only (h e)) -> append_only (try_except m h).
Proof.
  intros Hm Hh st. unfold try_except. specialize (Hm st).
  destruct (m st) as [[a|e] st'] eqn:E; simpl in *.
  - exact Hm.
  - etransitivity; [exact Hm | apply Hh].
Qed.

(** C9, as the code has it. Each tool result has role [tool], a
    content and a [tool_call_id]; for each of them the driver appends to
    the conversation a message of role [tool] with the same content and
    no [tool_call_id], in the order of the results; and the run only
    ever appends to the conversation: so do all the steps it is made of,
    and sequencing and exception handling keep it so. *)
Theorem tool_results_appended :
  (forall tool_calls idx tool_results st,
     exists st',
       execute_tool_calls idx tool_calls tool_results st
       = (Ok (tool_results ++ tool_results_of idx (clock st) tool_calls), st')
       /\ Forall (fun r => role r = lit "tool" /\ exists id, tool_call_id r = Some id)
            (tool_results_of idx (clock st) tool_calls))
  /\ (forall tool_results st,
        append_results tool_results st
        = (Ok tt,
           {| stdout := stdout st; requests := requests st; clock := clock st;
              conversation :=
                conversation st
                ++ map (fun r => {| role := lit "tool"; content := content r;
                                    tool_call_id := None |}) tool_results |}))
  /\ (forall path cfg t p1 choices1 p2 choices2,
        load_config path = Ok cfg ->
        OpenAI (api_key cfg) (base_url cfg) = Ok tt ->
        open_template (template_path cfg) = Loaded t ->
        template_render t [user_message] cfg = Ok p1 ->
        completions_create 0 (model_name cfg) p1 (max_tokens cfg) = Ok choices1 ->
        parse_tool_calls (response_of cfg choices1) <> [] ->
        template_render t
          (user_message
           :: map tool_message
                (tool_results_of 0 0 (parse_tool_calls (response_of cfg choices1))))
          cfg = Ok p2 ->
        completions_create 1 (model_name cfg) p2 (max_tokens cfg) = Ok choices2 ->
        conversation (snd (run_tool_calling_demo path initial_state))
        = {| role := lit "user"; content := user_query; tool_call_id := None |}
          :: map (fun r => {| role := lit "tool"; content := content r;
                              tool_call_id := None |})
               (tool_results_of 0 0 (parse_tool_calls (response_of cfg choices1))))
  /\ (forall path, append_only (run_tool_calling_demo path))
  /\ (forall s details, append_only (log_step s details))
  /\ (forall m, append_only (conversation_append m))
  /\ append_only get_conversation
  /\ (forall cfg, append_only (LLMToolClient_init cfg))
  /\ (forall self messages, append_only (render_prompt self messages))
  /\ (forall self prompt, append_only (call_llm self prompt))
  /\ (forall idx tool_calls tool_results,
        append_only (execute_tool_calls idx tool_calls tool_results))
  /\ (forall tool_results, append_only (append_results tool_results))
  /\ (forall A B (m : M A) (f : A -> M B),
        append_only m -> (forall a, append_only (f a)) -> append_only (bind m f))
  /\ (forall A (m : M A) (h : exn -> M A),
        append_only m -> (forall e, append_only (h e)) -> append_only (try_except m h)).
Proof.
  repeat match goal with |- _ /\ _ => split end.
  - intros tool_calls idx tool_results st.
    eexists. split; [apply execute_tool_calls_spec|].
    generalize (clock st). revert idx.
    induction tool_calls as [|tc tool_calls IH]; intros idx clk;
      constructor; [|apply IH].
    split; [reflexivity|]. now eexists.
  - intros tool_results st. apply append_results_spec.
  - intros path cfg t p1 choices1 p2 choices2 Hcfg Hcli Htpl Hr1 Hc1 Hparse Hr2 Hc2.
    unfold response_of in *.
    now rewrite (run_with_tool_calls path cfg t p1 choices1 p2 choices2
                   Hcfg Hcli Htpl Hr1 Hc1 Hparse Hr2 Hc2).
  - intros path st. apply (run_bounds path st).
  - intros s details st. reflexivity.
  - intros m st. cbn. now apply prefix_app_r.
  - intros st. reflexivity.
  - intros cfg st. unfold LLMToolClient_init, _load_jinja_template, bind, lift, ret, raise.
    destruct (OpenAI _ _); [|reflexivity].
    destruct (open_template _); reflexivity.
  - intros self messages st. unfold render_prompt, try_except, lift, raise.
    destruct (template_render _ _ _); reflexivity.
  - intros self prompt st. rewrite call_llm_spec.
    destruct (completions_create _ _ _ _); reflexivity.
  - intros idx tool_calls tool_results st. now rewrite execute_tool_calls_spec.
  - intros tool_results st. rewrite append_results_spec. now apply prefix_app_r.
  - intros A B m f. apply append_only_bind.
  - intros A m h. apply append_only_try.
Qed.

End DriverClaims.

(** * Further properties of the parser *)

Section ParserExtras.
Context {W : World}.

Lemma blocks_names open close (s : str) bs :
  blocks open close s bs -> Forall (fun b => 62 ∉ fst b) bs.
Proof.
  induction 1 as [s _ | u t nm body post bs Hb _ _ IH]; constructor; [|exact IH].
  destruct Hb as (o & c & _ & _ & _ & _ & Hgt & _). exact Hgt.
Qed.

Lemma strip_elem (x : N) (s : str) : x ∈ strip s -> x ∈ s.
Proof.
  intros Hx. destruct (strip_split s) as (l & r & Hs & _). rewrite Hs.
  apply elem_of_app. right. apply elem_of_app. now left.
Qed.

(** X1. Whatever the text, the name of every parsed call and every key
    of its arguments is trimmed at both ends and holds no [>]. *)
Theorem parse_tool_calls_names (llm_output : str) :
  Forall (fun tc =>
            trimmed (name (function tc))
            /\ (62 ∉ name (function tc))
            /\ forall k, is_Some (arguments (function tc) !! k) -> trimmed k /\ (62 ∉ k))
    (parse_tool_calls llm_output).
Proof.
  destruct (function_blocks_exist llm_output) as (bs & Hbs).
  rewrite (parse_tool_calls_finditer _ _ Hbs).
  apply Forall_map. eapply Forall_impl; [apply (blocks_names _ _ _ _ Hbs)|].
  intros [nm body] Hnm. cbn [fst snd] in *.
  destruct (parameter_blocks_exist (strip body)) as (ps & Hps).
  rewrite (parse_function_block nm body ps Hps). cbn [name arguments function].
  split; [apply strip_trimmed|]. split.
  - intros Hin. now apply strip_elem in Hin.
  - intros k [v Hk]. rewrite lookup_foldl_store in Hk.
    unfold last_value in Hk.
    destruct (last (filter (fun p => strip (fst p) = k) ps)) as [p|] eqn:El; [|discriminate].
    apply last_Some_elem_of in El. apply list_elem_of_filter in El as [<- Hp].
    split; [apply strip_trimmed|].
    intros Hin. apply strip_elem in Hin.
    pose proof (blocks_names _ _ _ _ Hps) as Hall.
    rewrite Forall_forall in Hall. now apply (Hall p).
Qed.

End ParserExtras.

Section RoundTripFacts.
Context {W : World}.

Lemma same_i_refl (w : str) : same_i w w.
Proof.
  induction w as [|l w IH]; constructor; [|exact IH].
  unfold Re.ignorecase. now rewrite N.eqb_refl.
Qed.

Lemma ignorecase_lt c : Re.ignorecase 60 c = (c =? 60).
Proof. unfold Re.ignorecase. cbn. now rewrite !orb_false_r. Qed.

Lemma prefix_by_lt (w' s : str) c :
  c <> 60 -> prefix_by Re.ignorecase (60 :: w') (c :: s) = None.
Proof.
  intros Hc. cbn [prefix_by]. rewrite ignorecase_lt.
  now rewrite (proj2 (N.eqb_neq c 60) Hc).
Qed.

Lemma find_by_step t (w s : str) c :
  prefix_by t w (c :: s) = None ->
  find_by t w (c :: s) = skipping [c] (find_by t w s).
Proof.
  intros E. cbn [find_by]. rewrite E.
  destruct (find_by t w s) as [[pre post]|]; reflexivity.
Qed.

Lemma skipping_app (u v : str) r : skipping u (skipping v r) = skipping (u ++ v) r.
Proof. destruct r as [[pre post]|]; [|reflexivity]. simpl. now rewrite app_assoc. Qed.

Lemma find_by_free (w' u s : str) :
  60 ∉ u ->
  find_by Re.ignorecase (60 :: w') (u ++ s)
  = skipping u (find_by Re.ignorecase (60 :: w') s).
Proof.
  induction u as [|c u IH]; intros Hu.
  - cbn [app]. destruct (find_by _ _ s) as [[pre post]|]; reflexivity.
  - cbn [app]. rewrite find_by_step.
    + rewrite IH, skipping_app; [reflexivity|].
      intros Hin. apply Hu. now apply elem_of_cons; right.
    + apply prefix_by_lt. intros ->. apply Hu. now apply elem_of_cons; left.
Qed.

Lemma find_by_past (w' a s : str) :
  60 ∉ a ->
  prefix_by Re.ignorecase (60 :: w') (60 :: a ++ s) = None ->
  find_by Re.ignorecase (60 :: w') (60 :: a ++ s)
  = skipping (60 :: a) (find_by Re.ignorecase (60 :: w') s).
Proof.
  intros Ha E. rewrite (find_by_step _ _ _ _ E), (find_by_free _ _ _ Ha).
  apply skipping_app.
Qed.

Lemma find_by_here (w rest : str) :
  find_by Re.ignorecase w (w ++ rest) = Some ([], rest).
Proof.
  apply (find_by_intro Re.ignorecase w [] (w ++ rest) rest).
  - apply prefix_by_intro, same_i_refl.
  - intros x1 y1 _ Hlt. simpl in Hlt. lia.
Qed.

Lemma tag_match_text (open close nm body rest : str) :
  nm <> [] -> (62 ∉ nm) ->
  find_by Re.ignorecase close (body ++ close ++ rest) = Some (body, rest) ->
  tag_match open close (open ++ nm ++ [62] ++ body ++ close ++ rest)
  = Some (nm, body, rest).
Proof.
  intros Hne Hgt Hfind. unfold tag_match.
  rewrite (prefix_by_intro _ _ _ _ (same_i_refl open)).
  assert (Hall : Forall (fun c => Re.not_gt c = true) nm).
  { rewrite Forall_forall. intros y Hy. unfold Re.not_gt.
    apply negb_true_iff, N.eqb_neq. intros ->. contradiction. }
  cbn [app].
  destruct (upto_app Re.not_gt nm 62 (body ++ close ++ rest) Hall eq_refl) as [-> ->].
  destruct nm as [|n0 nm]; [contradiction|]. now rewrite Hfind.
Qed.

Lemma whitespace_free (w : str) : whitespace w -> 60 ∉ w.
Proof.
  intros Hw Hin. unfold whitespace in Hw. rewrite Forall_forall in Hw.
  specialize (Hw 60 Hin). discriminate.
Qed.

Lemma not_elem_of_app_2 (x : N) (a b : str) : x ∉ a -> x ∉ b -> x ∉ a ++ b.
Proof. intros Ha Hb Hin. apply elem_of_app in Hin as [|]; contradiction. Qed.

Lemma lit_free_check (a : str) : bool_decide (60 ∉ a) = true -> 60 ∉ a.
Proof. intros H. now apply bool_decide_eq_true_1 in H. Qed.

(** A parameter block whose key and value hold no [<] is passed over by
    the search for the closing function tag. *)
Lemma find_by_parameter_text (p : str * str) (sep s : str) :
  (60 ∉ fst p) -> (60 ∉ snd p) -> (60 ∉ sep) ->
  find_by Re.ignorecase (lit "</function>") ((parameter_text p ++ sep) ++ s)
  = skipping (parameter_text p ++ sep) (find_by Re.ignorecase (lit "</function>") s).
Proof.
  intros Hk Hv Hsep. unfold parameter_text.
  change (lit "<parameter=") with (60 :: lit "parameter=").
  change (lit "</parameter>") with (60 :: lit "/parameter>").
  change (lit "</function>") with (60 :: lit "/function>").
  set (a := lit "parameter=" ++ fst p ++ lit ">" ++ snd p).
  set (b := lit "/parameter>" ++ sep).
  replace (((60 :: lit "parameter=") ++ fst p ++ lit ">" ++ snd p ++ 60 :: lit "/parameter>") ++ sep)
    with ((60 :: a) ++ (60 :: b))
    by (unfold a, b; cbn [app]; now rewrite <- !app_assoc).
  rewrite <- app_assoc. cbn [app].
  rewrite find_by_past.
  - rewrite find_by_past.
    + rewrite skipping_app. reflexivity.
    + unfold b. apply not_elem_of_app_2; [|exact Hsep].
      apply lit_free_check. reflexivity.
    + unfold b. reflexivity.
  - unfold a. apply not_elem_of_app_2; [apply lit_free_check; reflexivity|].
    apply not_elem_of_app_2; [exact Hk|].
    apply not_elem_of_app_2; [apply lit_free_check; reflexivity|exact Hv].
  - unfold a. reflexivity.
Qed.

Lemma find_by_parameters (sep : str) ps (s : str) :
  (60 ∉ sep) -> Forall well_formed_parameter ps ->
  find_by Re.ignorecase (lit "</function>")
    (concat (map (fun p => parameter_text p ++ sep) ps) ++ s)
  = skipping (concat (map (fun p => parameter_text p ++ sep) ps))
      (find_by Re.ignorecase (lit "</function>") s).
Proof.
  intros Hsep. induction 1 as [|p ps (_ & _ & Hk & Hv) _ IH]; cbn [map concat].
  - cbn [app]. destruct (find_by _ _ s) as [[pre post]|]; reflexivity.
  - rewrite <- app_assoc, find_by_parameter_text, IH, skipping_app by assumption.
    reflexivity.
Qed.

(** One attempt of the function pattern at a function block. *)
Lemma tag_match_function_text (sep nm : str) ps (rest : str) :
  whitespace sep -> nm <> [] -> (62 ∉ nm) -> Forall well_formed_parameter ps ->
  tag_match (lit "<function=") (lit "</function>") (function_text sep nm ps ++ rest)
  = Some (nm, sep ++ concat (map (fun p => parameter_text p ++ sep) ps), rest).
Proof.
  intros Hsep Hne Hgt Hps. unfold function_text.
  change (lit ">") with [62].
  replace ((lit "<function=" ++ nm ++ [62] ++ sep
            ++ concat (map (fun p => parameter_text p ++ sep) ps) ++ lit "</function>") ++ rest)
    with (lit "<function=" ++ nm ++ [62]
          ++ (sep ++ concat (map (fun p => parameter_text p ++ sep) ps))
          ++ lit "</function>" ++ rest)
    by (now rewrite <- !app_assoc).
  apply tag_match_text; [exact Hne | exact Hgt |].
  rewrite <- app_assoc.
  change (lit "</function>") with (60 :: lit "/function>") at 1.
  rewrite (find_by_free _ sep _ (whitespace_free _ Hsep)).
  change (60 :: lit "/function>") with (lit "</function>").
  rewrite (find_by_parameters sep ps _ (whitespace_free _ Hsep) Hps).
  rewrite find_by_here. cbn [skipping]. now rewrite !app_nil_r.
Qed.

(** One attempt of the parameter pattern at a parameter block. *)
Lemma tag_match_parameter_text (p : str * str) (rest : str) :
  well_formed_parameter p ->
  tag_match (lit "<parameter=") (lit "</parameter>") (parameter_text p ++ rest)
  = Some (fst p, snd p, rest).
Proof.
  intros (Hne & Hgt & _ & Hv). unfold parameter_text.
  change (lit ">") with [62].
  replace ((lit "<parameter=" ++ fst p ++ [62] ++ snd p ++ lit "</parameter>") ++ rest)
    with (lit "<parameter=" ++ fst p ++ [62] ++ snd p ++ lit "</parameter>" ++ rest)
    by (now rewrite <- !app_assoc).
  apply tag_match_text; [exact Hne | exact Hgt |].
  change (lit "</parameter>") with (60 :: lit "/parameter>") at 1.
  rewrite (find_by_free _ (snd p) _ Hv).
  change (60 :: lit "/parameter>") with (lit "</parameter>").
  rewrite find_by_here. cbn [skipping]. now rewrite app_nil_r.
Qed.

(** No tag match begins in a text without [<]. *)
Lemma tag_match_free g1 g2 (open' close u t : str) :
  (60 ∉ u) ->
  forall u1 u2, u = u1 ++ u2 -> u2 <> [] ->
    Re.match_at (tag_pattern g1 g2 (60 :: open') close) (u2 ++ t) = None.
Proof.
  intros Hu u1 u2 -> Hne. rewrite match_at_tag. unfold tag_match.
  destruct u2 as [|c u2]; [contradiction|]. cbn [app].
  rewrite prefix_by_lt; [reflexivity|].
  intros ->. apply Hu. apply elem_of_app. right. now apply elem_of_cons; left.
Qed.

Lemma finditer_parameters (sep : str) ps (rest : str) :
  (60 ∉ sep) -> Forall well_formed_parameter ps ->
  Re.finditer param_pattern (concat (map (fun p => parameter_text p ++ sep) ps) ++ rest)
  = map (fun b => [("value"%string, snd b); ("name"%string, fst b)]) ps
    ++ Re.finditer param_pattern rest.
Proof.
  intros Hsep. rewrite param_pattern_tag.
  induction 1 as [|p ps Hp _ IH]; cbn [map concat app]; [reflexivity|].
  rewrite <- !app_assoc.
  rewrite (finditer_match _ (tag_consuming _ _ _ _) _
             [("value"%string, snd p); ("name"%string, fst p)]
             (sep ++ concat (map (fun p => parameter_text p ++ sep) ps) ++ rest)).
  - f_equal.
    change (lit "<parameter=") with (60 :: lit "parameter=").
    rewrite finditer_skip_many; [exact IH|].
    now apply tag_match_free.
  - rewrite match_at_tag, tag_match_parameter_text; [reflexivity | exact Hp].
Qed.

Lemma parameter_text_trimmed (x : str) (p : str * str) :
  (forall c y, x = c :: y -> isspace c = false) ->
  trimmed (x ++ parameter_text p).
Proof.
  intros Hx. split.
  - intros c y E. destruct x as [|c0 x].
    + injection E as <- _. reflexivity.
    + injection E as <- _. now apply (Hx c0 x).
  - intros c y E. unfold parameter_text in E.
    change (lit "</parameter>") with (lit "</parameter" ++ [62]) in E.
    rewrite !app_assoc in E. apply app_inj_tail in E as [_ <-]. reflexivity.
Qed.

Lemma parameters_head (sep : str) ps c (y : str) :
  concat (map (fun p => parameter_text p ++ sep) ps) = c :: y -> isspace c = false.
Proof.
  destruct ps as [|p ps]; [discriminate|]. cbn. now intros [= <- _].
Qed.

(** The parameter matches in the trimmed body of a function block. *)
Lemma finditer_body (sep : str) ps :
  whitespace sep -> Forall well_formed_parameter ps ->
  foldl parse_param ∅
    (match strip (sep ++ concat (map (fun p => parameter_text p ++ sep) ps)) with
     | [] => []
     | _ :: _ =>
         Re.finditer param_pattern
           (strip (sep ++ concat (map (fun p => parameter_text p ++ sep) ps)))
     end)
  = foldl store ∅ ps.
Proof.
  intros Hsep Hps.
  destruct ps as [|q ps _] using rev_ind.
  - cbn [map concat]. rewrite <- (app_nil_l (sep ++ [])).
    rewrite <- (app_nil_r sep) at 1. rewrite <- app_assoc.
    assert (E : strip (sep ++ [] ++ []) = [])
      by (apply strip_between; [exact Hsep | constructor | split; intros c y; [discriminate|]];
          intros E; now destruct y).
    cbn [app] in *. rewrite app_nil_r in E. rewrite app_nil_r, E. reflexivity.
  - apply Forall_app in Hps as [Hps Hq]. rewrite map_app, concat_app.
    cbn [map concat]. rewrite app_nil_r.
    rewrite (app_assoc _ (parameter_text q) sep).
    rewrite (strip_between sep _ sep Hsep Hsep).
    2:{ apply parameter_text_trimmed. apply parameters_head. }
    destruct (concat (map (fun p => parameter_text p ++ sep) ps) ++ parameter_text q)
      as [|c y] eqn:E.
    { apply app_eq_nil in E as [_ E]. discriminate. }
    rewrite <- E. rewrite <- (app_nil_r (parameter_text q)).
    rewrite (finditer_parameters sep ps _ (whitespace_free _ Hsep) Hps).
    rewrite param_pattern_tag.
    rewrite (finditer_match _ (tag_consuming _ _ _ _) _
               [("value"%string, snd q); ("name"%string, fst q)] []).
    2:{ rewrite match_at_tag, tag_match_parameter_text; [reflexivity|].
        now inversion Hq. }
    change (Re.finditer _ []) with (@nil Re.captures).
    rewrite <- (foldl_parse_param (ps ++ [q])). now rewrite map_app.
Qed.

(** X2. A function block written as the chat template writes it, after
    a text without [<], is read back: the parser returns the call with
    the trimmed name and the parameters stored in order, the last value
    of a key winning, followed by the calls of the text after the
    block. *)
Theorem parse_function_text (u sep nm : str) (ps : list (str * str)) (rest : str) :
  (60 ∉ u) -> whitespace sep -> nm <> [] -> (62 ∉ nm) ->
  Forall well_formed_parameter ps ->
  parse_tool_calls (u ++ function_text sep nm ps ++ rest)
  = {| function := {| name := strip nm; arguments := foldl store ∅ ps |} |}
    :: parse_tool_calls rest
  /\ forall k, foldl store ∅ ps !! k = stored_value <$> last_value k ps.
Proof.
  intros Hu Hsep Hne Hgt Hps. split; [|intros k; apply lookup_foldl_store].
  unfold parse_tool_calls. rewrite function_pattern_tag.
  change (lit "<function=") with (60 :: lit "function=") at 1.
  rewrite (finditer_skip_many _ u _ (tag_match_free _ _ _ _ u _ Hu)).
  change (60 :: lit "function=") with (lit "<function=").
  rewrite (finditer_match _ (tag_consuming _ _ _ _) _
             [("params"%string, sep ++ concat (map (fun p => parameter_text p ++ sep) ps));
              ("name"%string, nm)] rest).
  2:{ rewrite match_at_tag, tag_match_function_text; [reflexivity | assumption..]. }
  cbn [map]. f_equal.
  unfold parse_function. cbn [Re.group String.eqb Ascii.eqb Bool.eqb].
  do 2 f_equal.
  rewrite <- (finditer_body sep ps Hsep Hps).
  destruct (strip (sep ++ concat (map (fun p => parameter_text p ++ sep) ps)));
    reflexivity.
Qed.

End RoundTripFacts.

(** * Further properties of the post-processor *)

Section ProcessorExtras.
Context {W : World}.

Ltac decide_comparisons :=
  repeat match goal with
         | |- context [?a <=? ?b] => destruct (N.leb_spec a b); try lia
         | |- context [?a =? ?b] => destruct (N.eqb_spec a b); try lia
         end.

Lemma isspace_printable x : 33 <= x <= 126 -> isspace x = false.
Proof. intros Hx. unfold isspace. decide_comparisons; reflexivity. Qed.

Lemma ignorecase_ink l x :
  33 <= l <= 126 -> Re.ignorecase l x = true -> isspace x = false.
Proof.
  intros Hl H.
  assert (Hx : 33 <= x <= 126 \/ x = 304 \/ x = 305 \/ x = 8490 \/ x = 383).
  { unfold Re.ignorecase in H.
    repeat match type of H with
           | (_ || _ = true) => apply orb_prop in H as [H|H]
           | (_ && _ = true) => apply andb_prop in H as [? H]
           end;
    repeat match goal with
           | H : (_ =? _) = true |- _ => apply N.eqb_eq in H
           | H : (_ <=? _) = true |- _ => apply N.leb_le in H
           | H : (_ && _ = true) |- _ => apply andb_prop in H as [? ?]
           | H : (_ || _ = true) |- _ => apply orb_prop in H as [?|?]
           end; lia. }
  destruct Hx as [Hx | [-> | [-> | [-> | ->]]]]; [now apply isspace_printable | reflexivity..].
Qed.

Lemma same_i_ink (w o : str) :
  Forall (fun l => 33 <= l <= 126) w -> same_i w o ->
  Forall (fun c => isspace c = false) o.
Proof.
  intros Hw Ho. revert Hw. induction Ho as [|l c w o Hlc _ IH]; intros Hw; constructor.
  - inversion Hw; subst. now apply (ignorecase_ink l).
  - inversion Hw; subst. now apply IH.
Qed.

Lemma occurs_i_strip (w s : str) : occurs_i w (strip s) -> occurs_i w s.
Proof.
  intros (u & o & v & Hs & Ho). destruct (strip_split s) as (l & r & E & _).
  exists (l ++ u), o, (v ++ r). split; [|exact Ho].
  rewrite E, Hs. now rewrite <- !app_assoc.
Qed.

Lemma occurs_i_collapse (w s : str) :
  w <> [] -> Forall (fun l => 33 <= l <= 126) w ->
  occurs_i w (collapse s) -> occurs_i w s.
Proof.
  intros Hne Hw (u & o & v & Hs & Ho).
  destruct (occurs_collapse o s) as (u' & v' & ->).
  - intros ->. inversion Ho; subst. contradiction.
  - now apply (same_i_ink w).
  - now exists u, v.
  - now exists u', o, v'.
Qed.

Lemma sub_think_sublist (x : str) : Re.sub think_pattern [] x `sublist_of` x.
Proof.
  remember (length x) as n eqn:Hn. revert x Hn.
  induction n as [n IH] using lt_wf_ind. intros x ->.
  destruct (first_match _ think_consuming x)
    as [Hnone | (u & t & cs & rest & -> & Ht & Hu)].
  - now rewrite (sub_none _ _ x Hnone).
  - rewrite (sub_skip_many _ _ u t Hu), (sub_match _ think_consuming _ t cs rest Ht).
    pose proof (think_consuming _ _ _ Ht) as Hlt.
    rewrite match_at_think in Ht.
    destruct (think_match t) as [[c post]|] eqn:E; [|discriminate].
    injection Ht as _ <-. apply think_match_shape in E. subst t.
    apply sublist_app; [reflexivity|]. cbn [app].
    rewrite !app_assoc. apply sublist_inserts_l.
    apply (IH (length post)); [|reflexivity]. rewrite length_app. lia.
Qed.

Lemma collapse_sublist (s : str) : collapse s `sublist_of` s.
Proof.
  induction s as [| c s E Hc IH | w rest Hw Hr E IH] using collapse_ind.
  - reflexivity.
  - rewrite (collapse_skip _ _ E). now apply sublist_skip.
  - rewrite (collapse_match _ _ E). apply sublist_skip.
    apply sublist_inserts_l. now apply sublist_skip.
Qed.

Lemma strip_sublist (s : str) : strip s `sublist_of` s.
Proof.
  destruct (strip_split s) as (l & r & Hs & _). rewrite Hs at 2.
  apply sublist_inserts_l, sublist_inserts_r. reflexivity.
Qed.

Lemma strip_thinking_sublist (x : str) : strip_thinking x `sublist_of` x.
Proof.
  unfold strip_thinking. etransitivity; [apply strip_sublist|].
  etransitivity; [apply collapse_sublist | apply sub_think_sublist].
Qed.

(** A text without end marker is left as it is. *)
Lemma sub_think_unclosed (x : str) :
  ~ occurs THINK_END_TOKEN x -> Re.sub think_pattern [] x = x.
Proof.
  intros Hno. apply sub_none. intros u t ->. rewrite match_at_think.
  destruct (think_match t) as [[c post]|] eqn:E; [|reflexivity].
  apply think_match_shape in E. exfalso. apply Hno.
  exists (u ++ THINK_BEGIN_TOKEN ++ c), post. rewrite E. now rewrite <- !app_assoc.
Qed.

Lemma sublist_same_length {A} (l1 l2 : list A) :
  l1 `sublist_of` l2 -> (length l2 <= length l1)%nat -> l1 = l2.
Proof.
  induction 1 as [| x l1 l2 _ IH | x l1 l2 Hs _]; cbn [length]; intros Hlen.
  - reflexivity.
  - f_equal. apply IH. lia.
  - apply sublist_length in Hs. lia.
Qed.

Lemma last_nl_app (a t : str) :
  (forall c t', t = c :: t' -> isspace c = false) ->
  last_nl (a ++ t) = (fun r => r ++ t) <$> last_nl a.
Proof.
  intros Ht. induction a as [|c a IH]; cbn [app].
  - destruct t as [|c t]; [reflexivity|]. simpl. now rewrite (Ht c t eq_refl).
  - cbn [last_nl]. rewrite IH. destruct (isspace c); [|reflexivity].
    destruct (last_nl a); [reflexivity|]. destruct (c =? 10); reflexivity.
Qed.

Lemma collapse_app (u t : str) :
  (forall c t', t = c :: t' -> isspace c = false) ->
  collapse (u ++ t) = collapse u ++ collapse t.
Proof.
  intros Ht.
  induction u as [| c u E Hc IH | w rest Hw Hr E IH] using collapse_ind.
  - reflexivity.
  - rewrite (collapse_skip _ _ E). cbn [app]. rewrite collapse_skip; [now rewrite IH|].
    unfold blank_match in *. destruct (c =? 10); [|reflexivity].
    rewrite (last_nl_app _ _ Ht). now rewrite E.
  - rewrite (collapse_match _ _ E). cbn [app].
    rewrite (collapse_match _ (rest ++ t)); [now rewrite IH|].
    unfold blank_match in *. cbn [app]. change (10 =? 10) with true in *. cbv iota in *.
    rewrite <- app_assoc. cbn [app].
    change (w ++ 10 :: rest ++ t) with (w ++ (10 :: rest) ++ t).
    rewrite app_assoc, (last_nl_app _ _ Ht), E. reflexivity.
Qed.

Lemma collapse_word (w v : str) :
  Forall (fun c => isspace c = false) w -> collapse (w ++ v) = w ++ collapse v.
Proof.
  induction 1 as [|c w Hc _ IH]; [reflexivity|]. cbn [app].
  rewrite collapse_skip; [now rewrite IH|].
  unfold blank_match. destruct (c =? 10) eqn:E; [|reflexivity].
  apply isspace_nl in E. congruence.
Qed.

Lemma occurs_collapse_word (w s : str) :
  w <> [] -> Forall (fun c => isspace c = false) w ->
  occurs w s -> occurs w (collapse s).
Proof.
  intros Hne Hw (u & v & ->).
  exists (collapse u), (collapse v). rewrite collapse_app.
  - now rewrite collapse_word.
  - intros c t' E. destruct Hw as [|c0 w Hc0 _]; [contradiction|].
    now injection E as <- _.
Qed.

Lemma lstrip_app_word (u t : str) c :
  isspace c = false -> lstrip (u ++ c :: t) = lstrip u ++ c :: t.
Proof.
  intros Hc. induction u as [|x u IH]; cbn [app lstrip].
  - now rewrite Hc.
  - destruct (isspace x); [exact IH | reflexivity].
Qed.

Lemma occurs_strip_word (w s : str) :
  w <> [] -> Forall (fun c => isspace c = false) w ->
  occurs w s -> occurs w (strip s).
Proof.
  intros Hne Hw (u & v & ->). unfold strip, rstrip.
  destruct w as [|c w]; [contradiction|].
  pose proof (Forall_inv Hw) as Hc. cbn [app]. rewrite (lstrip_app_word u _ c Hc).
  destruct (exists_last (l := c :: w) Hne) as (w0 & z & Ew).
  assert (Hz : isspace z = false).
  { rewrite Ew in Hw. apply Forall_app in Hw as [_ Hw]. now apply Forall_inv in Hw. }
  change (lstrip u ++ c :: w ++ v) with (lstrip u ++ (c :: w) ++ v).
  rewrite Ew, !rev_app_distr. cbn [rev app]. rewrite <- !app_assoc. cbn [app].
  rewrite (lstrip_app_word (rev v) _ z Hz).
  exists (lstrip u), (rev (lstrip (rev v))).
  rewrite rev_app_distr. cbn [rev]. rewrite rev_app_distr, !rev_involutive.
  now rewrite <- !app_assoc.
Qed.

(** X4. The post-processor only deletes: whatever the configuration
    and the text, its result is a subsequence of the text it was given,
    so it is never longer, and a result of the same length is the text
    itself. With thinking shown it is the text itself; with thinking
    hidden it is trimmed at both ends and holds no blank-line run. *)
Theorem process_only_deletes (self : LLMToolClient) (x : str) (st : RunState) :
  exists y,
    _process_llm_response (re := re_module) self x st = (Ok y, st)
    /\ y `sublist_of` x
    /\ (length y <= length x)%nat
    /\ (length y = length x -> y = x)
    /\ (show_thinking_tokens (config self) = true -> y = x)
    /\ (show_thinking_tokens (config self) = false ->
        trimmed y /\ single_blank_lines y).
Proof.
  rewrite process_spec. unfold processed.
  destruct (show_thinking_tokens (config self)).
  - exists x. cbn [fst snd]. rewrite add_stdout_nil.
    repeat split; reflexivity || lia || discriminate.
  - exists (strip_thinking x). cbn [fst snd process_body re_module re_compile re_sub].
    rewrite add_stdout_nil. split; [reflexivity|].
    pose proof (strip_thinking_sublist x) as Hsub.
    split; [exact Hsub|]. split; [now apply sublist_length|].
    split; [intros Hlen; apply sublist_same_length; [exact Hsub | lia]|].
    split; [discriminate|]. intros _. unfold strip_thinking.
    fold (collapse (Re.sub think_pattern [] x)).
    split; [apply strip_trimmed|].
    destruct (strip_split (collapse (Re.sub think_pattern [] x))) as (l & r & Hs & _).
    apply (single_blank_lines_part l _ r). rewrite <- Hs.
    apply collapse_single_blank_lines.
Qed.

(** X5. With thinking hidden, a text without end marker loses nothing
    but white space: a begin marker that is never closed stays in the
    result, with all that follows it. *)
Theorem process_unclosed_thinking (self : LLMToolClient) (x : str) (st : RunState) :
  show_thinking_tokens (config self) = false ->
  ~ occurs THINK_END_TOKEN x ->
  _process_llm_response (re := re_module) self x st
  = (Ok (strip (Re.sub blank_pattern [10; 10] x)), st)
  /\ ink (strip (Re.sub blank_pattern [10; 10] x)) = ink x
  /\ (occurs THINK_BEGIN_TOKEN x ->
      occurs THINK_BEGIN_TOKEN (strip (Re.sub blank_pattern [10; 10] x))).
Proof.
  intros Hshow Hno. fold (collapse x).
  rewrite (process_hidden self x st Hshow). unfold strip_thinking.
  rewrite (sub_think_unclosed x Hno). fold (collapse x).
  split; [reflexivity|]. split; [now rewrite ink_strip, ink_collapse|].
  intros Hocc.
  assert (Hw : Forall (fun c => isspace c = false) THINK_BEGIN_TOKEN)
    by (vm_compute; repeat constructor).
  apply occurs_strip_word; [discriminate | exact Hw |].
  apply occurs_collapse_word; [discriminate | exact Hw | exact Hocc].
Qed.

(** X3. With thinking hidden, the function blocks inside thinking
    spans are not parsed: when the text outside the spans holds no
    opening function tag, the parser finds no call in the processed
    response, whatever the spans contain. *)
Theorem hidden_thinking_not_parsed (self : LLMToolClient)
    (spans : list (str * str)) (tail : str) (st : RunState) :
  show_thinking_tokens (config self) = false ->
  Forall (fun sp => ~ occurs THINK_BEGIN_TOKEN (fst sp)
                    /\ ~ occurs THINK_END_TOKEN (snd sp)) spans ->
  ~ occurs THINK_BEGIN_TOKEN tail ->
  ~ occurs_i (lit "<function=") (without_thinking spans tail) ->
  exists y,
    _process_llm_response (re := re_module) self (with_thinking spans tail) st = (Ok y, st)
    /\ parse_tool_calls y = [].
Proof.
  intros Hshow Hspans Htail Hno.
  exists (strip_thinking (with_thinking spans tail)).
  split; [now apply process_hidden|].
  unfold strip_thinking. rewrite (sub_think_spans spans tail Hspans Htail).
  destruct (function_blocks_exist (strip (collapse (without_thinking spans tail))))
    as (bs & Hbs).
  fold (collapse (without_thinking spans tail)).
  rewrite (parse_tool_calls_finditer _ _ Hbs).
  assert (Hn : ~ occurs_i (lit "<function=")
                   (strip (collapse (without_thinking spans tail)))).
  { intros Hocc. apply Hno. apply (occurs_i_collapse (lit "<function=")).
    - discriminate.
    - vm_compute. repeat constructor; discriminate.
    - now apply occurs_i_strip. }
  now rewrite (blocks_unopened _ _ _ _ Hn Hbs).
Qed.

End ProcessorExtras.

(** * Further properties of the client and the driver *)

Section DriverExtras.
Context {W : World} {re : ReModule}.

Ltac run_unfold :=
  unfold run_tool_calling_demo, LLMToolClient_init, _load_jinja_template,
    render_prompt, bind, try_except, lift, ret, raise, log_step,
    conversation_append, get_conversation, emit.





Lemma reports_answer_tool_logs clk (tool_calls : list ToolCall) :
  List.filter reports_answer (tool_logs_of clk tool_calls) = [].
Proof.
  revert clk. induction tool_calls as [|tc tool_calls IH]; intros clk; [reflexivity|].
  simpl. unfold tool_log_of at 1. destruct (registered tc); simpl; apply IH.
Qed.


Lemma reports_answer_processed cfg raw :
  List.filter reports_answer (snd (processed cfg raw)) = [].
Proof.
  unfold processed. destruct (show_thinking_tokens cfg); [reflexivity|].
  destruct (process_body raw); reflexivity.
Qed.



Lemma add_stdout_mk os out rq clk conv :
  add_stdout os {| stdout := out; requests := rq; clock := clk; conversation := conv |}
  = {| stdout := out ++ os; requests := rq; clock := clk; conversation := conv |}.
Proof. reflexivity. Qed.

Lemma add_request_mk out rq clk conv :
  add_request {| stdout := out; requests := rq; clock := clk; conversation := conv |}
  = {| stdout := out; requests := S rq; clock := clk; conversation := conv |}.
Proof. reflexivity. Qed.

Lemma advance_mk n out rq clk conv :
  advance n {| stdout := out; requests := rq; clock := clk; conversation := conv |}
  = {| stdout := out; requests := rq; clock := clk + n; conversation := conv |}.
Proof. reflexivity. Qed.

Lemma add_messages_mk ms out rq clk conv :
  add_messages ms {| stdout := out; requests := rq; clock := clk; conversation := conv |}
  = {| stdout := out; requests := rq; clock := clk; conversation := conv ++ ms |}.
Proof. reflexivity. Qed.

Ltac state_mk :=
  repeat (rewrite add_stdout_mk || rewrite add_request_mk || rewrite advance_mk
          || rewrite add_messages_mk);
  cbn [stdout requests clock conversation app config template].





Ltac run_start :=
  run_unfold; cbn [initial_state stdout requests clock conversation app].

Ltac run_step H :=
  rewrite H; cbn [stdout requests clock conversation app config template].

(** X8. A failure before the first prompt ends the run with the
    error report, without a request and with an empty conversation:
    when [load_config] raises, when the constructor of the endpoint
    client raises (the template file is then not looked at), when the
    template file is missing ([Template file not found: <path>]) and
    when it cannot be loaded ([Failed to load template: <message>]). *)
Theorem run_startup_failure (path : option str) :
  (forall e,
     load_config path = Raise e ->
     run_tool_calling_demo path initial_state
     = (Ok tt,
        {| stdout :=
             [LogStep StartingDemo [];
              LogStep CriticalError (exn_type e ++ lit ": " ++ exn_msg e);
              LogStep FullTraceback (format_exc e)];
           requests := 0; clock := 0; conversation := [] |}))
  /\ (forall cfg e,
        load_config path = Ok cfg ->
        OpenAI (api_key cfg) (base_url cfg) = Raise e ->
        run_tool_calling_demo path initial_state
        = (Ok tt,
           {| stdout :=
                [LogStep StartingDemo [];
                 LogStep LoadedConfiguration (lit "Using template: " ++ template_path cfg);
                 LogStep CriticalError (exn_type e ++ lit ": " ++ exn_msg e);
                 LogStep FullTraceback (format_exc e)];
              requests := 0; clock := 0; conversation := [] |}))
  /\ (forall cfg,
        load_config path = Ok cfg ->
        OpenAI (api_key cfg) (base_url cfg) = Ok tt ->
        open_template (template_path cfg) = FileNotFound ->
        run_tool_calling_demo path initial_state
        = (Ok tt,
           {| stdout :=
                [LogStep StartingDemo [];
                 LogStep LoadedConfiguration (lit "Using template: " ++ template_path cfg);
                 LogStep CriticalError
                   (lit "RuntimeError: Template file not found: " ++ template_path cfg);
                 LogStep FullTraceback
                   (format_exc
                      (RuntimeError (lit "Template file not found: " ++ template_path cfg)))];
              requests := 0; clock := 0; conversation := [] |}))
  /\ (forall cfg e,
        load_config path = Ok cfg ->
        OpenAI (api_key cfg) (base_url cfg) = Ok tt ->
        open_template (template_path cfg) = LoadFailed e ->
        run_tool_calling_demo path initial_state
        = (Ok tt,
           {| stdout :=
                [LogStep StartingDemo [];
                 LogStep LoadedConfiguration (lit "Using template: " ++ template_path cfg);
                 LogStep CriticalError
                   (lit "RuntimeError: Failed to load template: " ++ exn_msg e);
                 LogStep FullTraceback
                   (format_exc (RuntimeError (lit "Failed to load template: " ++ exn_msg e)))];
              requests := 0; clock := 0; conversation := [] |})).
Proof.
  repeat split.
  - intros e Hcfg. run_start. now run_step Hcfg.
  - intros cfg e Hcfg Hcli. run_start. run_step Hcfg. now run_step Hcli.
  - intros cfg Hcfg Hcli Htpl. run_start. run_step Hcfg. run_step Hcli. now run_step Htpl.
  - intros cfg e Hcfg Hcli Htpl. run_start. run_step Hcfg. run_step Hcli.
    now run_step Htpl.
Qed.

(** X9. A failure of the first round trip ends the run with the error
    report, the user message being the only entry of the conversation:
    when the template engine raises no request is made and the error is
    [RuntimeError: Failed to render prompt: <message>]; when the
    endpoint raises one request was made and the error is
    [RuntimeError: LLM API call failed: <message>]. *)
Theorem run_first_request_failure (path : option str) cfg t :
  load_config path = Ok cfg ->
  OpenAI (api_key cfg) (base_url cfg) = Ok tt ->
  open_template (template_path cfg) = Loaded t ->
  (forall e,
     template_render t [user_message] cfg = Raise e ->
     run_tool_calling_demo path initial_state
     = (Ok tt,
        {| stdout :=
             [LogStep StartingDemo [];
              LogStep LoadedConfiguration (lit "Using template: " ++ template_path cfg);
              LogStep UserInput user_query;
              LogStep RenderingInitialPrompt [];
              LogStep CriticalError
                (lit "RuntimeError: Failed to render prompt: " ++ exn_msg e);
              LogStep FullTraceback
                (format_exc (RuntimeError (lit "Failed to render prompt: " ++ exn_msg e)))];
           requests := 0; clock := 0; conversation := [user_message] |}))
  /\ (forall p1 e,
        template_render t [user_message] cfg = Ok p1 ->
        completions_create 0 (model_name cfg) p1 (max_tokens cfg) = Raise e ->
        run_tool_calling_demo path initial_state
        = (Ok tt,
           {| stdout :=
                [LogStep StartingDemo [];
                 LogStep LoadedConfiguration (lit "Using template: " ++ template_path cfg);
                 LogStep UserInput user_query;
                 LogStep RenderingInitialPrompt [];
                 LogStep RenderedPromptPreview p1;
                 LogStep SendingPrompt [];
                 LogStep CriticalError
                   (lit "RuntimeError: LLM API call failed: " ++ exn_msg e);
                 LogStep FullTraceback
                   (format_exc (RuntimeError (lit "LLM API call failed: " ++ exn_msg e)))];
              requests := 1; clock := 0; conversation := [user_message] |})).
Proof.
  intros Hcfg Hcli Htpl. split.
  - intros e Hr1. run_start. run_step Hcfg. run_step Hcli. run_step Htpl.
    fold user_message. now run_step Hr1.
  - intros p1 e Hr1 Hc1. run_start. run_step Hcfg. run_step Hcli. run_step Htpl.
    fold user_message. run_step Hr1. rewrite call_llm_spec.
    cbn [stdout requests clock conversation app config template]. now run_step Hc1.
Qed.

(** The run when the template engine fails on the conversation with
    the tool results. *)
Lemma run_render_fails_after_tools path cfg t p1 choices1 e :
  load_config path = Ok cfg ->
  OpenAI (api_key cfg) (base_url cfg) = Ok tt ->
  open_template (template_path cfg) = Loaded t ->
  template_render t [user_message] cfg = Ok p1 ->
  completions_create 0 (model_name cfg) p1 (max_tokens cfg) = Ok choices1 ->
  parse_tool_calls (fst (processed cfg (raw_output_of choices1))) <> [] ->
  template_render t
    (user_message
     :: map tool_message
          (tool_results_of 0 0
             (parse_tool_calls (fst (processed cfg (raw_output_of choices1))))))
    cfg = Raise e ->
  run_tool_calling_demo path initial_state
  = (Ok tt,
     {| stdout :=
          [LogStep StartingDemo [];
           LogStep LoadedConfiguration (lit "Using template: " ++ template_path cfg);
           LogStep UserInput user_query;
           LogStep RenderingInitialPrompt [];
           LogStep RenderedPromptPreview p1;
           LogStep SendingPrompt []]
          ++ snd (processed cfg (raw_output_of choices1))
          ++ [LogStep ResponseReceived (fst (processed cfg (raw_output_of choices1)));
              LogStep ExecutingToolCalls
                (lit "Found "
                 ++ str_of_nat
                      (length (parse_tool_calls
                                 (fst (processed cfg (raw_output_of choices1)))))
                 ++ lit " tool(s)")]
          ++ tool_logs_of 0 (parse_tool_calls (fst (processed cfg (raw_output_of choices1))))
          ++ [LogStep AddingToolResults [];
              LogStep
                (RenderingFinalPrompt
                   (user_message
                    :: map tool_message
                         (tool_results_of 0 0
                            (parse_tool_calls
                               (fst (processed cfg (raw_output_of choices1)))))))
                [];
              LogStep CriticalError
                (lit "RuntimeError: Failed to render prompt: " ++ exn_msg e)]
          ++ [LogStep FullTraceback
                (format_exc (RuntimeError (lit "Failed to render prompt: " ++ exn_msg e)))];
        requests := 1;
        clock := registered_count
                   (parse_tool_calls (fst (processed cfg (raw_output_of choices1))));
        conversation :=
          user_message
          :: map tool_message
               (tool_results_of 0 0
                  (parse_tool_calls (fst (processed cfg (raw_output_of choices1))))) |}).
Proof.
  intros Hcfg Hcli Htpl Hr1 Hc1 Hparse Hr2.
  run_unfold. cbn [initial_state stdout requests clock conversation app].
  rewrite Hcfg. cbn [stdout requests clock conversation app].
  rewrite Hcli. cbn [stdout requests clock conversation app].
  rewrite Htpl. cbn [stdout requests clock conversation app config template].
  fold user_message. rewrite Hr1.
  rewrite call_llm_spec. cbn [stdout requests clock conversation app config template].
  rewrite Hc1. state_mk.
  destruct (parse_tool_calls (fst (processed cfg (raw_output_of choices1))))
    as [|tc tool_calls] eqn:Ecalls; [contradiction|].
  rewrite execute_tool_calls_spec. state_mk.
  rewrite append_results_spec. state_mk.
  rewrite Hr2.
  cbn [stdout requests clock conversation Nat.add].
  repeat (rewrite <- app_assoc || rewrite <- app_comm_cons).
  reflexivity.
Qed.

(** The run when the endpoint fails at the second request. *)
Lemma run_endpoint_fails_after_tools path cfg t p1 choices1 p2 e :
  load_config path = Ok cfg ->
  OpenAI (api_key cfg) (base_url cfg) = Ok tt ->
  open_template (template_path cfg) = Loaded t ->
  template_render t [user_message] cfg = Ok p1 ->
  completions_create 0 (model_name cfg) p1 (max_tokens cfg) = Ok choices1 ->
  parse_tool_calls (fst (processed cfg (raw_output_of choices1))) <> [] ->
  template_render t
    (user_message
     :: map tool_message
          (tool_results_of 0 0
             (parse_tool_calls (fst (processed cfg (raw_output_of choices1))))))
    cfg = Ok p2 ->
  completions_create 1 (model_name cfg) p2 (max_tokens cfg) = Raise e ->
  run_tool_calling_demo path initial_state
  = (Ok tt,
     {| stdout :=
          [LogStep StartingDemo [];
           LogStep LoadedConfiguration (lit "Using template: " ++ template_path cfg);
           LogStep UserInput user_query;
           LogStep RenderingInitialPrompt [];
           LogStep RenderedPromptPreview p1;
           LogStep SendingPrompt []]
          ++ snd (processed cfg (raw_output_of choices1))
          ++ [LogStep ResponseReceived (fst (processed cfg (raw_output_of choices1)));
              LogStep ExecutingToolCalls
                (lit "Found "
                 ++ str_of_nat
                      (length (parse_tool_calls
                                 (fst (processed cfg (raw_output_of choices1)))))
                 ++ lit " tool(s)")]
          ++ tool_logs_of 0 (parse_tool_calls (fst (processed cfg (raw_output_of choices1))))
          ++ [LogStep AddingToolResults [];
              LogStep
                (RenderingFinalPrompt
                   (user_message
                    :: map tool_message
                         (tool_results_of 0 0
                            (parse_tool_calls
                               (fst (processed cfg (raw_output_of choices1)))))))
                [];
              LogStep (SendingFinalPrompt p2) [];
              LogStep CriticalError
                (lit "RuntimeError: LLM API call failed: " ++ exn_msg e)]
          ++ [LogStep FullTraceback
                (format_exc (RuntimeError (lit "LLM API call failed: " ++ exn_msg e)))];
        requests := 2;
        clock := registered_count
                   (parse_tool_calls (fst (processed cfg (raw_output_of choices1))));
        conversation :=
          user_message
          :: map tool_message
               (tool_results_of 0 0
                  (parse_tool_calls (fst (processed cfg (raw_output_of choices1))))) |}).
Proof.
  intros Hcfg Hcli Htpl Hr1 Hc1 Hparse Hr2 Hc2.
  run_unfold. cbn [initial_state stdout requests clock conversation app].
  rewrite Hcfg. cbn [stdout requests clock conversation app].
  rewrite Hcli. cbn [stdout requests clock conversation app].
  rewrite Htpl. cbn [stdout requests clock conversation app config template].
  fold user_message. rewrite Hr1.
  rewrite call_llm_spec. cbn [stdout requests clock conversation app config template].
  rewrite Hc1. state_mk.
  destruct (parse_tool_calls (fst (processed cfg (raw_output_of choices1))))
    as [|tc tool_calls] eqn:Ecalls; [contradiction|].
  rewrite execute_tool_calls_spec. state_mk.
  rewrite append_results_spec. state_mk.
  rewrite Hr2. rewrite call_llm_spec.
  cbn [stdout requests clock conversation app config template].
  rewrite Hc2. state_mk.
  cbn [stdout requests clock conversation Nat.add].
  repeat (rewrite <- app_assoc || rewrite <- app_comm_cons).
  reflexivity.
Qed.

Ltac after_tools :=
  cbn [snd stdout requests clock conversation];
  repeat split;
  [ unfold dispatched, LogStep; cbn [stdout];
    rewrite ?List.filter_app, ?length_app, ?reports_dispatch_processed,
      ?reports_dispatch_tool_logs;
    cbn [List.filter reports_dispatch length app]; lia
  | rewrite !app_assoc; apply last_snoc
  | unfold LogStep;
    rewrite ?List.filter_app, ?reports_answer_tool_logs, ?reports_answer_processed;
    reflexivity ].

(** X10. A failure of the second round trip comes after the tools
    have run, and nothing is undone: every call was dispatched, the
    clock was read once per registered call, the tool messages are in
    the conversation, and the run ends with the error report and
    without any answer box. *)
Theorem run_second_request_failure (path : option str) cfg t p1 choices1 :
  load_config path = Ok cfg ->
  OpenAI (api_key cfg) (base_url cfg) = Ok tt ->
  open_template (template_path cfg) = Loaded t ->
  template_render t [user_message] cfg = Ok p1 ->
  completions_create 0 (model_name cfg) p1 (max_tokens cfg) = Ok choices1 ->
  parse_tool_calls (response_of cfg choices1) <> [] ->
  (forall e,
     template_render t
       (user_message
        :: map tool_message
             (tool_results_of 0 0 (parse_tool_calls (response_of cfg choices1))))
       cfg = Raise e ->
     requests (snd (run_tool_calling_demo path initial_state)) = 1%nat
     /\ clock (snd (run_tool_calling_demo path initial_state))
        = registered_count (parse_tool_calls (response_of cfg choices1))
     /\ conversation (snd (run_tool_calling_demo path initial_state))
        = user_message
          :: map tool_message
               (tool_results_of 0 0 (parse_tool_calls (response_of cfg choices1)))
     /\ dispatched (snd (run_tool_calling_demo path initial_state))
        = length (parse_tool_calls (response_of cfg choices1))
     /\ last (stdout (snd (run_tool_calling_demo path initial_state)))
        = Some (LogStep FullTraceback
                  (format_exc
                     (RuntimeError (lit "Failed to render prompt: " ++ exn_msg e))))
     /\ List.filter reports_answer (stdout (snd (run_tool_calling_demo path initial_state)))
        = [])
  /\ (forall p2 e,
        template_render t
          (user_message
           :: map tool_message
                (tool_results_of 0 0 (parse_tool_calls (response_of cfg choices1))))
          cfg = Ok p2 ->
        completions_create 1 (model_name cfg) p2 (max_tokens cfg) = Raise e ->
        requests (snd (run_tool_calling_demo path initial_state)) = 2%nat
        /\ clock (snd (run_tool_calling_demo path initial_state))
           = registered_count (parse_tool_calls (response_of cfg choices1))
        /\ conversation (snd (run_tool_calling_demo path initial_state))
           = user_message
             :: map tool_message
                  (tool_results_of 0 0 (parse_tool_calls (response_of cfg choices1)))
        /\ dispatched (snd (run_tool_calling_demo path initial_state))
           = length (parse_tool_calls (response_of cfg choices1))
        /\ last (stdout (snd (run_tool_calling_demo path initial_state)))
           = Some (LogStep FullTraceback
                     (format_exc
                        (RuntimeError (lit "LLM API call failed: " ++ exn_msg e))))
        /\ List.filter reports_answer
             (stdout (snd (run_tool_calling_demo path initial_state)))
           = []).
Proof.
  intros Hcfg Hcli Htpl Hr1 Hc1 Hparse. unfold response_of in *. split.
  - intros e Hr2.
    rewrite (run_render_fails_after_tools path cfg t p1 choices1 e
               Hcfg Hcli Htpl Hr1 Hc1 Hparse Hr2).
    after_tools.
  - intros p2 e Hr2 Hc2.
    rewrite (run_endpoint_fails_after_tools path cfg t p1 choices1 p2 e
               Hcfg Hcli Htpl Hr1 Hc1 Hparse Hr2 Hc2).
    after_tools.
Qed.

Lemma lit_inj (s1 s2 : string) : lit s1 = lit s2 -> s1 = s2.
Proof.
  unfold lit. intros H.
  apply (f_equal (map ascii_of_N)) in H. rewrite !map_map in H.
  assert (Hid : forall l : list ascii, map (fun a => ascii_of_N (N_of_ascii a)) l = l).
  { induction l as [|a l IH]; [reflexivity|]. cbn [map].
    now rewrite ascii_N_embedding, IH. }
  rewrite !Hid in H.
  apply (f_equal string_of_list_ascii) in H.
  now rewrite !string_of_list_ascii_of_string in H.
Qed.

Lemma to_uint_not_nil (n : nat) : Nat.to_uint n <> Decimal.Nil.
Proof.
  intros H. pose proof (DecimalNat.Unsigned.of_to n) as Hn. rewrite H in Hn.
  simpl in Hn. subst n. discriminate.
Qed.

Lemma str_of_nat_inj (i j : nat) : str_of_nat i = str_of_nat j -> i = j.
Proof.
  unfold str_of_nat. intros H. apply lit_inj in H.
  apply DecimalNat.Unsigned.to_uint_inj.
  pose proof (DecimalString.NilZero.usu _ (to_uint_not_nil i)) as Hi.
  pose proof (DecimalString.NilZero.usu _ (to_uint_not_nil j)) as Hj.
  rewrite H in Hi. congruence.
Qed.

Lemma tool_call_id_of_inj (i j : nat) : tool_call_id_of i = tool_call_id_of j -> i = j.
Proof. unfold tool_call_id_of. intros H. apply app_inv_head in H. now apply str_of_nat_inj. Qed.

Lemma tool_results_ids (tool_calls : list ToolCall) idx clk :
  map tool_call_id (tool_results_of idx clk tool_calls)
  = map (fun i => Some (tool_call_id_of i)) (seq idx (length tool_calls)).
Proof.
  revert idx clk. induction tool_calls as [|tc tool_calls IH]; intros idx clk;
    [reflexivity|].
  cbn [tool_results_of map length seq]. now rewrite IH.
Qed.

(** X11. The results of one round carry the identifiers [call_<idx>],
    [call_<idx+1>], ... in order, no two of them the same: the decimal
    numbering is injective. *)
Theorem tool_call_ids_distinct (tool_calls : list ToolCall) (idx : nat)
    (tool_results : list Message) (st : RunState) :
  exists results st',
    execute_tool_calls idx tool_calls tool_results st = (Ok (tool_results ++ results), st')
    /\ map tool_call_id results
       = map (fun i => Some (lit "call_" ++ str_of_nat i)) (seq idx (length tool_calls))
    /\ NoDup (map tool_call_id results)
    /\ forall i j, lit "call_" ++ str_of_nat i = lit "call_" ++ str_of_nat j -> i = j.
Proof.
  eexists _, _. split; [apply execute_tool_calls_spec|].
  split; [apply tool_results_ids|]. split; [|apply tool_call_id_of_inj].
  rewrite tool_results_ids. apply NoDup_fmap_2; [|apply NoDup_ListNoDup, seq_NoDup].
  intros i j H. apply tool_call_id_of_inj. congruence.
Qed.

Ltac conversation_leaf Q :=
  subst Q; cbv beta; cbn [fst snd stdout requests clock conversation];
  first
    [ exists []; split; [now rewrite app_nil_r|]; split; [now left | constructor]
    | exists [user_message]; split; [reflexivity|];
      split; [right; now exists [] | repeat constructor; now left]
    | eexists (user_message :: map tool_message _);
      split; [now rewrite <- app_assoc|];
      split; [right; now eexists|];
      constructor; [split; [now left | reflexivity]|];
      apply Forall_map, Forall_forall; intros r _; split; [now right | reflexivity] ].

(** X12. A run adds to the conversation nothing, or the user message
    followed by tool messages only: the response of the model is never
    recorded, and no entry carries a [tool_call_id]. *)
Theorem run_conversation_shape (path : option str) (st : RunState) :
  exists added,
    conversation (snd (run_tool_calling_demo path st)) = conversation st ++ added
    /\ (added = []
        \/ exists results,
             added
             = {| role := lit "user"; content := user_query; tool_call_id := None |}
               :: map (fun r => {| role := lit "tool"; content := content r;
                                   tool_call_id := None |}) results)
    /\ Forall (fun m => (role m = lit "user" \/ role m = lit "tool")
                        /\ tool_call_id m = None) added.
Proof.
  pattern (run_tool_calling_demo path st).
  match goal with |- ?P _ => set (Q := P) end.
  destruct st as [out rq clk conv].
  run_unfold. cbn [stdout requests clock conversation].
  destruct (load_config path) as [cfg|e]; [|conversation_leaf Q].
  cbn [stdout requests clock conversation].
  destruct (OpenAI (api_key cfg) (base_url cfg)) as [[]|e]; [|conversation_leaf Q].
  cbn [stdout requests clock conversation].
  destruct (open_template (template_path cfg)) as [| e | t];
    [conversation_leaf Q | conversation_leaf Q |].
  cbn [stdout requests clock conversation config template].
  fold user_message.
  destruct (template_render t (conv ++ [user_message]) cfg) as [p1|e];
    [|conversation_leaf Q].
  rewrite call_llm_spec. cbn [stdout requests clock conversation config template].
  destruct (completions_create rq (model_name cfg) p1 (max_tokens cfg)) as [choices1|e];
    [|state_mk; conversation_leaf Q].
  state_mk.
  destruct (parse_tool_calls (fst (processed cfg (raw_output_of choices1))))
    as [|tc tool_calls]; [conversation_leaf Q|].
  rewrite execute_tool_calls_spec. state_mk.
  rewrite append_results_spec. state_mk.
  match goal with
  | |- context [template_render t ?c cfg] =>
      destruct (template_render t c cfg) as [p2|e]; [|conversation_leaf Q]
  end.
  rewrite call_llm_spec. cbn [stdout requests clock conversation config template].
  destruct (completions_create (S rq) (model_name cfg) p2 (max_tokens cfg))
    as [choices2|e]; state_mk; conversation_leaf Q.
Qed.

End DriverExtras.

(** * The logger and the entry point *)

Section LoggerExtras.

(** X13. [Logger.log_step] prints the top border, the label line, the
    [Details] line when the details are not empty, and the bottom
    border, and changes nothing else. Details no longer than
    [max_length] are shown whole; longer ones are cut to their first
    [max_length] characters followed by three dots, [max_length + 3]
    characters in all; under a negative [max_length] the last
    [-max_length] characters are dropped and the dots added. With the
    default [max_length] the text shown is [shown_details]. *)
Theorem log_step_lines (step details : str) (max_length : Z) (st : RunState) :
  exists shown : option str,
    Logger.log_step step details max_length st
    = (Ok tt,
       {| stdout :=
            stdout st
            ++ [Print (Logger.top_left ++ Logger.times Logger.horizontal 60
                       ++ Logger.top_right);
                Print (Logger.vertical ++ lit " " ++ step)]
            ++ match shown with
               | Some d => [Print (Logger.vertical ++ lit "   Details: " ++ d)]
               | None => []
               end
            ++ [Print (Logger.bottom_left ++ Logger.times Logger.horizontal 60
                       ++ Logger.bottom_right)];
          requests := requests st; clock := clock st;
          conversation := conversation st |})
    /\ (shown = None <-> details = [])
    /\ (forall d, shown = Some d ->
          ((Z.of_nat (length details) <= max_length)%Z -> d = details)
          /\ ((0 <= max_length < Z.of_nat (length details))%Z ->
              d = take (Z.to_nat max_length) details ++ lit "..."
              /\ Z.of_nat (length d) = (max_length + 3)%Z)
          /\ ((max_length < 0)%Z ->
              d = take (length details - Z.to_nat (- max_length)) details ++ lit "..."))
    /\ (max_length = 5000%Z -> shown = shown_details details).
Proof.
  destruct details as [|c details].
  - exists None. split; [|split; [tauto | split; [discriminate | reflexivity]]].
    unfold Logger.log_step, bind, print, emit, ret. cbn [stdout requests clock conversation].
    now rewrite <- !app_assoc.
  - exists (Some (if (max_length <? Z.of_nat (length (c :: details)))%Z
                  then Logger.slice_to (c :: details) max_length ++ lit "..."
                  else c :: details)).
    split; [|split; [split; discriminate | split]].
    + unfold Logger.log_step, bind, print, emit, ret.
      cbn [stdout requests clock conversation]. now rewrite <- !app_assoc.
    + intros d [= <-]. cbn [length].
      destruct (Z.ltb_spec max_length (Z.of_nat (S (length details)))) as [Hlt|Hge].
      * split; [lia|]. unfold Logger.slice_to. split.
        -- intros [Hmax _]. rewrite (proj2 (Z.leb_le 0 max_length) Hmax).
           split; [reflexivity|].
           rewrite length_app, length_take. cbn [length lit map list_ascii_of_string]. lia.
        -- cbn [length]. intros Hneg. now rewrite (proj2 (Z.leb_gt 0 max_length) Hneg).
      * split; [reflexivity|]. split; lia.
    + intros ->. unfold shown_details, Logger.slice_to. cbn [Z.leb].
      destruct (Z.ltb_spec 5000 (Z.of_nat (length (c :: details)))) as [Hlt|Hge].
      * rewrite (proj2 (Nat.ltb_lt 5000 (length (c :: details)))) by lia.
        reflexivity.
      * rewrite (proj2 (Nat.ltb_ge 5000 (length (c :: details)))) by lia. reflexivity.
Qed.

End LoggerExtras.

Section EntryPointExtras.
Context {W : World} {re : ReModule}.


End EntryPointExtras.

(** * The configuration loader *)

Section ConfigurationFacts.
Import Configuration.
Context {H : Host}.

Ltac field_cases k :=
  destruct (decide (k = lit "api_key")) as [->|?]; [vm_compute; reflexivity|];
  destruct (decide (k = lit "base_url")) as [->|?]; [vm_compute; reflexivity|];
  destruct (decide (k = lit "model_name")) as [->|?]; [vm_compute; reflexivity|];
  destruct (decide (k = lit "template_path")) as [->|?]; [vm_compute; reflexivity|];
  destruct (decide (k = lit "use_json_tooldef")) as [->|?]; [vm_compute; reflexivity|];
  destruct (decide (k = lit "add_generation_prompt")) as [->|?]; [vm_compute; reflexivity|];
  destruct (decide (k = lit "show_thinking_tokens")) as [->|?]; [vm_compute; reflexivity|];
  destruct (decide (k = lit "max_tokens")) as [->|?]; [vm_compute; reflexivity|];
  destruct (decide (k = lit "thinking_budget")) as [->|?]; [vm_compute; reflexivity|];
  destruct (decide (k = lit "tools")) as [->|?]; [vm_compute; reflexivity|].

Ltac attributes_eq :=
  apply map_eq; intros k; field_cases k;
  unfold attributes; rewrite !lookup_insert_ne by congruence; reflexivity.

Lemma attributes_api_key c v :
  <[lit "api_key" := PStr v]> (attributes c)
  = attributes
      {| api_key := v; base_url := base_url c; model_name := model_name c;
         template_path := template_path c; use_json_tooldef := use_json_tooldef c;
         add_generation_prompt := add_generation_prompt c;
         show_thinking_tokens := show_thinking_tokens c; max_tokens := max_tokens c;
         thinking_budget := thinking_budget c; tools := tools c |}.
Proof. attributes_eq. Qed.

Lemma attributes_base_url c v :
  <[lit "base_url" := PStr v]> (attributes c)
  = attributes
      {| api_key := api_key c; base_url := v; model_name := model_name c;
         template_path := template_path c; use_json_tooldef := use_json_tooldef c;
         add_generation_prompt := add_generation_prompt c;
         show_thinking_tokens := show_thinking_tokens c; max_tokens := max_tokens c;
         thinking_budget := thinking_budget c; tools := tools c |}.
Proof. attributes_eq. Qed.

Lemma attributes_model_name c v :
  <[lit "model_name" := PStr v]> (attributes c)
  = attributes
      {| api_key := api_key c; base_url := base_url c; model_name := v;
         template_path := template_path c; use_json_tooldef := use_json_tooldef c;
         add_generation_prompt := add_generation_prompt c;
         show_thinking_tokens := show_thinking_tokens c; max_tokens := max_tokens c;
         thinking_budget := thinking_budget c; tools := tools c |}.
Proof. attributes_eq. Qed.

Lemma attributes_template_path c v :
  <[lit "template_path" := PStr v]> (attributes c)
  = attributes
      {| api_key := api_key c; base_url := base_url c; model_name := model_name c;
         template_path := v; use_json_tooldef := use_json_tooldef c;
         add_generation_prompt := add_generation_prompt c;
         show_thinking_tokens := show_thinking_tokens c; max_tokens := max_tokens c;
         thinking_budget := thinking_budget c; tools := tools c |}.
Proof. attributes_eq. Qed.

Lemma attributes_max_tokens c v :
  <[lit "max_tokens" := PInt v]> (attributes c)
  = attributes
      {| api_key := api_key c; base_url := base_url c; model_name := model_name c;
         template_path := template_path c; use_json_tooldef := use_json_tooldef c;
         add_generation_prompt := add_generation_prompt c;
         show_thinking_tokens := show_thinking_tokens c; max_tokens := v;
         thinking_budget := thinking_budget c; tools := tools c |}.
Proof. attributes_eq. Qed.

Lemma attributes_show_thinking_tokens c v :
  <[lit "show_thinking_tokens" := PBool v]> (attributes c)
  = attributes
      {| api_key := api_key c; base_url := base_url c; model_name := model_name c;
         template_path := template_path c; use_json_tooldef := use_json_tooldef c;
         add_generation_prompt := add_generation_prompt c; show_thinking_tokens := v;
         max_tokens := max_tokens c; thinking_budget := thinking_budget c;
         tools := tools c |}.
Proof. attributes_eq. Qed.

Lemma attributes_tools c v :
  <[lit "tools" := PList v]> (attributes c)
  = attributes
      {| api_key := api_key c; base_url := base_url c; model_name := model_name c;
         template_path := template_path c; use_json_tooldef := use_json_tooldef c;
         add_generation_prompt := add_generation_prompt c;
         show_thinking_tokens := show_thinking_tokens c; max_tokens := max_tokens c;
         thinking_budget := thinking_budget c; tools := v |}.
Proof. attributes_eq. Qed.

Lemma set_text_api_key c :
  set_text (lit "api_key") (lit "LLM_API_KEY") (attributes c)
  = attributes
      {| api_key := default (api_key c) (env (lit "LLM_API_KEY")); base_url := base_url c;
         model_name := model_name c; template_path := template_path c;
         use_json_tooldef := use_json_tooldef c;
         add_generation_prompt := add_generation_prompt c;
         show_thinking_tokens := show_thinking_tokens c; max_tokens := max_tokens c;
         thinking_budget := thinking_budget c; tools := tools c |}.
Proof.
  unfold set_text. destruct (env (lit "LLM_API_KEY")) as [v|]; [apply attributes_api_key|].
  now destruct c.
Qed.

Lemma set_text_base_url c :
  set_text (lit "base_url") (lit "LLM_BASE_URL") (attributes c)
  = attributes
      {| api_key := api_key c; base_url := default (base_url c) (env (lit "LLM_BASE_URL"));
         model_name := model_name c; template_path := template_path c;
         use_json_tooldef := use_json_tooldef c;
         add_generation_prompt := add_generation_prompt c;
         show_thinking_tokens := show_thinking_tokens c; max_tokens := max_tokens c;
         thinking_budget := thinking_budget c; tools := tools c |}.
Proof.
  unfold set_text. destruct (env (lit "LLM_BASE_URL")) as [v|]; [apply attributes_base_url|].
  now destruct c.
Qed.

Lemma set_text_model_name c :
  set_text (lit "model_name") (lit "LLM_MODEL_NAME") (attributes c)
  = attributes
      {| api_key := api_key c; base_url := base_url c;
         model_name := default (model_name c) (env (lit "LLM_MODEL_NAME"));
         template_path := template_path c; use_json_tooldef := use_json_tooldef c;
         add_generation_prompt := add_generation_prompt c;
         show_thinking_tokens := show_thinking_tokens c; max_tokens := max_tokens c;
         thinking_budget := thinking_budget c; tools := tools c |}.
Proof.
  unfold set_text. destruct (env (lit "LLM_MODEL_NAME")) as [v|];
    [apply attributes_model_name|].
  now destruct c.
Qed.

Lemma set_text_template_path c :
  set_text (lit "template_path") (lit "TEMPLATE_PATH") (attributes c)
  = attributes
      {| api_key := api_key c; base_url := base_url c; model_name := model_name c;
         template_path := default (template_path c) (env (lit "TEMPLATE_PATH"));
         use_json_tooldef := use_json_tooldef c;
         add_generation_prompt := add_generation_prompt c;
         show_thinking_tokens := show_thinking_tokens c; max_tokens := max_tokens c;
         thinking_budget := thinking_budget c; tools := tools c |}.
Proof.
  unfold set_text. destruct (env (lit "TEMPLATE_PATH")) as [v|];
    [apply attributes_template_path|].
  now destruct c.
Qed.

Lemma load_config_spec (config_path : option str) (st : RunState) :
  Configuration.load_config config_path st
  = match load_dotenv with
    | Raise e => (Raise e, st)
    | Ok _ =>
        match max_tokens_of with
        | Raise e => (Raise e, st)
        | Ok n => file_part config_path (attributes (from_environment n)) st
        end
    end.
Proof.
  assert (Hfile : forall base,
            (config <-
               match config_path with
               | Some (c :: p) =>
                   let config_path := c :: p in
                   if path_exists config_path then
                     match json_load config_path with
                     | Raise e =>
                         print (lit "Warning: Could not load config file " ++ config_path
                                ++ lit ": " ++ exn_msg e);;
                         ret base
                     | Ok file_config =>
                         match items file_config with
                         | Raise e =>
                             print (lit "Warning: Could not load config file "
                                    ++ config_path ++ lit ": " ++ exn_msg e);;
                             ret base
                         | Ok file_items =>
                             match update file_items base with
                             | (config, None) => ret config
                             | (config, Some e) =>
                                 print (lit "Warning: Could not load config file "
                                        ++ config_path ++ lit ": " ++ exn_msg e);;
                                 ret config
                             end
                         end
                     end
                   else ret base
               | _ => ret base
               end;;
             ret (<[lit "tools" := PList default_tools]> config)) st
            = file_part config_path base st).
  { intros base. unfold file_part, bind, print, emit, ret, add_stdout, load_warning.
    destruct config_path as [[|c p]|]; try reflexivity. cbv zeta.
    destruct (path_exists (c :: p)); [|reflexivity].
    destruct (json_load (c :: p)) as [file_config|e]; [|reflexivity].
    destruct (items file_config) as [file_items|e]; [|reflexivity].
    destruct (update file_items base) as [config [e|]]; reflexivity. }
  unfold Configuration.load_config, max_tokens_of.
  unfold bind at 1. unfold lift at 1.
  destruct load_dotenv as [[]|e]; [|reflexivity].
  rewrite set_text_api_key, set_text_base_url, set_text_model_name,
    set_text_template_path.
  cbn [api_key base_url model_name template_path use_json_tooldef add_generation_prompt
         show_thinking_tokens max_tokens thinking_budget tools].
  unfold bind at 1.
  destruct (env (lit "MAX_TOKENS")) as [v|].
  - unfold bind at 1. unfold lift at 1. destruct (int v) as [n|e]; [|reflexivity].
    unfold ret at 1. rewrite attributes_max_tokens.
    cbn [api_key base_url model_name template_path use_json_tooldef add_generation_prompt
           show_thinking_tokens max_tokens thinking_budget tools].
    unfold from_environment.
    destruct (env (lit "SHOW_THINKING_TOKENS")) as [w|];
      rewrite ?attributes_show_thinking_tokens; apply Hfile.
  - unfold ret at 1. unfold from_environment.
    destruct (env (lit "SHOW_THINKING_TOKENS")) as [w|];
      rewrite ?attributes_show_thinking_tokens; apply Hfile.
Qed.

Lemma attributes_has_fields c : has_fields (attributes c).
Proof.
  intros k. unfold attributes, field_names.
  rewrite !lookup_insert_is_Some, lookup_empty, !elem_of_cons, elem_of_nil.
  split.
  - intros Hk.
    repeat (destruct Hk as [<- | [_ Hk]]; [repeat ((left; reflexivity) || right)|]).
    now destruct Hk.
  - intros Hk.
    repeat match goal with
           | |- ?a = k \/ _ => destruct (decide (a = k)); [now left | right; split; [assumption|]]
           end.
    exfalso. intuition congruence.
Qed.

Lemma assign_has_fields config item : has_fields config -> has_fields (assign config item).
Proof.
  intros Hc k. unfold assign. destruct (bool_decide_reflect (fst item ∈ field_names)) as [Hin|];
    [|apply Hc].
  rewrite lookup_insert_is_Some, (Hc k). split.
  - intros [<- | [_ Hk]]; assumption.
  - intros Hk. destruct (decide (fst item = k)); tauto.
Qed.

Lemma update_fields (file_items : list (str * pyval)) (config : config_object) :
  has_fields config ->
  Forall (fun item => fst item ∈ field_names \/ hasattr_other (fst item) = false)
    file_items ->
  update file_items config = (foldl assign config file_items, None).
Proof.
  intros Hc Hitems. revert config Hc.
  induction Hitems as [|[k v] file_items Hk _ IH]; intros config Hc; [reflexivity|].
  cbn [update foldl fst]. unfold hasattr, setattr, assign at 2. cbn [fst snd] in *.
  destruct (bool_decide_reflect (is_Some (config !! k))) as [Hs|Hs].
  - rewrite (bool_decide_eq_true_2 _ (proj1 (Hc k) Hs)). cbn [orb].
    apply IH. intros k'. rewrite lookup_insert_is_Some, (Hc k'). split.
    + intros [<- | [_ Hk']]; [now apply Hc | assumption].
    + intros Hk'. destruct (decide (k = k')); tauto.
  - assert (Hn : k ∉ field_names) by (intros Hin; now apply Hs, Hc).
    destruct Hk as [Hk|Hk]; [contradiction|].
    rewrite Hk, (bool_decide_eq_false_2 _ Hn). cbn [orb]. now apply IH.
Qed.

Lemma foldl_assign_has_fields (file_items : list (str * pyval)) (config : config_object) :
  has_fields config -> has_fields (foldl assign config file_items).
Proof.
  revert config. induction file_items as [|item file_items IH]; intros config Hc;
    [exact Hc|].
  cbn [foldl]. now apply IH, assign_has_fields.
Qed.

Lemma lookup_foldl_assign (file_items : list (str * pyval)) (config : config_object) k :
  k ∈ field_names ->
  foldl assign config file_items !! k
  = match last (filter (fun item => fst item = k) file_items) with
    | Some item => Some (snd item)
    | None => config !! k
    end.
Proof.
  intros Hk. induction file_items as [|item file_items IH] using rev_ind; [reflexivity|].
  rewrite foldl_snoc, filter_app, filter_cons, filter_nil. unfold assign at 1.
  destruct (decide (fst item = k)) as [E|Hne].
  - rewrite last_snoc, E, (bool_decide_eq_true_2 _ Hk). apply lookup_insert_eq.
  - rewrite app_nil_r, <- IH.
    destruct (bool_decide (fst item ∈ field_names)); [|reflexivity].
    now apply lookup_insert_ne.
Qed.

Lemma tools_with_default c :
  <[lit "tools" := PList default_tools]> (attributes c) = attributes (with_default_tools c).
Proof. rewrite attributes_tools. now destruct c. Qed.

(** X14. [load_config] raises exactly when [load_dotenv] raises or
    [int] rejects a non-empty [MAX_TOKENS], and then prints nothing.
    Otherwise it returns, having printed at most one warning, and the
    tool list of the configuration is the default one, whatever the
    environment and the file hold. *)
Theorem load_config_outcome (config_path : option str) (st : RunState) :
  match load_dotenv, max_tokens_of with
  | Raise e, _ | Ok _, Raise e =>
      Configuration.load_config config_path st = (Raise e, st)
  | Ok _, Ok n =>
      exists config warnings,
        Configuration.load_config config_path st
        = (Ok config, add_stdout warnings st)
        /\ (length warnings <= 1)%nat
        /\ config !! lit "tools" = Some (PList default_tools)
  end.
Proof.
  rewrite load_config_spec.
  destruct load_dotenv as [[]|e]; [|reflexivity].
  destruct max_tokens_of as [n|e]; [|reflexivity].
  unfold file_part.
  destruct config_path as [[|c p]|];
    try (eexists _, []; rewrite add_stdout_nil;
         split; [reflexivity | split; [simpl; lia | apply lookup_insert_eq]]).
  destruct (path_exists (c :: p));
    [|eexists _, []; rewrite add_stdout_nil;
      split; [reflexivity | split; [simpl; lia | apply lookup_insert_eq]]].
  destruct (json_load (c :: p)) as [file_config|e];
    [|eexists _, [_]; split; [reflexivity | split; [simpl; lia | apply lookup_insert_eq]]].
  destruct (items file_config) as [file_items|e];
    [|eexists _, [_]; split; [reflexivity | split; [simpl; lia | apply lookup_insert_eq]]].
  destruct (update file_items _) as [config [e|]].
  - eexists _, [_]. split; [reflexivity | split; [simpl; lia | apply lookup_insert_eq]].
  - eexists _, []. rewrite add_stdout_nil.
    split; [reflexivity | split; [simpl; lia | apply lookup_insert_eq]].
Qed.

(** X15. Without a configuration file (no path, an empty path, or a
    path that does not exist) [load_config] returns the defaults with
    each of the six variables of the environment that is set and not
    empty in place of its field, and the default tool list; it prints
    nothing. *)
Theorem load_config_environment (config_path : option str) (n : Z) (st : RunState) :
  load_dotenv = Ok tt ->
  max_tokens_of = Ok n ->
  match config_path with
  | Some (c :: p) => path_exists (c :: p) = false
  | _ => True
  end ->
  Configuration.load_config config_path st
  = (Ok (attributes (with_default_tools (from_environment n))), st).
Proof.
  intros Hdot Hmax Hpath. rewrite load_config_spec, Hdot, Hmax. unfold file_part.
  rewrite tools_with_default.
  destruct config_path as [[|c p]|]; try reflexivity. now rewrite Hpath.
Qed.

(** X16. With a configuration file whose keys are fields or no
    attributes of the object, [load_config] prints nothing and returns
    an object with the fields of [ToolCallConfig] only: each field but
    [tools] holds the last value the file gives it, of whatever type,
    or else the value from the environment; the other keys are passed
    over; [tools] is the default tool list. *)
Theorem load_config_file (c : N) (p : str) (file_items : list (str * pyval)) (n : Z)
    (st : RunState) :
  load_dotenv = Ok tt ->
  max_tokens_of = Ok n ->
  path_exists (c :: p) = true ->
  json_load (c :: p) = Ok (PDict file_items) ->
  Forall (fun item => fst item ∈ field_names \/ hasattr_other (fst item) = false)
    file_items ->
  exists config,
    Configuration.load_config (Some (c :: p)) st = (Ok config, st)
    /\ config !! lit "tools" = Some (PList default_tools)
    /\ (forall k, k ∈ field_names -> k <> lit "tools" ->
          config !! k
          = match last (filter (fun item => fst item = k) file_items) with
            | Some item => Some (snd item)
            | None => attributes (from_environment n) !! k
            end)
    /\ (forall k, k ∉ field_names -> config !! k = None).
Proof.
  intros Hdot Hmax Hpath Hjson Hitems.
  rewrite load_config_spec, Hdot, Hmax. unfold file_part.
  rewrite Hpath, Hjson. cbn [items].
  rewrite (update_fields _ _ (attributes_has_fields _) Hitems).
  eexists. split; [reflexivity|]. split; [apply lookup_insert_eq|]. split.
  - intros k Hk Hne. rewrite lookup_insert_ne by congruence.
    now apply lookup_foldl_assign.
  - intros k Hk.
    assert (Hne : lit "tools" <> k).
    { intros <-. apply Hk. unfold field_names. rewrite !elem_of_cons. tauto. }
    rewrite lookup_insert_ne by exact Hne.
    apply eq_None_not_Some. intros Hs. apply Hk.
    exact (proj1 (foldl_assign_has_fields file_items _ (attributes_has_fields _) k) Hs).
Qed.

Lemma update_app (a b : list (str * pyval)) (config : config_object) :
  update (a ++ b) config
  = match update a config with
    | (config', None) => update b config'
    | (config', Some e) => (config', Some e)
    end.
Proof.
  revert config. induction a as [|[k v] a IH]; intros config; [reflexivity|].
  cbn [app update]. destruct (hasattr config k); [|apply IH].
  destruct (setattr config k v); [apply IH | reflexivity].
Qed.

(** X17. A configuration file that cannot be loaded costs a warning,
    not the run: when reading it raises, or when it holds no JSON
    object, [load_config] prints [Warning: Could not load config file
    <path>: <message>] and returns the configuration of the
    environment; when assigning a key raises, the keys before it stay
    assigned, the keys after it are not looked at, and the warning is
    printed. *)
Theorem load_config_file_failure (c : N) (p : str) (n : Z) (st : RunState) :
  load_dotenv = Ok tt ->
  max_tokens_of = Ok n ->
  path_exists (c :: p) = true ->
  (forall e,
     json_load (c :: p) = Raise e ->
     Configuration.load_config (Some (c :: p)) st
     = (Ok (attributes (with_default_tools (from_environment n))),
        add_stdout
          [Print (lit "Warning: Could not load config file " ++ (c :: p)
                  ++ lit ": " ++ exn_msg e)] st))
  /\ (forall file_config,
        json_load (c :: p) = Ok file_config ->
        (forall d, file_config <> PDict d) ->
        Configuration.load_config (Some (c :: p)) st
        = (Ok (attributes (with_default_tools (from_environment n))),
           add_stdout
             [Print (lit "Warning: Could not load config file " ++ (c :: p)
                     ++ lit ": '" ++ type_name file_config
                     ++ lit "' object has no attribute 'items'")] st))
  /\ (forall done k v rest e,
        json_load (c :: p) = Ok (PDict (done ++ (k, v) :: rest)) ->
        Forall (fun item => fst item ∈ field_names \/ hasattr_other (fst item) = false)
          done ->
        k ∉ field_names ->
        hasattr_other k = true ->
        (forall config, setattr_other k v config = Raise e) ->
        exists config,
          Configuration.load_config (Some (c :: p)) st
          = (Ok config,
             add_stdout
               [Print (lit "Warning: Could not load config file " ++ (c :: p)
                       ++ lit ": " ++ exn_msg e)] st)
          /\ config !! lit "tools" = Some (PList default_tools)
          /\ forall k', k' ∈ field_names -> k' <> lit "tools" ->
               config !! k'
               = match last (filter (fun item => fst item = k') done) with
                 | Some item => Some (snd item)
                 | None => attributes (from_environment n) !! k'
                 end).
Proof.
  intros Hdot Hmax Hpath. repeat split.
  - intros e Hjson. rewrite load_config_spec, Hdot, Hmax. unfold file_part.
    now rewrite Hpath, Hjson, tools_with_default.
  - intros file_config Hjson Hnd. rewrite load_config_spec, Hdot, Hmax. unfold file_part.
    rewrite Hpath, Hjson, tools_with_default. unfold load_warning.
    destruct file_config; try (cbn; now rewrite <- ?app_assoc).
    now contradiction (Hnd d).
  - intros done k v rest e Hjson Hdone Hk Hhas Hset.
    rewrite load_config_spec, Hdot, Hmax. unfold file_part.
    rewrite Hpath, Hjson. cbn [items].
    rewrite update_app, (update_fields _ _ (attributes_has_fields _) Hdone).
    cbn [update]. unfold hasattr, setattr.
    assert (Hno : ~ is_Some (foldl assign (attributes (from_environment n)) done !! k)).
    { intros Hs. apply Hk.
      exact (proj1 (foldl_assign_has_fields done _ (attributes_has_fields _) k) Hs). }
    rewrite (bool_decide_eq_false_2 _ Hno), Hhas, Hset. cbn [orb].
    eexists. split; [reflexivity|]. split; [apply lookup_insert_eq|].
    intros k' Hk' Hne. rewrite lookup_insert_ne by congruence.
    now apply lookup_foldl_assign.
Qed.

End ConfigurationFacts.

(** * The claims on examples *)

Example parse_empty :
  parse_tool_calls (W := scripted_world []) [] = [].
Proof. reflexivity. Qed.

Example parse_no_tags :
  parse_tool_calls (W := scripted_world []) (lit "no tags here") = [].
Proof. vm_compute. reflexivity. Qed.

Example parse_duplicate_parameter :
  parse_tool_calls (W := scripted_world [])
    (lit "<function=f><parameter=a>1</parameter><parameter=a>2</parameter></function>")
  = [{| function := {| name := lit "f"; arguments := {[ lit "a" := PInt 2 ]} |} |}].
Proof. vm_compute. reflexivity. Qed.

Example parse_mixed_case_and_text :
  parse_tool_calls (W := scripted_world [])
    (lit "Sure. <FUNCTION= get_current_local_time >" ++ [10]
     ++ lit "</Function> and <function=g><Parameter=flag> true </PARAMETER></function>")
  = [{| function := {| name := lit "get_current_local_time"; arguments := ∅ |} |};
     {| function := {| name := lit "g"; arguments := {[ lit "flag" := PBool true ]} |} |}].
Proof. vm_compute. reflexivity. Qed.

Example parse_unclosed_block :
  parse_tool_calls (W := scripted_world [])
    (lit "<function=f><parameter=a>1</parameter>") = [].
Proof. vm_compute. reflexivity. Qed.

Example strip_thinking_example :
  strip_thinking
    (lit "<seed:think>The user wants the time." ++ [10] ++ lit "</seed:think>"
     ++ [10; 10] ++ lit "<function=get_current_local_time></function>" ++ [10])
  = lit "<function=get_current_local_time></function>".
Proof. vm_compute. reflexivity. Qed.

(** An answer of 5001 characters is shown cut after 5000. *)
Example long_answer_cut :
  last (stdout (snd (run_tool_calling_demo (W := scripted_world [replicate (S 5000) 97])
                       (re := re_module) None initial_state)))
  = Some (LogBox DirectAnswer (Some (replicate 5000 97 ++ lit "..."))).
Proof. vm_compute. reflexivity. Qed.

Lemma parse_tool_calls_blocks_witness :
  function_blocks
    (lit "<function=f><parameter=a>1</parameter><parameter=a>2</parameter></function>")
    [(lit "f", lit "<parameter=a>1</parameter><parameter=a>2</parameter>")]
  /\ exists tc,
       parse_tool_calls (W := scripted_world [])
         (lit "<function=f><parameter=a>1</parameter><parameter=a>2</parameter></function>")
       = [tc]
       /\ name (function tc) = lit "f"
       /\ arguments (function tc) !! lit "a" = Some (PInt 2).
Proof.
  set (text := lit "<function=f><parameter=a>1</parameter><parameter=a>2</parameter></function>").
  set (body := lit "<parameter=a>1</parameter><parameter=a>2</parameter>").
  assert (Hbs : function_blocks text [(lit "f", body)]).
  { pose proof (blocks_finditer "name" "params" (lit "<function=") (lit "</function>") text)
      as H.
    vm_compute in H. exact H. }
  assert (Hps : parameter_blocks (strip body) [(lit "a", lit "1"); (lit "a", lit "2")]).
  { pose proof (blocks_finditer "name" "value" (lit "<parameter=") (lit "</parameter>")
                  (strip body)) as H.
    vm_compute in H. exact H. }
  split; [exact Hbs|].
  pose proof (proj2 (parse_tool_calls_blocks (W := scripted_world []) text) _ Hbs) as Hall.
  apply Forall2_cons_inv_r in Hall as (tc & calls & (Hname & _ & Hargs) & Hrest & Hcalls).
  apply Forall2_nil_inv_r in Hrest. subst calls.
  exists tc. split; [exact Hcalls|]. split; [exact Hname|].
  destruct (Hargs _ Hps) as (_ & Hlookup). rewrite Hlookup. reflexivity.
Defined.

Lemma parse_tool_calls_values_witness :
  (json_loads (World := scripted_world []) (lit "1") = Ok (PInt 1)
   /\ json_loads (World := scripted_world []) (lit "bar") = Raise JSONDecodeError)
  /\ parse_tool_calls (W := scripted_world [])
       (lit "<function=foo><parameter=x>1</parameter><parameter=y>bar</parameter></function>")
     = [{| function :=
             {| name := lit "foo";
                arguments := <[lit "y" := PStr (lit "bar")]> (<[lit "x" := PInt 1]> ∅) |} |}]
  /\ parse_tool_calls (W := scripted_world [])
       (lit "<function= foo >" ++ [10]
        ++ lit "<parameter= x > 1 </parameter>" ++ [10]
        ++ lit "<parameter=y>" ++ [10] ++ lit "  bar" ++ [9; 10] ++ lit "</parameter>"
        ++ [10] ++ lit "</function>")
     = [{| function :=
             {| name := lit "foo";
                arguments := <[lit "y" := PStr (lit "bar")]> (<[lit "x" := PInt 1]> ∅) |} |}].
Proof.
  assert (H1 : json_loads (World := scripted_world []) (lit "1") = Ok (PInt 1))
    by reflexivity.
  assert (H2 : json_loads (World := scripted_world []) (lit "bar") = Raise JSONDecodeError)
    by reflexivity.
  split; [now split|].
  exact (proj2 (proj2 (proj2 (parse_tool_calls_values (W := scripted_world []))))
           JSONDecodeError H1 H2).
Defined.

Lemma parse_tool_calls_total_witness :
  ~ occurs_i (lit "</function>") (lit "<function=foo><parameter=x>1")
  /\ parse_tool_calls (W := scripted_world []) (lit "<function=foo><parameter=x>1") = []
  /\ ~ occurs_i (lit "<function=") (lit "<parameter=x>1</parameter> no tags here")
  /\ parse_tool_calls (W := scripted_world []) (lit "<parameter=x>1</parameter> no tags here")
     = [].
Proof.
  assert (H1 : ~ occurs_i (lit "</function>") (lit "<function=foo><parameter=x>1"))
    by (apply not_occurs_i_check; vm_compute; reflexivity).
  assert (H2 : ~ occurs_i (lit "<function=") (lit "<parameter=x>1</parameter> no tags here"))
    by (apply not_occurs_i_check; vm_compute; reflexivity).
  destruct (parse_tool_calls_total (W := scripted_world [])
              (lit "<function=foo><parameter=x>1")) as (_ & _ & Hclosed & _).
  destruct (parse_tool_calls_total (W := scripted_world [])
              (lit "<parameter=x>1</parameter> no tags here")) as (_ & _ & _ & Hopened & _).
  split; [exact H1|]. split; [exact (Hclosed H1)|].
  split; [exact H2 | exact (Hopened H2)].
Defined.

Lemma execute_tool_call_dispatch_witness :
  name (function unknown_call) <> lit "get_current_local_time"
  /\ execute_tool_call (W := scripted_world []) unknown_call initial_state
     = (Raise (ValueError (lit "Unknown function 'foo'")), initial_state)
  /\ name (function time_call) = lit "get_current_local_time"
  /\ execute_tool_call (W := scripted_world []) time_call initial_state
     = (Ok (lit "2024-05-20 16:30:00 "), advance 1 initial_state).
Proof.
  assert (H1 : name (function unknown_call) <> lit "get_current_local_time")
    by (intros H; vm_compute in H; discriminate H).
  assert (H2 : name (function time_call) = lit "get_current_local_time")
    by reflexivity.
  destruct (execute_tool_call_dispatch (W := scripted_world []) unknown_call initial_state)
    as (Hu & _ & _).
  destruct (execute_tool_call_dispatch (W := scripted_world []) time_call initial_state)
    as (_ & Ht & _).
  split; [exact H1|]. split; [exact (Hu H1)|]. split; [exact H2 | exact (Ht H2)].
Defined.

Lemma execute_tool_calls_results_witness :
  [time_call; unknown_call] !! 1%nat = Some unknown_call
  /\ exists results st',
       execute_tool_calls (W := scripted_world []) 0 [time_call; unknown_call] []
         initial_state
       = (Ok results, st')
       /\ exists r,
            results !! 1%nat = Some r
            /\ tool_call_id r = Some (lit "call_1")
            /\ content r
               = cross_mark ++ lit " ERROR in tool 'foo': Unknown function 'foo'".
Proof.
  split; [reflexivity|].
  destruct (execute_tool_calls_results (W := scripted_world [])
              [time_call; unknown_call] 0 [] initial_state)
    as (results & st' & Hrun & _ & Heach).
  exists results, st'. split; [exact Hrun|].
  destruct (Heach 1%nat unknown_call eq_refl) as (r & Hr & _ & Hid & Hcontent).
  exists r. split; [exact Hr|]. split; [exact Hid | exact Hcontent].
Defined.

(** The wording of C7 fails: the content of an error
    result does not begin with [ERROR]. *)
Lemma execute_tool_calls_results_counterexample :
  exists r st',
    execute_tool_calls (W := scripted_world []) 0 [unknown_call] [] initial_state
    = (Ok [r], st')
    /\ fst (execute_tool_call (W := scripted_world []) unknown_call initial_state)
       = Raise (ValueError (lit "Unknown function 'foo'"))
    /\ content r <> lit "ERROR in tool 'foo': Unknown function 'foo'".
Proof.
  eexists _, _. split; [reflexivity|]. split; [reflexivity|].
  intros H. vm_compute in H. discriminate H.
Qed.

Lemma process_failure_recovered_witness :
  show_thinking_tokens (config (scripted_client [lit "hello"])) = false
  /\ process_body (re := failing_re) (lit "hello")
     = Raise {| exn_type := lit "MemoryError"; exn_msg := lit "out of memory" |}
  /\ _process_llm_response (re := failing_re) (scripted_client [lit "hello"])
       (lit "hello") initial_state
     = (Ok (lit "hello"),
        add_stdout
          [Print (lit "Warning: Failed to process thinking tokens: out of memory")]
          initial_state)
  /\ fst (run_tool_calling_demo (W := scripted_world [lit "hello"]) (re := failing_re)
            None initial_state) = Ok tt
  /\ last (stdout (snd (run_tool_calling_demo (W := scripted_world [lit "hello"])
                          (re := failing_re) None initial_state)))
     = Some (LogStep DirectAnswer (lit "hello")).
Proof.
  assert (H1 : show_thinking_tokens (config (scripted_client [lit "hello"])) = false)
    by reflexivity.
  assert (H2 : process_body (re := failing_re) (lit "hello")
               = Raise {| exn_type := lit "MemoryError"; exn_msg := lit "out of memory" |})
    by reflexivity.
  destruct (process_failure_recovered (W := scripted_world [lit "hello"])
              (re := failing_re) (scripted_client [lit "hello"]) (lit "hello")
              initial_state)
    as (_ & Hwarn & _ & Hrun).
  split; [exact H1|]. split; [exact H2|]. split; [exact (Hwarn _ H1 H2)|].
  rewrite (Hrun None demo_config tt user_query [lit "hello"] _
             eq_refl eq_refl eq_refl eq_refl eq_refl eq_refl H2 eq_refl).
  split; reflexivity.
Defined.

Lemma run_one_round_witness :
  parse_tool_calls (W := scripted_world [lit "It is noon."])
    (response_of (re := re_module) demo_config [lit "It is noon."]) = []
  /\ requests (snd (run_tool_calling_demo (W := scripted_world [lit "It is noon."])
                      (re := re_module) None initial_state)) = 1%nat
  /\ last (stdout (snd (run_tool_calling_demo (W := scripted_world [lit "It is noon."])
                          (re := re_module) None initial_state)))
     = Some (LogStep DirectAnswer (lit "It is noon."))
  /\ parse_tool_calls (W := scripted_world [time_request; time_request])
       (response_of (re := re_module) demo_config [time_request]) <> []
  /\ requests (snd (run_tool_calling_demo (W := scripted_world [time_request; time_request])
                      (re := re_module) None initial_state)) = 2%nat
  /\ rounds (snd (run_tool_calling_demo (W := scripted_world [time_request; time_request])
                    (re := re_module) None initial_state)) = 1%nat
  /\ dispatched (snd (run_tool_calling_demo
                         (W := scripted_world [time_request; time_request])
                         (re := re_module) None initial_state)) = 1%nat
  /\ clock (snd (run_tool_calling_demo (W := scripted_world [time_request; time_request])
                   (re := re_module) None initial_state)) = 1%nat
  /\ last (stdout (snd (run_tool_calling_demo
                          (W := scripted_world [time_request; time_request])
                          (re := re_module) None initial_state)))
     = Some (LogStep FinalResponse time_request).
Proof.
  assert (H1 : parse_tool_calls (W := scripted_world [lit "It is noon."])
                 (response_of (re := re_module) demo_config [lit "It is noon."]) = [])
    by (vm_compute; reflexivity).
  assert (H2 : parse_tool_calls (W := scripted_world [time_request; time_request])
                 (response_of (re := re_module) demo_config [time_request]) <> [])
    by (vm_compute; discriminate).
  destruct (run_one_round (W := scripted_world [lit "It is noon."]) (re := re_module) None)
    as (_ & Hnone & _).
  destruct (Hnone demo_config tt user_query [lit "It is noon."]
              eq_refl eq_refl eq_refl eq_refl eq_refl H1)
    as (Hreq & _ & _ & _ & _ & Hlast & _).
  destruct (run_one_round (W := scripted_world [time_request; time_request])
              (re := re_module) None) as (_ & _ & Hsome).
  destruct (Hsome demo_config tt user_query [time_request]
              (user_query ++ lit "2024-05-20 16:30:00 ") [time_request]
              eq_refl eq_refl eq_refl eq_refl eq_refl H2 eq_refl eq_refl)
    as (Hreq2 & Hrounds2 & Hdisp2 & Hclock2 & _ & Hlast2).
  split; [exact H1|]. split; [exact Hreq|]. split; [exact Hlast|].
  split; [exact H2|]. split; [exact Hreq2|]. split; [exact Hrounds2|].
  split; [exact Hdisp2|]. split; [exact Hclock2 | exact Hlast2].
Defined.

(** The wording of C5 fails: an empty first response is
    not reported word for word. *)
Lemma run_one_round_counterexample :
  parse_tool_calls (W := scripted_world [[]])
    (response_of (re := re_module) demo_config [[]]) = []
  /\ last (stdout (snd (run_tool_calling_demo (W := scripted_world [[]])
                          (re := re_module) None initial_state)))
     = Some (LogBox DirectAnswer (Some (lit "Empty response")))
  /\ lit "Empty response" <> response_of (re := re_module) demo_config [[]].
Proof.
  split; [vm_compute; reflexivity|]. split; [vm_compute; reflexivity|].
  intros H. vm_compute in H. discriminate H.
Qed.

Lemma tool_results_appended_witness :
  parse_tool_calls (W := scripted_world [time_request; lit "It is 16:30."])
    (response_of (re := re_module) demo_config [time_request]) <> []
  /\ conversation (snd (run_tool_calling_demo
                          (W := scripted_world [time_request; lit "It is 16:30."])
                          (re := re_module) None initial_state))
     = [{| role := lit "user"; content := user_query; tool_call_id := None |};
        {| role := lit "tool"; content := lit "2024-05-20 16:30:00 ";
           tool_call_id := None |}].
Proof.
  assert (H : parse_tool_calls (W := scripted_world [time_request; lit "It is 16:30."])
                (response_of (re := re_module) demo_config [time_request]) <> [])
    by (vm_compute; discriminate).
  split; [exact H|].
  destruct (tool_results_appended (W := scripted_world [time_request; lit "It is 16:30."])
              (re := re_module)) as (_ & _ & Hconv & _).
  rewrite (Hconv None demo_config tt user_query [time_request]
             (user_query ++ lit "2024-05-20 16:30:00 ") [lit "It is 16:30."]
             eq_refl eq_refl eq_refl eq_refl eq_refl H eq_refl eq_refl).
  vm_compute. reflexivity.
Defined.

(** The wording of C9 fails: the tool result itself,
    with its [tool_call_id], is not in the conversation. *)
Lemma tool_results_appended_counterexample :
  exists r,
    tool_results_of (W := scripted_world [time_request; lit "It is 16:30."]) 0 0
      (parse_tool_calls (W := scripted_world [time_request; lit "It is 16:30."])
         (response_of (re := re_module) demo_config [time_request]))
    = [r]
    /\ r ∉ conversation (snd (run_tool_calling_demo
                                (W := scripted_world [time_request; lit "It is 16:30."])
                                (re := re_module) None initial_state)).
Proof.
  eexists. split; [vm_compute; reflexivity|].
  intros Hin. vm_compute in Hin.
  apply elem_of_cons in Hin as [Hin | Hin]; [discriminate Hin|].
  apply elem_of_cons in Hin as [Hin | Hin]; [discriminate Hin|].
  now apply elem_of_nil in Hin.
Qed.

(** * The further properties on examples *)

(** A call with two parameters, after a sentence of the model. *)
Lemma parse_function_text_witness :
  (60 ∉ lit "Let me check. ")
  /\ whitespace [10]
  /\ lit "get_weather" <> []
  /\ (62 ∉ lit "get_weather")
  /\ Forall well_formed_parameter [(lit "city", lit "Paris"); (lit "days", lit "3")]
  /\ parse_tool_calls (W := scripted_world [])
       (lit "Let me check. "
        ++ function_text [10] (lit "get_weather")
             [(lit "city", lit "Paris"); (lit "days", lit "3")]
        ++ [])
     = [{| function :=
             {| name := lit "get_weather";
                arguments :=
                  <[lit "days" := PInt 3]> (<[lit "city" := PStr (lit "Paris")]> ∅) |} |}].
Proof.
  assert (H1 : 60 ∉ lit "Let me check. ")
    by (apply (bool_decide_unpack _); vm_compute; exact I).
  assert (H2 : whitespace [10]) by (repeat constructor).
  assert (H3 : lit "get_weather" <> []) by discriminate.
  assert (H4 : 62 ∉ lit "get_weather")
    by (apply (bool_decide_unpack _); vm_compute; exact I).
  assert (H5 : Forall well_formed_parameter
                 [(lit "city", lit "Paris"); (lit "days", lit "3")]).
  { repeat constructor; try discriminate;
      apply (bool_decide_unpack _); vm_compute; exact I. }
  repeat (split; [assumption|]).
  destruct (parse_function_text (W := scripted_world []) _ _ _ _ [] H1 H2 H3 H4 H5)
    as [Hparse _].
  rewrite Hparse. reflexivity.
Defined.

(** A call of the clock inside a thinking span: it is in the raw text,
    and not in the processed one. *)
Lemma hidden_thinking_not_parsed_witness :
  show_thinking_tokens (config (scripted_client [])) = false
  /\ Forall (fun sp => ~ occurs THINK_BEGIN_TOKEN (fst sp)
                       /\ ~ occurs THINK_END_TOKEN (snd sp))
       [(lit "Sure. ", time_request)]
  /\ ~ occurs THINK_BEGIN_TOKEN (lit " Done.")
  /\ ~ occurs_i (lit "<function=") (without_thinking [(lit "Sure. ", time_request)] (lit " Done."))
  /\ parse_tool_calls (W := scripted_world [])
       (with_thinking [(lit "Sure. ", time_request)] (lit " Done.")) <> []
  /\ exists y,
       _process_llm_response (re := re_module) (scripted_client [])
         (with_thinking [(lit "Sure. ", time_request)] (lit " Done.")) initial_state
       = (Ok y, initial_state)
       /\ parse_tool_calls (W := scripted_world []) y = [].
Proof.
  assert (H1 : show_thinking_tokens (config (scripted_client [])) = false) by reflexivity.
  assert (H2 : Forall (fun sp => ~ occurs THINK_BEGIN_TOKEN (fst sp)
                                 /\ ~ occurs THINK_END_TOKEN (snd sp))
                 [(lit "Sure. ", time_request)]).
  { repeat constructor; apply not_occurs_check; vm_compute; reflexivity. }
  assert (H3 : ~ occurs THINK_BEGIN_TOKEN (lit " Done."))
    by (apply not_occurs_check; vm_compute; reflexivity).
  assert (H4 : ~ occurs_i (lit "<function=")
                   (without_thinking [(lit "Sure. ", time_request)] (lit " Done.")))
    by (apply not_occurs_i_check; vm_compute; reflexivity).
  repeat (split; [assumption|]).
  split; [vm_compute; discriminate|].
  exact (hidden_thinking_not_parsed (scripted_client []) _ _ initial_state H1 H2 H3 H4).
Defined.

(** Thinking that is never closed. *)
Lemma process_unclosed_thinking_witness :
  show_thinking_tokens (config (scripted_client [])) = false
  /\ ~ occurs THINK_END_TOKEN (THINK_BEGIN_TOKEN ++ lit "I should look at the clock.")
  /\ _process_llm_response (re := re_module) (scripted_client [])
       (THINK_BEGIN_TOKEN ++ lit "I should look at the clock.") initial_state
     = (Ok (THINK_BEGIN_TOKEN ++ lit "I should look at the clock."), initial_state).
Proof.
  assert (H1 : show_thinking_tokens (config (scripted_client [])) = false) by reflexivity.
  assert (H2 : ~ occurs THINK_END_TOKEN
                   (THINK_BEGIN_TOKEN ++ lit "I should look at the clock."))
    by (apply not_occurs_check; vm_compute; reflexivity).
  split; [exact H1|]. split; [exact H2|].
  destruct (process_unclosed_thinking (scripted_client []) _ initial_state H1 H2)
    as (Hrun & _).
  rewrite Hrun. reflexivity.
Defined.

(** A missing template file, and a configuration that cannot be loaded. *)
Lemma run_startup_failure_witness :
  run_tool_calling_demo
    (W := staged_world (Ok demo_config) (Ok tt) FileNotFound (fun _ => Ok [])
            (fun _ => Ok []))
    (re := re_module) None initial_state
  = (Ok tt,
     {| stdout :=
          [LogStep StartingDemo [];
           LogStep LoadedConfiguration (lit "Using template: seed_oss_chat_template.jinja");
           LogStep CriticalError
             (lit "RuntimeError: Template file not found: seed_oss_chat_template.jinja");
           LogStep FullTraceback
             (lit "Traceback (most recent call last): Template file not found: seed_oss_chat_template.jinja")];
        requests := 0; clock := 0; conversation := [] |})
  /\ requests
       (snd (run_tool_calling_demo
               (W := staged_world (Raise ConnectionError) (Ok tt) (Loaded tt)
                       (fun _ => Ok []) (fun _ => Ok []))
               (re := re_module) None initial_state)) = 0%nat.
Proof.
  split.
  - destruct (run_startup_failure
                (W := staged_world (Ok demo_config) (Ok tt) FileNotFound (fun _ => Ok [])
                        (fun _ => Ok []))
                (re := re_module) None) as (_ & _ & Hmissing & _).
    exact (Hmissing demo_config eq_refl eq_refl eq_refl).
  - destruct (run_startup_failure
                (W := staged_world (Raise ConnectionError) (Ok tt) (Loaded tt)
                        (fun _ => Ok []) (fun _ => Ok []))
                (re := re_module) None) as (Hload & _).
    now rewrite (Hload ConnectionError eq_refl).
Defined.

(** The endpoint is down at the first request. *)
Lemma run_first_request_failure_witness :
  conversation
    (snd (run_tool_calling_demo
            (W := staged_world (Ok demo_config) (Ok tt) (Loaded tt)
                    (fun messages => Ok (concat (map content messages)))
                    (fun _ => Raise ConnectionError))
            (re := re_module) None initial_state))
  = [user_message]
  /\ last (stdout
             (snd (run_tool_calling_demo
                     (W := staged_world (Ok demo_config) (Ok tt) (Loaded tt)
                             (fun messages => Ok (concat (map content messages)))
                             (fun _ => Raise ConnectionError))
                     (re := re_module) None initial_state)))
     = Some (LogStep FullTraceback
               (lit "Traceback (most recent call last): LLM API call failed: Connection error."))
  /\ requests
       (snd (run_tool_calling_demo
               (W := staged_world (Ok demo_config) (Ok tt) (Loaded tt)
                       (fun _ => Raise ConnectionError) (fun _ => Ok []))
               (re := re_module) None initial_state)) = 0%nat.
Proof.
  destruct (run_first_request_failure
              (W := staged_world (Ok demo_config) (Ok tt) (Loaded tt)
                      (fun messages => Ok (concat (map content messages)))
                      (fun _ => Raise ConnectionError))
              (re := re_module) None demo_config tt eq_refl eq_refl eq_refl)
    as (_ & Hend).
  destruct (run_first_request_failure
              (W := staged_world (Ok demo_config) (Ok tt) (Loaded tt)
                      (fun _ => Raise ConnectionError) (fun _ => Ok []))
              (re := re_module) None demo_config tt eq_refl eq_refl eq_refl)
    as (Hrender & _).
  rewrite (Hend user_query ConnectionError eq_refl eq_refl),
    (Hrender ConnectionError eq_refl).
  repeat split.
Defined.

(** The endpoint goes down after the clock was read. *)
Lemma run_second_request_failure_witness :
  parse_tool_calls
    (W := staged_world (Ok demo_config) (Ok tt) (Loaded tt)
            (fun messages => Ok (concat (map content messages))) failing_endpoint)
    (response_of (re := re_module) demo_config [time_request]) <> []
  /\ requests
       (snd (run_tool_calling_demo
               (W := staged_world (Ok demo_config) (Ok tt) (Loaded tt)
                       (fun messages => Ok (concat (map content messages)))
                       failing_endpoint)
               (re := re_module) None initial_state)) = 2%nat
  /\ clock
       (snd (run_tool_calling_demo
               (W := staged_world (Ok demo_config) (Ok tt) (Loaded tt)
                       (fun messages => Ok (concat (map content messages)))
                       failing_endpoint)
               (re := re_module) None initial_state)) = 1%nat
  /\ conversation
       (snd (run_tool_calling_demo
               (W := staged_world (Ok demo_config) (Ok tt) (Loaded tt)
                       (fun messages => Ok (concat (map content messages)))
                       failing_endpoint)
               (re := re_module) None initial_state))
     = [user_message;
        {| role := lit "tool"; content := lit "2024-05-20 16:30:00 ";
           tool_call_id := None |}]
  /\ List.filter reports_answer
       (stdout
          (snd (run_tool_calling_demo
                  (W := staged_world (Ok demo_config) (Ok tt) (Loaded tt)
                          (fun messages => Ok (concat (map content messages)))
                          failing_endpoint)
                  (re := re_module) None initial_state)))
     = [].
Proof.
  assert (H1 : parse_tool_calls
                 (W := staged_world (Ok demo_config) (Ok tt) (Loaded tt)
                         (fun messages => Ok (concat (map content messages)))
                         failing_endpoint)
                 (response_of (re := re_module) demo_config [time_request]) <> [])
    by (vm_compute; discriminate).
  split; [exact H1|].
  destruct (run_second_request_failure
              (W := staged_world (Ok demo_config) (Ok tt) (Loaded tt)
                      (fun messages => Ok (concat (map content messages)))
                      failing_endpoint)
              (re := re_module) None demo_config tt user_query [time_request]
              eq_refl eq_refl eq_refl eq_refl eq_refl H1)
    as (_ & Hend).
  destruct (Hend (user_query ++ lit "2024-05-20 16:30:00 ") ConnectionError
              eq_refl eq_refl)
    as (Hreq & Hclock & Hconv & _ & _ & Hanswer).
  split; [exact Hreq|]. split; [exact Hclock|]. split; [exact Hconv | exact Hanswer].
Defined.

Lemma load_config_environment_witness :
  Configuration.load_dotenv (Host := scripted_host demo_environment []) = Ok tt
  /\ Configuration.max_tokens_of (H := scripted_host demo_environment []) = Ok 1024%Z
  /\ Configuration.load_config (H := scripted_host demo_environment [])
       (Some (lit "config.json")) initial_state
     = (Ok (Configuration.attributes
              {| api_key := lit "your-api-key-here";
                 base_url := lit "http://localhost:8080/v1";
                 model_name := lit "Seed-OSS-36B";
                 template_path := lit "seed_oss_chat_template.jinja";
                 use_json_tooldef := false;
                 add_generation_prompt := true;
                 show_thinking_tokens := true;
                 max_tokens := 1024;
                 thinking_budget := (-1);
                 tools := default_tools |}),
        initial_state).
Proof.
  assert (H1 : Configuration.load_dotenv (Host := scripted_host demo_environment [])
               = Ok tt) by reflexivity.
  assert (H2 : Configuration.max_tokens_of (H := scripted_host demo_environment [])
               = Ok 1024%Z) by reflexivity.
  split; [exact H1|]. split; [exact H2|].
  exact (load_config_environment (H := scripted_host demo_environment [])
           (Some (lit "config.json")) 1024 initial_state H1 H2 eq_refl).
Defined.

Lemma load_config_file_witness :
  Configuration.load_dotenv
    (Host := scripted_host demo_environment [(lit "config.json", Ok (PDict demo_file))])
  = Ok tt
  /\ Configuration.max_tokens_of
       (H := scripted_host demo_environment [(lit "config.json", Ok (PDict demo_file))])
     = Ok 1024%Z
  /\ Forall (fun item =>
               fst item ∈ Configuration.field_names
               \/ Configuration.hasattr_other
                    (Host := scripted_host demo_environment
                               [(lit "config.json", Ok (PDict demo_file))])
                    (fst item) = false) demo_file
  /\ exists config,
       Configuration.load_config
         (H := scripted_host demo_environment [(lit "config.json", Ok (PDict demo_file))])
         (Some (lit "config.json")) initial_state
       = (Ok config, initial_state)
       /\ config !! lit "model_name" = Some (PStr (lit "Seed-OSS-mini"))
       /\ config !! lit "max_tokens" = Some (PStr (lit "many"))
       /\ config !! lit "show_thinking_tokens" = Some (PBool true)
       /\ config !! lit "tools" = Some (PList default_tools)
       /\ config !! lit "temperature" = None.
Proof.
  set (host := scripted_host demo_environment [(lit "config.json", Ok (PDict demo_file))]).
  assert (H1 : Configuration.load_dotenv (Host := host) = Ok tt) by reflexivity.
  assert (H2 : Configuration.max_tokens_of (H := host) = Ok 1024%Z) by reflexivity.
  assert (H3 : Forall (fun item =>
                         fst item ∈ Configuration.field_names
                         \/ Configuration.hasattr_other (Host := host) (fst item) = false)
                 demo_file).
  { repeat constructor;
      first [ left; apply (bool_decide_unpack _); vm_compute; exact I
            | right; vm_compute; reflexivity ]. }
  split; [exact H1|]. split; [exact H2|]. split; [exact H3|].
  destruct (load_config_file (H := host) 99 (lit "onfig.json") demo_file 1024
              initial_state H1 H2 eq_refl eq_refl H3)
    as (config & Hrun & Htools & Hfields & Hother).
  exists config. split; [exact Hrun|].
  assert (Hin : forall k, bool_decide (k ∈ Configuration.field_names) = true ->
                          k ∈ Configuration.field_names)
    by (intros k Hk; now apply bool_decide_eq_true_1 in Hk).
  split; [rewrite (Hfields (lit "model_name")) by (apply Hin; reflexivity) || discriminate;
          reflexivity|].
  split; [rewrite (Hfields (lit "max_tokens")) by (apply Hin; reflexivity) || discriminate;
          reflexivity|].
  split; [rewrite (Hfields (lit "show_thinking_tokens"))
            by (apply Hin; reflexivity) || discriminate;
          reflexivity|].
  split; [exact Htools|].
  apply Hother. intros Hk. apply (bool_decide_eq_true_2 _) in Hk. discriminate Hk.
Defined.

Lemma load_config_file_failure_witness :
  Configuration.load_dotenv
    (Host := scripted_host demo_environment [(lit "config.json", Ok (PDict broken_file))])
  = Ok tt
  /\ Configuration.max_tokens_of
       (H := scripted_host demo_environment [(lit "config.json", Ok (PDict broken_file))])
     = Ok 1024%Z
  /\ exists config,
       Configuration.load_config
         (H := scripted_host demo_environment
                 [(lit "config.json", Ok (PDict broken_file))])
         (Some (lit "config.json")) initial_state
       = (Ok config,
          add_stdout
            [Print (lit "Warning: Could not load config file config.json: __class__ must be set to a class, not 'int' object")]
            initial_state)
       /\ config !! lit "model_name" = Some (PStr (lit "Seed-OSS-mini"))
       /\ config !! lit "api_key" = Some (PStr (lit "your-api-key-here")).
Proof.
  set (host := scripted_host demo_environment
                 [(lit "config.json", Ok (PDict broken_file))]).
  assert (H1 : Configuration.load_dotenv (Host := host) = Ok tt) by reflexivity.
  assert (H2 : Configuration.max_tokens_of (H := host) = Ok 1024%Z) by reflexivity.
  split; [exact H1|]. split; [exact H2|].
  destruct (load_config_file_failure (H := host) 99 (lit "onfig.json") 1024
              initial_state H1 H2 eq_refl)
    as (_ & _ & Hpartial).
  assert (Hin : forall k, bool_decide (k ∈ Configuration.field_names) = true ->
                          k ∈ Configuration.field_names)
    by (intros k Hk; now apply bool_decide_eq_true_1 in Hk).
  destruct (Hpartial [(lit "model_name", PStr (lit "Seed-OSS-mini"))]
              (lit "__class__") (PInt 1) [(lit "api_key", PStr (lit "secret"))]
              {| exn_type := lit "TypeError";
                 exn_msg := lit "__class__ must be set to a class, not 'int' object" |}
              eq_refl)
    as (config & Hrun & _ & Hfields).
  - constructor; [left; apply Hin; reflexivity | constructor].
  - intros Hk. apply (bool_decide_eq_true_2 _) in Hk. discriminate Hk.
  - reflexivity.
  - reflexivity.
  - exists config. split; [exact Hrun|].
    split; [rewrite (Hfields (lit "model_name")) by (apply Hin; reflexivity) || discriminate;
            reflexivity|].
    rewrite (Hfields (lit "api_key")) by (apply Hin; reflexivity) || discriminate.
    reflexivity.
Defined.
